(** * docstring_to_ahelp: the docutils to ahelp conversion (parsers/docutils.py)

    A shallow embedding of the conversion pipeline of [parsers/docutils.py]:
    the release-number translation, the reference/target registry, the
    inline renderer [astext], the block converters behind
    [make_para_blocks], the version-history store, the section extractors,
    the metadata merger and [convert_docutils] itself.

    Conventions.
    - A Python [str] is a Rocq [string]; a character is its code point, and
      the model covers code points below 256.
    - The module-level globals [references] and [store_versions] and the
      stream written by [dbg] form an explicit [state], threaded by the
      monad [M]. A raised exception keeps the state reached so far, as the
      globals of a Python process do.
    - docutils and ElementTree are libraries the program uses: a docutils
      node is a [node] with the methods the program calls ([tagname],
      [children], [node_astext], the attributes it reads), an ElementTree
      element is an [element]. *)

From Stdlib Require Import String Ascii List Bool Arith Lia OrderedTypeEx.
Import ListNotations.

Local Open Scope string_scope.
Local Open Scope list_scope.

Local Set Warnings "-register-all".

Infix "+++" := String.append (at level 60, right associativity).

(** ** Python string operations *)

Module PyStr.

Definition join (sep : string) (l : list string) : string := String.concat sep l.

(** [s.startswith(p)] *)
Definition startswith (p s : string) : bool := String.prefix p s.

(** [s.endswith(p)] *)
Definition endswith (p s : string) : bool :=
  let n := String.length s in
  let k := String.length p in
  (k <=? n)%nat && String.eqb (String.substring (n - k) k s) p.

(** [s.split(c)] for a one-character separator [c]. *)
Fixpoint split_char (c : ascii) (s : string) : list string :=
  match s with
  | EmptyString => [""]
  | String a s' =>
      if Ascii.eqb a c then "" :: split_char c s'
      else match split_char c s' with
           | [] => [String a ""]
           | t :: ts => String a t :: ts
           end
  end.

(** The code points below 256 for which [str.isspace] holds. *)
Definition isspace (a : ascii) : bool :=
  let n := nat_of_ascii a in
  (((9 <=? n) && (n <=? 13)) || ((28 <=? n) && (n <=? 32))
   || (n =? 133) || (n =? 160))%nat.

Fixpoint lstrip (s : string) : string :=
  match s with
  | EmptyString => ""
  | String a s' => if isspace a then lstrip s' else s
  end.

(** [rstrip s]: drop the trailing white space. *)
Fixpoint rstrip (s : string) : string :=
  match s with
  | EmptyString => ""
  | String a s' =>
      match rstrip s' with
      | EmptyString => if isspace a then "" else String a ""
      | r => String a r
      end
  end.

Definition strip (s : string) : string := rstrip (lstrip s).

(** [split_ws_aux cur s]: the white-space separated words of [s], where
    [cur] holds, reversed, the characters of the word being read. *)
Fixpoint split_ws_aux (cur : string) (s : string) : list string :=
  match s with
  | EmptyString => match cur with EmptyString => [] | _ => [cur] end
  | String a s' =>
      if isspace a
      then match cur with
           | EmptyString => split_ws_aux "" s'
           | _ => cur :: split_ws_aux "" s'
           end
      else split_ws_aux (cur +++ String a "") s'
  end.

(** [s.split()] *)
Definition split (s : string) : list string := split_ws_aux "" s.

(** [first_word s]: the leading word of [s] (no leading white space in
    [s]) and what follows its first white-space character. *)
Fixpoint first_word (s : string) : string * option string :=
  match s with
  | EmptyString => ("", None)
  | String a s' =>
      if isspace a then ("", Some s')
      else let (w, r) := first_word s' in (String a w, r)
  end.

(** [s.split(maxsplit=1)]: the first word and, when something other than
    white space follows it, the rest with its leading white space
    removed. *)
Definition split_max1 (s : string) : list string :=
  match lstrip s with
  | EmptyString => []
  | t =>
      match first_word t with
      | (w, None) => [w]
      | (w, Some r) =>
          match lstrip r with
          | EmptyString => [w]
          | r' => [w; r']
          end
      end
  end.

(** [str.lower] on the code points below 256: the ASCII capitals and the
    Latin-1 capitals other than the multiplication sign. *)
Definition lower_char (a : ascii) : ascii :=
  let n := nat_of_ascii a in
  if (((65 <=? n) && (n <=? 90))
      || ((192 <=? n) && (n <=? 222) && negb (n =? 215)))%nat
  then ascii_of_nat (n + 32) else a.

Fixpoint lower (s : string) : string :=
  match s with
  | EmptyString => ""
  | String a s' => String (lower_char a) (lower s')
  end.

(** [str.upper] restricted to what the program upper-cases (ASCII). *)
Definition upper_char (a : ascii) : ascii :=
  let n := nat_of_ascii a in
  if ((97 <=? n) && (n <=? 122))%nat then ascii_of_nat (n - 32) else a.

Fixpoint upper (s : string) : string :=
  match s with
  | EmptyString => ""
  | String a s' => String (upper_char a) (upper s')
  end.

(** [p in s] for strings: [p] occurs in [s]. *)
Fixpoint contains (p s : string) : bool :=
  String.prefix p s ||
  match s with
  | EmptyString => false
  | String _ s' => contains p s'
  end.

(** [s.find(c)] for a one-character [c]: the first index, if any. *)
Fixpoint find_char (c : ascii) (s : string) : option nat :=
  match s with
  | EmptyString => None
  | String a s' =>
      if Ascii.eqb a c then Some 0
      else option_map S (find_char c s')
  end.

Definition mem (x : string) (l : list string) : bool :=
  existsb (String.eqb x) l.

End PyStr.

(** ** Exceptions and results *)

Inductive exn : Type :=
  | AssertionError
  | ValueError (msg : string)
  | RuntimeError (msg : string)
  | NotImplementedError (msg : string)
  | IndexError
  | KeyError
  | TypeError
  | AttributeError
  | SystemExit.

Inductive result (A : Type) : Type :=
  | Ok (a : A)
  | Raise (e : exn).

Arguments Ok {A} a.
Arguments Raise {A} e.

(** ** convert_version_number (lines 53-97) *)

Definition convert_version_number (v : string) : result string :=
  let toks := PyStr.split_char "." v in
  if negb (length toks =? 3)%nat then Raise AssertionError
  else if negb (String.eqb (nth 0 toks "") "4") then Raise AssertionError
  else if String.eqb (nth 2 toks "") "0"
       then Ok (nth 0 toks "" +++ "." +++ nth 1 toks "")
  else if PyStr.startswith "4.17." v then Ok "4.18"
  else if PyStr.startswith "4.16." v then Ok "4.17"
  else if PyStr.startswith "4.15." v then Ok "4.16"
  else if PyStr.startswith "4.14." v then Ok "4.15"
  else if PyStr.startswith "4.13." v then Ok "4.14"
  else if String.eqb v "4.12.2" then Ok "4.13"
  else if String.eqb v "4.10.1" then Ok "4.11"
  else Ok v.

(** ** The docutils node tree

    A docutils node is a text leaf (tagname [#text]) or an element with a
    tagname, attributes and children. [attributes] holds the attributes
    the program reads: [name], [refuri], [names] (a list, empty when the
    node has none, as docutils initialises it), [xml:space] and [cols]. *)

Record attributes : Type := mkAttrs {
  a_name : option string;
  a_refuri : option string;
  a_names : list string;
  a_xml_space : option string;
  a_cols : option nat
}.

Definition no_attrs : attributes := mkAttrs None None [] None None.

Inductive node : Type :=
  | Text (s : string)
  | Element (tag : string) (attrs : attributes) (kids : list node).

Definition tagname (n : node) : string :=
  match n with
  | Text _ => "#text"
  | Element t _ _ => t
  end.

(** The children of an element, [list(node)]. The program iterates over
    and indexes elements only. *)
Definition children (n : node) : list node :=
  match n with
  | Text _ => []
  | Element _ _ cs => cs
  end.

Definition node_attrs (n : node) : attributes :=
  match n with
  | Text _ => no_attrs
  | Element _ a _ => a
  end.

(** The tagnames of the docutils [TextElement] classes the program
    meets: their [astext] concatenates the children, that of any other
    element joins them with a blank line. *)
Definition text_elements : list string :=
  ["paragraph"; "reference"; "literal"; "emphasis"; "strong";
   "title_reference"; "footnote_reference"; "citation_reference";
   "target"; "rubric"; "term"; "field_name"; "label"; "title";
   "doctest_block"; "literal_block"; "comment"; "inline"].

Definition child_text_separator (t : string) : string :=
  if PyStr.mem t text_elements then "" else String "010" (String "010" "").

(** The docutils method [node.astext()]. *)
Fixpoint node_astext (n : node) : string :=
  match n with
  | Text s => s
  | Element t _ cs => PyStr.join (child_text_separator t) (map node_astext cs)
  end.

(** ** ElementTree elements *)

Inductive element : Type :=
  | Elem (etag : string) (attrib : list (string * option string))
         (text : option string) (tail : option string)
         (sub : list element).

Definition new_element (t : string) : element := Elem t [] None None [].

Definition etag_of (e : element) : string :=
  match e with Elem t _ _ _ _ => t end.

Definition text_of (e : element) : option string :=
  match e with Elem _ _ x _ _ => x end.

Definition tail_of (e : element) : option string :=
  match e with Elem _ _ _ x _ => x end.

Definition sub_of (e : element) : list element :=
  match e with Elem _ _ _ _ cs => cs end.

Definition attrib_of (e : element) : list (string * option string) :=
  match e with Elem _ a _ _ _ => a end.

(** Assignment to a key of a [dict] kept in insertion order. *)
Fixpoint dict_set {V : Type} (k : string) (v : V) (d : list (string * V))
  : list (string * V) :=
  match d with
  | [] => [(k, v)]
  | (k', v') :: d' =>
      if String.eqb k' k then (k, v) :: d' else (k', v') :: dict_set k v d'
  end.

Fixpoint dict_get {V : Type} (k : string) (d : list (string * V)) : option V :=
  match d with
  | [] => None
  | (k', v') :: d' => if String.eqb k' k then Some v' else dict_get k d'
  end.

(** [e.set(k, v)] *)
Definition eset (k : string) (v : option string) (e : element) : element :=
  match e with Elem t a x y cs => Elem t (dict_set k v a) x y cs end.

(** [e.get(k)] *)
Definition eget (k : string) (e : element) : option string :=
  match dict_get k (attrib_of e) with
  | Some v => v
  | None => None
  end.

(** [e.text = x] *)
Definition set_text (x : option string) (e : element) : element :=
  match e with Elem t a _ y cs => Elem t a x y cs end.

(** [e.tail = y] *)
Definition set_tail (y : option string) (e : element) : element :=
  match e with Elem t a x _ cs => Elem t a x y cs end.

(** [e.append(c)] *)
Definition eappend (c : element) (e : element) : element :=
  match e with Elem t a x y cs => Elem t a x y (cs ++ [c]) end.

(** [ElementTree.Element(t).text = x] in one step. *)
Definition text_element (t : string) (x : string) : element :=
  Elem t [] (Some x) None [].

(** ** The program state and its monad *)

(** [store_versions]: the two entry lists, the set of titles already
    used, and whether the key [DONE] has been added. *)
Record store : Type := mkStore {
  versionadded : list element;
  versionchanged : list element;
  titles : list string;
  done : bool
}.

(** One line written by [dbg]: the label, the message, and the nodes the
    message prints. *)
Inductive diag : Type :=
  | Diag (info : string) (msg : string) (shown : list node).

Record state : Type := mkState {
  references : list string;
  store_versions : option store;
  log : list diag
}.

(** The globals when the module has just been imported. *)
Definition initial_state : state := mkState [] None [].

Definition M (A : Type) : Type := state -> result A * state.

Definition ret {A} (a : A) : M A := fun st => (Ok a, st).

Definition bind {A B} (c : M A) (k : A -> M B) : M B :=
  fun st =>
    match c st with
    | (Ok a, st') => k a st'
    | (Raise e, st') => (Raise e, st')
    end.

Definition raise {A} (e : exn) : M A := fun st => (Raise e, st).

Definition lift {A} (r : result A) : M A := fun st => (r, st).

Declare Scope monad_scope.
Delimit Scope monad_scope with monad.
Notation "x <- c ;; k" := (bind c (fun x => k))
  (at level 61, c at next level, right associativity) : monad_scope.
Notation "' p <- c ;; k" := (bind c (fun x => let 'p := x in k))
  (at level 61, p pattern, c at next level, right associativity) : monad_scope.
Notation "c ;;; k" := (bind c (fun _ => k))
  (at level 61, right associativity) : monad_scope.
Local Open Scope monad_scope.

(** [assert b] *)
Definition assert (b : bool) : M unit :=
  if b then ret tt else raise AssertionError.

(** [dbg(msg, info)] *)
Definition dbg (info msg : string) (shown : list node) : M unit :=
  fun st => (Ok tt, mkState (references st) (store_versions st)
                            (log st ++ [Diag info msg shown])).

(** [mapM f l]: run [f] on the elements of [l] from left to right. *)
Definition mapM {A B : Type} (f : A -> M B) : list A -> M (list B) :=
  fix go (l : list A) : M (list B) :=
    match l with
    | [] => ret []
    | a :: l' => b <- f a ;; bs <- go l' ;; ret (b :: bs)
    end.

(** [forM_ l f]: a [for] loop whose body returns nothing. *)
Definition forM_ {A : Type} (f : A -> M unit) : list A -> M unit :=
  fix go (l : list A) : M unit :=
    match l with
    | [] => ret tt
    | a :: l' => f a ;;; go l'
    end.

(** [n[i]]: the [i]-th child, [IndexError] when there is none. *)
Definition child (i : nat) (n : node) : M node :=
  match nth_error (children n) i with
  | Some c => ret c
  | None => raise IndexError
  end.

(** [is_para] (lines 148-165) *)
Definition is_para (n : node) : bool := String.eqb (tagname n) "paragraph".

(** ** The reference/target registry (lines 173-206) *)

(** [references.add(x)] *)
Definition set_add (x : string) (s : list string) : list string :=
  if PyStr.mem x s then s else s ++ [x].

Definition process_reference (n : node) : M (string * option string) :=
  assert (String.eqb (tagname n) "reference") ;;;
  (match a_name (node_attrs n) with
   | Some name =>
       fun st => (Ok tt, mkState (set_add (PyStr.lower name) (references st))
                                 (store_versions st) (log st))
   | None => ret tt
   end) ;;;
  ret (node_astext n, a_refuri (node_attrs n)).

Definition process_target (n : node) : M unit :=
  assert (String.eqb (tagname n) "target") ;;;
  let names := a_names (node_attrs n) in
  assert (length names =? 1)%nat ;;;
  fun st =>
    if PyStr.mem (PyStr.lower (nth 0 names "")) (references st)
    then (Ok tt, st)
    else (Raise (ValueError "Found un-referenced target block"), st).

(** ** The inline renderer astext (lines 209-349) *)

Definition is_lower_alnum (a : ascii) : bool :=
  let n := nat_of_ascii a in
  (((97 <=? n) && (n <=? 122)) || ((48 <=? n) && (n <=? 57)))%nat.

Fixpoint all_chars (p : ascii -> bool) (s : string) : bool :=
  match s with
  | EmptyString => true
  | String a s' => p a && all_chars p s'
  end.

Definition newline : string := String "010" "".

(** The double-quote character as a string. *)
Definition dquote : string := String (ascii_of_nat 34) "".

(** [re.match(XSMODEL_RE, s) is not None] for [^XS[a-z0-9]+$]: the
    letters XS, then one or more lower-case letters or digits, up to the
    end of [s] or to a last newline. *)
Definition xsmodel_re_match (s : string) : bool :=
  match s with
  | String "X" (String "S" body) =>
      let body' := if PyStr.endswith newline body
                   then String.substring 0 (String.length body - 1) body
                   else body in
      (negb (String.eqb body "") && all_chars is_lower_alnum body)
      || (negb (String.eqb body' "") && all_chars is_lower_alnum body')
  | _ => false
  end.

Definition backquoted (s : string) : string := "`" +++ s +++ "`".

(** The [title_reference] case of [astext]. *)
Definition astext_title_reference (out : string) : result string :=
  if PyStr.mem out ["sherpa.sim"; "sherpa.utils"; "sherpa.astro.datastack";
                    "sherpa.ui"; "sherpa.astro.ui"; "sherpa.utils.logging"]
  then Ok (backquoted out)
  else if PyStr.startswith "sherpa." out || PyStr.startswith "~" out
  then
    let toks := PyStr.split_char "." out in
    if negb (1 <? length toks)%nat then Raise AssertionError
    else
      let ltok := last toks "" in
      if PyStr.mem ltok ["JDPileup"; "PSFModel"]
      then Ok (backquoted (PyStr.lower ltok))
      else Ok (backquoted ltok)
  else if PyStr.startswith "sherpa" out then Raise AssertionError
  else Ok (backquoted out).

(** The [literal] case of [astext]. *)
Definition astext_literal (out : string) : result string :=
  if PyStr.mem out ["True"; "False"; "StringIO"] then Ok out
  else if PyStr.startswith "XS" out && negb (xsmodel_re_match out)
  then Raise AssertionError
  else Ok (PyStr.lower out).

Fixpoint astext (n : node) : M string :=
  match n with
  | Text s => ret s
  | Element t _ cs =>
      if String.eqb t "system_message" then
        dbg "DBG" "- skipping message: " [n] ;;; ret ""
      else if String.eqb t "#text" then ret (node_astext n)
      else if String.eqb t "reference" then ret (node_astext n)
      else if String.eqb t "footnote" then
        match cs with
        | [] => raise IndexError
        | c0 :: cs' =>
            assert (String.eqb (tagname c0) "label") ;;;
            let ctr := "[" +++ node_astext c0 +++ "]" in
            match cs' with
            | [] => raise IndexError
            | c1 :: _ =>
                if String.eqb (tagname c1) "paragraph"
                   || String.eqb (tagname c1) "enumerated_list"
                then cts <- astext c1 ;; ret (ctr +++ " " +++ cts)
                else raise (ValueError "Unexpected node in footnote")
            end
        end
      else if String.eqb t "footnote_reference" then
        ret ("[" +++ node_astext n +++ "]")
      else if String.eqb t "title_reference" then
        lift (astext_title_reference (node_astext n))
      else if String.eqb t "literal" then
        lift (astext_literal (node_astext n))
      else if String.eqb t "emphasis" then ret (node_astext n)
      else if String.eqb t "strong" then ret (node_astext n)
      else if String.eqb t "target" then process_target n ;;; ret ""
      else if String.eqb t "citation_reference" then
        ret ("[" +++ node_astext n +++ "]")
      else
        assert (PyStr.mem t ["paragraph"; "list_item"; "enumerated_list"]) ;;;
        out <- mapM astext cs ;;
        ret (PyStr.join " " out)
  end.

(** ** SYNTAX and HREF blocks (lines 352-411) *)

Definition make_syntax_block (lines : list string) : M element :=
  assert (0 <? length lines)%nat ;;;
  ret (Elem "SYNTAX" [] None None (map (text_element "LINE") lines)).

Definition make_href (n : node) : M element :=
  '(txt, uri) <- process_reference n ;;
  ret (Elem "HREF" [("link", uri)] (Some txt) None []).

(** The f-string of [make_href_text] prints a missing [refuri] as
    [None]. *)
Definition show_opt (o : option string) : string :=
  match o with Some s => s | None => "None" end.

Definition make_href_text (n : node) : M string :=
  '(txt, uri) <- process_reference n ;;
  ret (txt +++ " [" +++ show_opt uri +++ "]").

(** ** convert_para (lines 414-493)

    [convert_para_loop] is the [for n in para] loop: [text] is the list
    being accumulated, [out] the PARA without the HREF still open, and
    [href] that HREF; the HREF joins [out] once its tail is known. *)

Definition close_run (text : list string) (out : element)
    (href : option element) : element :=
  match href with
  | None => set_text (Some (PyStr.join newline text)) out
  | Some h => eappend (set_tail (Some (PyStr.join newline text)) h) out
  end.

Fixpoint convert_para_loop (complex : bool) (ns : list node)
    (text : list string) (out : element) (href : option element)
  : M element :=
  match ns with
  | [] => ret (close_run text out href)
  | n :: ns' =>
      if String.eqb (tagname n) "target" then
        process_target n ;;; convert_para_loop complex ns' text out href
      else if String.eqb (tagname n) "reference" then
        if negb complex then
          _ <- process_reference n ;;
          t <- make_href_text n ;;
          convert_para_loop complex ns' (text ++ [t]) out href
        else
          let out' := close_run text out href in
          h <- make_href n ;;
          convert_para_loop complex ns' [] out' (Some h)
      else
        t <- astext n ;;
        convert_para_loop complex ns' (text ++ [t]) out href
  end.

Definition convert_para (para : node) (complex : bool) : M element :=
  (if negb (String.eqb (tagname para) "paragraph")
   then dbg "DBG" ("- paragraph handling " +++ tagname para) []
   else ret tt) ;;;
  convert_para_loop complex (children para) [] (new_element "PARA") None.

(** ** Block converters (lines 496-960) *)

Definition all_tagged (t : string) (ns : list node) : bool :=
  forallb (fun n => String.eqb (tagname n) t) ns.

Definition convert_doctest_block (para : node) : M element :=
  assert (String.eqb (tagname para) "doctest_block") ;;;
  assert (match a_xml_space (node_attrs para) with
          | Some v => String.eqb v "preserve"
          | None => false
          end) ;;;
  ret (text_element "VERBATIM" (node_astext para)).

Definition convert_literal_block (para : node) : M element :=
  assert (String.eqb (tagname para) "literal_block") ;;;
  assert (match a_xml_space (node_attrs para) with
          | Some v => String.eqb v "preserve"
          | None => false
          end) ;;;
  ret (text_element "VERBATIM" (node_astext para)).

Definition convert_list_items (para : node) : M element :=
  items <- mapM (fun el =>
                   assert (String.eqb (tagname el) "list_item") ;;;
                   t <- astext el ;;
                   ret (text_element "ITEM" t))
                (children para) ;;
  ret (Elem "LIST" [] None None items).

Definition blank_line : string := newline +++ newline.

Definition convert_block_quote (para : node) : M element :=
  assert (String.eqb (tagname para) "block_quote") ;;;
  p0 <- child 0 para ;;
  if PyStr.mem (tagname p0) ["bullet_list"; "enumerated_list"] then
    assert (length (children para) =? 1)%nat ;;;
    convert_list_items p0
  else if all_tagged "doctest_block" (children para) then
    let ls := map node_astext (children para) in
    ret (text_element "VERBATIM" (PyStr.join blank_line ls))
  else if String.eqb (tagname p0) "paragraph" then
    assert (length (children para) =? 1)%nat ;;;
    t <- astext p0 ;;
    ret (text_element "VERBATIM" t)
  else raise (ValueError "Unexpected block_quote element").

Definition convert_enumerated_list (para : node) : M element :=
  assert (String.eqb (tagname para) "enumerated_list") ;;;
  convert_list_items para.

Definition convert_bullet_list (para : node) : M element :=
  assert (String.eqb (tagname para) "bullet_list") ;;;
  convert_list_items para.

(** The checks made on one [definition_list_item] (lines 736-741). *)
Definition check_definition_list_item (el : node) : M (node * node) :=
  assert (String.eqb (tagname el) "definition_list_item") ;;;
  el0 <- child 0 el ;;
  assert (String.eqb (tagname el0) "term") ;;;
  el00 <- child 0 el0 ;;
  assert (PyStr.mem (tagname el00) ["literal"; "#text"]) ;;;
  el1 <- child 1 el ;;
  assert (String.eqb (tagname el1) "definition") ;;;
  el10 <- child 0 el1 ;;
  assert (String.eqb (tagname el10) "paragraph") ;;;
  assert (length (children el1) =? 1)%nat ;;;
  ret (el0, el10).

Definition table_row (cells : list string) : element :=
  Elem "ROW" [] None None (map (text_element "DATA") cells).

Definition convert_definition_list_as_table (para : node)
  : M (list element) :=
  assert (String.eqb (tagname para) "definition_list") ;;;
  rows <- mapM (fun el =>
                  '(term, body) <- check_definition_list_item el ;;
                  t <- astext body ;;
                  ret (table_row [node_astext term; t]))
               (children para) ;;
  ret [Elem "TABLE" [] None None (table_row ["Item"; "Definition"] :: rows)].

Definition convert_definition_list (para : node) : M (list element) :=
  convert_definition_list_as_table para.

Definition convert_definition (para : node) : M element :=
  assert (String.eqb (tagname para) "definition") ;;;
  text <- mapM astext (children para) ;;
  ret (text_element "PARA" (PyStr.join newline text)).

(** [add_table_row]: the ROW elements of one [thead] or [tbody]. *)
Definition add_table_row (el : node) : M (list element) :=
  assert (PyStr.mem (tagname el) ["thead"; "tbody"]) ;;;
  mapM (fun row =>
          assert (String.eqb (tagname row) "row") ;;;
          cells <- mapM (fun entry =>
                           assert (String.eqb (tagname entry) "entry") ;;;
                           match children entry with
                           | [] => ret ""
                           | e0 :: rest =>
                               assert (length rest =? 0)%nat ;;;
                               assert (String.eqb (tagname e0) "paragraph") ;;;
                               ret (node_astext entry)
                           end)
                        (children row) ;;
          ret (table_row cells))
       (children el).

Definition convert_table (tbl : node) : M element :=
  assert (String.eqb (tagname tbl) "table") ;;;
  assert (length (children tbl) =? 1)%nat ;;;
  tgroup <- child 0 tbl ;;
  assert (String.eqb (tagname tgroup) "tgroup") ;;;
  match a_cols (node_attrs tgroup) with
  | None => raise TypeError
  | Some ncols =>
      assert (1 <=? ncols)%nat ;;;
      rows <- mapM (fun el =>
                      if String.eqb (tagname el) "colspec" then ret []
                      else if PyStr.mem (tagname el) ["thead"; "tbody"]
                      then add_table_row el
                      else raise (ValueError "Unexpected tag"))
                   (children tgroup) ;;
      ret (Elem "TABLE" [] None None (concat rows))
  end.

(** [convert_note] returns [None] for the one suppressed title. *)
Definition convert_note (note : node) : M (option element) :=
  assert (String.eqb (tagname note) "note") ;;;
  assert (all_tagged "paragraph" (children note)) ;;;
  assert (length (children note) <? 3)%nat ;;;
  '(title, out) <-
     (if (length (children note) =? 1)%nat then
        n0 <- child 0 note ;;
        out <- convert_para n0 true ;;
        ret ("Note", out)
      else
        n0 <- child 0 note ;;
        title <- astext n0 ;;
        n1 <- child 1 note ;;
        out <- convert_para n1 true ;;
        ret (title, out)) ;;
  if String.eqb title "Parameter renames in XSPEC 12.11.1" then ret None
  else ret (Some (eset "title" (Some title) out)).

Definition convert_warning (note : node) : M element :=
  assert (String.eqb (tagname note) "warning") ;;;
  assert (all_tagged "paragraph" (children note)) ;;;
  assert (length (children note) <? 3)%nat ;;;
  if (length (children note) =? 1)%nat then
    n0 <- child 0 note ;;
    out <- convert_para n0 true ;;
    ret (eset "title" (Some "Warning") out)
  else raise (NotImplementedError "need to handle").

(** ** The version-history store (lines 963-1101) *)

Definition empty_store : store := mkStore [] [] [] false.

Definition reset_stored_versions : M unit :=
  fun st => (Ok tt, mkState (references st) (Some empty_store) (log st)).

(** Reading the global [store_versions]; subscripting or testing
    membership in [None] is a [TypeError]. *)
Definition get_store : M store :=
  fun st =>
    match store_versions st with
    | Some s => (Ok s, st)
    | None => (Raise TypeError, st)
    end.

Definition put_store (s : store) : M unit :=
  fun st => (Ok tt, mkState (references st) (Some s) (log st)).

(** [store_versions[key].append(e)] for the two list keys. *)
Definition store_append (key : string) (e : element) : M unit :=
  s <- get_store ;;
  if String.eqb key "versionadded" then
    put_store (mkStore (versionadded s ++ [e]) (versionchanged s)
                       (titles s) (done s))
  else if String.eqb key "versionchanged" then
    put_store (mkStore (versionadded s) (versionchanged s ++ [e])
                       (titles s) (done s))
  else raise KeyError.

Definition is_digit (a : ascii) : bool :=
  let n := nat_of_ascii a in ((48 <=? n) && (n <=? 57))%nat.

(** [re.match(XSVERSION_WARNING, s) is not None] for
    [^This model requires XSPEC 12\.\d\d\.\d or later.$]: the final dot
    of the pattern stands for any character but a newline, and the match
    ends at the end of [s] or at a last newline. *)
Definition xsversion_warning_match (s : string) : bool :=
  let pre := "This model requires XSPEC 12." in
  if PyStr.startswith pre s then
    match String.substring (String.length pre) (String.length s) s with
    | String d1 (String d2 (String "." (String d3 rest))) =>
        is_digit d1 && is_digit d2 && is_digit d3 &&
        (if PyStr.startswith " or later" rest then
           match String.substring 9 (String.length rest) rest with
           | String c EmptyString => negb (Ascii.eqb c "010")
           | String c (String "010" EmptyString) => negb (Ascii.eqb c "010")
           | _ => false
           end
         else false)
    | _ => false
    end
  else false.

Definition version_label (t : string) : M string :=
  if String.eqb t "versionadded" then ret "Added"
  else if String.eqb t "versionchanged" then ret "Changed"
  else raise AssertionError.

Definition convert_versionwarning (block : node) : M unit :=
  s <- get_store ;;
  (if done s then raise (ValueError "Unexpected block") else ret tt) ;;;
  lbl <- version_label (tagname block) ;;
  assert (forallb is_para (children block)) ;;;
  block0 <- child 0 block ;;
  b0 <- astext block0 ;;
  let toks := PyStr.split_max1 b0 in
  match toks with
  | [] => raise IndexError
  | tok0 :: rest =>
      version <- lift (convert_version_number tok0) ;;
      let title := lbl +++ " in CIAO " +++ version in
      s <- get_store ;;
      out <- (if negb (PyStr.mem title (titles s)) then
                put_store (mkStore (versionadded s) (versionchanged s)
                                   (set_add title (titles s)) (done s)) ;;;
                ret (eset "title" (Some title) (new_element "PARA"))
              else ret (new_element "PARA")) ;;
      let out := match rest with
                 | tok1 :: _ =>
                     if negb (xsversion_warning_match tok1)
                     then set_text (Some tok1) out else out
                 | [] => out
                 end in
      store_append (tagname block) out ;;;
      forM_ (fun blk =>
               (if negb (is_para blk) then raise (RuntimeError "blk")
                else ret tt) ;;;
               t <- astext blk ;;
               store_append (tagname block) (text_element "PARA" t))
            (tl (children block))
  end.

(** [s.split('\n', maxsplit=1)] *)
Fixpoint split_newline1 (s : string) : list string :=
  match s with
  | EmptyString => [""]
  | String a s' =>
      if Ascii.eqb a "010" then [""; s']
      else match split_newline1 s' with
           | t :: ts => String a t :: ts
           | [] => [String a ""]
           end
  end.

Definition convert_comment_versionwarning (block : node) : M unit :=
  s <- get_store ;;
  (if done s then raise (ValueError "Unexpected block") else ret tt) ;;;
  assert (length (children block) =? 1)%nat ;;;
  block0 <- child 0 block ;;
  astxt <- astext block0 ;;
  match PyStr.find_char ":" astxt with
  | None => raise AssertionError
  | Some 0 => raise AssertionError
  | Some idx =>
      let tag := String.substring 0 idx astxt in
      lbl <- version_label tag ;;
      let astxt' := String.substring (idx + 1) (String.length astxt) astxt in
      let toks := split_newline1 astxt' in
      version <- lift (convert_version_number (PyStr.strip (nth 0 toks ""))) ;;
      let title := lbl +++ " in CIAO " +++ version in
      let out := eset "title" (Some title) (new_element "PARA") in
      let out := match toks with
                 | [_; tok1] => set_text (Some tok1) out
                 | _ => out
                 end in
      store_append tag out
  end.

(** ** convert_field_body and the dispatch of make_para_blocks
       (lines 1104-1207) *)

Definition convert_field_body (fbody : node) : M element :=
  assert (String.eqb (tagname fbody) "field_body") ;;;
  if negb (all_tagged "paragraph" (children fbody))
  then raise (ValueError "Expected only paragragh")
  else
    match children fbody with
    | [] => ret (new_element "PARA")
    | [p] => convert_para p false
    | _ => raise (ValueError "Need to handle blocks")
    end.

(** [make_para_blocks]: the look-up in [para_converters], the converters
    that return [None], and the wrapping of a single result in a list
    ([para_mconverters] names the one converter returning a list). *)
Definition make_para_blocks (para : node) : M (list element) :=
  let t := tagname para in
  let single (c : M element) : M (list element) := e <- c ;; ret [e] in
  if String.eqb t "system_message" then
    dbg "DBG" "- skipping message: " [para] ;;; ret []
  else if is_para para then single (convert_para para true)
  else if String.eqb t "doctest_block" then single (convert_doctest_block para)
  else if String.eqb t "block_quote" then single (convert_block_quote para)
  else if String.eqb t "enumerated_list"
  then single (convert_enumerated_list para)
  else if String.eqb t "definition_list" then convert_definition_list para
  else if String.eqb t "definition" then single (convert_definition para)
  else if String.eqb t "bullet_list" then single (convert_bullet_list para)
  else if String.eqb t "table" then single (convert_table para)
  else if String.eqb t "note" then
    o <- convert_note para ;;
    ret (match o with Some e => [e] | None => [] end)
  else if String.eqb t "warning" then single (convert_warning para)
  else if String.eqb t "versionadded" then
    convert_versionwarning para ;;; ret []
  else if String.eqb t "versionchanged" then
    convert_versionwarning para ;;; ret []
  else if String.eqb t "comment" then
    convert_comment_versionwarning para ;;; ret []
  else if String.eqb t "field_body" then single (convert_field_body para)
  else if String.eqb t "literal_block" then single (convert_literal_block para)
  else raise (ValueError "Unsupported paragraph type").

(** ** Rendering traces of the registry

    Every access to [references] goes through [process_reference] and
    [process_target]: a conversion acts on the registry as the sequence
    of these calls, in rendering order. *)

Inductive registry_event : Type :=
  | RenderReference (n : node)
  | RenderTarget (n : node).

Definition render_event (ev : registry_event) : M unit :=
  match ev with
  | RenderReference n => _ <- process_reference n ;; ret tt
  | RenderTarget n => process_target n
  end.

Definition render_events : list registry_event -> M unit :=
  forM_ render_event.

Definition reference_node (name : option string) (uri display : string)
  : node :=
  Element "reference" (mkAttrs name (Some uri) [] None None) [Text display].

Definition target_node (names : list string) : node :=
  Element "target" (mkAttrs None None names None None) [].

Definition doctest_block (s : string) : node :=
  Element "doctest_block" (mkAttrs None None [] (Some "preserve") None)
          [Text s].

(** ** The shape of a converted paragraph

    [para_runs ns t0 hs]: the children [ns] of a paragraph read as a
    leading run of rendered texts [t0] followed, for each Reference [r],
    by [r] and the run of rendered texts after it. A Target contributes
    nothing; any other child contributes the text [astext] renders. *)

Definition rendered (n : node) (s : string) : Prop :=
  exists st1 st2, astext n st1 = (Ok s, st2).

Inductive para_runs
  : list node -> list string -> list (node * list string) -> Prop :=
  | runs_nil : para_runs [] [] []
  | runs_target n ns t0 hs :
      tagname n = "target" ->
      para_runs ns t0 hs -> para_runs (n :: ns) t0 hs
  | runs_reference n ns t0 hs :
      tagname n = "reference" ->
      para_runs ns t0 hs -> para_runs (n :: ns) [] ((n, t0) :: hs)
  | runs_text n s ns t0 hs :
      tagname n <> "target" -> tagname n <> "reference" ->
      rendered n s ->
      para_runs ns t0 hs -> para_runs (n :: ns) (s :: t0) hs.

(** The HREF of a Reference [r] followed by the run [ts]. *)
Definition href_of (h : node * list string) : element :=
  let (r, ts) := h in
  Elem "HREF" [("link", a_refuri (node_attrs r))]
       (Some (node_astext r)) (Some (PyStr.join newline ts)) [].

(** [append_all out hs]: [out.append(h)] for each [h] of [hs] in turn. *)
Definition append_all (out : element) (hs : list element) : element :=
  fold_left (fun o h => eappend h o) hs out.

Definition text_or_reference (n : node) : bool :=
  match n with
  | Text _ => true
  | Element t _ _ => String.eqb t "reference"
  end.

(** ** merge_metadata (lines 2803-2844)

    A metadata [dict] maps a key to a [str] or to [None]; it is kept as
    the list of its items in insertion order. *)

Definition value : Type := option string.
Definition dict : Type := list (string * value).

Definition dict_mem {V : Type} (k : string) (d : list (string * V)) : bool :=
  match dict_get k d with Some _ => true | None => false end.

(** [insert_uniq x l]: [x] put at its place in the increasing list [l],
    unless it is there already. *)
Fixpoint insert_uniq (x : string) (l : list string) : list string :=
  match l with
  | [] => [x]
  | y :: l' =>
      match String.compare x y with
      | Lt => x :: l
      | Eq => l
      | Gt => y :: insert_uniq x l'
      end
  end.

(** [sorted(list(set(vals)))]: the distinct strings of [vals] in
    increasing order. *)
Definition sorted_set (vals : list string) : list string :=
  fold_right insert_uniq [] vals.

Definition multi_value_keys : list string :=
  ["seealsogroups"; "displayseealsogroups"; "refkeywords"].

(** The inner function [append_values(k, v)]; [None.split()] is an
    [AttributeError]. *)
Definition append_values (xmlattrs : dict) (k : string) (v : value)
  : result string :=
  match dict_get k xmlattrs with
  | None => Raise KeyError
  | Some None => Raise AttributeError
  | Some (Some old) =>
      match v with
      | None => Raise AttributeError
      | Some new =>
          Ok (PyStr.join " " (sorted_set (PyStr.split old ++ PyStr.split new)))
      end
  end.

(** One turn of the loop over [metadata.items()]. *)
Definition merge_item (xmlattrs : dict) (kv : string * value) : result dict :=
  let (k, v) := kv in
  if negb (dict_mem k xmlattrs) then Raise AssertionError
  else if PyStr.mem k multi_value_keys then
    match append_values xmlattrs k v with
    | Ok s => Ok (dict_set k (Some s) xmlattrs)
    | Raise e => Raise e
    end
  else Ok (dict_set k v xmlattrs).

Fixpoint merge_items (xmlattrs : dict) (items : dict) : result dict :=
  match items with
  | [] => Ok xmlattrs
  | kv :: items' =>
      match merge_item xmlattrs kv with
      | Ok xmlattrs' => merge_items xmlattrs' items'
      | Raise e => Raise e
      end
  end.

Definition merge_metadata (xmlattrs : dict) (metadata : option dict)
  : result dict :=
  match metadata with
  | None => Ok xmlattrs
  | Some md => merge_items xmlattrs md
  end.

Definition no_space (w : string) : bool :=
  all_chars (fun a => negb (PyStr.isspace a)) w.

(** A word: a non-empty string without white space. *)
Definition is_word (w : string) : bool :=
  negb (String.eqb w "") && no_space w.

(** The multi-value entries of a dict hold strings. *)
Definition multi_values_are_str (d : dict) : Prop :=
  forall k, In k multi_value_keys -> dict_get k d <> Some None.

(** [strictly_sorted l]: every element of [l] is below all later ones. *)
Fixpoint strictly_sorted (l : list string) : Prop :=
  match l with
  | [] => True
  | x :: l' =>
      (forall y, In y l' -> String.compare x y = Lt) /\ strictly_sorted l'
  end.

(** The attributes [convert_docutils] starts from (lines 3102-3107),
    for a symbol [name] with the given derived values. *)
Definition base_xmlattrs (name refkeywords seealsotags displayseealsotags
                          : string) : dict :=
  [("pkg", Some "sherpa"); ("key", Some name);
   ("refkeywords", Some refkeywords);
   ("seealsogroups", Some seealsotags);
   ("displayseealsogroups", Some displayseealsotags);
   ("context", None)].

(** ** The document segmenter (lines 100-145 and 1209-2337) *)

(** [splitWhile] (lines 100-145) *)
Fixpoint splitWhile {A : Type} (pred : A -> bool) (xs : list A)
  : list A * list A :=
  match xs with
  | [] => ([], [])
  | x :: xs' =>
      if pred x
      then let (ls, rs) := splitWhile pred xs' in (x :: ls, rs)
      else ([], xs)
  end.

(** The symbol being documented, as far as the conversion inspects it:
    whether it is a [ModelWrapper], and then the name of its model type,
    the text printed for an instance of it, and which XSPEC base class,
    if any, the model type derives from. *)
Inductive xspec_kind : Type := XSAdditive | XSMultiplicative | XSConvolution.

Record model_wrapper : Type := mkModelWrapper {
  modeltype_name : string;
  modeltype_str : string;
  modeltype_xspec : option xspec_kind
}.

Inductive symbol : Type :=
  | ModelWrapper (w : model_wrapper)
  | OtherSymbol.

(** The head of a node list, [indoc[0]]. *)
Definition head_node (indoc : list node) : M node :=
  match indoc with
  | n :: _ => ret n
  | [] => raise IndexError
  end.

Section Segmenter.

(** The two clean-ups written with regular expressions, [cleanup_sig]
    (lines 1209-1242) and [convert_example_text] (lines 2128-2223), map a
    string to a string and touch nothing else; the segmenter is
    parametrised by them. *)
Variable cleanup_sig : string -> string.
Variable convert_example_text : string -> string.

(** [find_syntax] (lines 1245-1293) *)
Definition find_syntax (name : string) (sig : option string)
    (indoc : list node) : M (option element * list node) :=
  argline <- match sig with
             | Some s => e <- make_syntax_block [cleanup_sig s] ;; ret (Some e)
             | None => ret None
             end ;;
  n <- head_node indoc ;;
  if negb (is_para n) then ret (argline, indoc)
  else
    let txt := PyStr.strip (node_astext n) in
    if negb (PyStr.startswith (name +++ "(") txt) then ret (argline, indoc)
    else raise AssertionError.

(** The inner function [clean] of [find_synopsis]. *)
Definition chop_last (v : string) : string :=
  String.substring 0 (String.length v - 1) v.

Definition chop_first (v : string) : string :=
  match v with
  | EmptyString => ""
  | String _ v' => v'
  end.

Definition clean (v : string) : string :=
  fold_left
    (fun v c =>
       let v1 := if PyStr.endswith c v then chop_last v else v in
       if PyStr.startswith c v1 then chop_first v1 else v1)
    [","; "."; ":"; dquote; "'"] v.

(** [find_synopsis] (lines 1397-1442). The second component is the
    keyword set, or [None] for the empty string returned when the first
    node is not a paragraph. *)
Definition find_synopsis (indoc : list node)
  : M (option element * option (list string) * list node) :=
  n <- head_node indoc ;;
  if negb (String.eqb (tagname n) "paragraph") then ret (None, None, indoc)
  else
    let syn := PyStr.strip (node_astext n) in
    let keys := map clean (PyStr.split (PyStr.lower syn)) in
    ret (Some (text_element "SYNOPSIS" syn), Some keys, tl indoc).

Definition want_in_desc (x : node) : bool :=
  negb (PyStr.mem (tagname x) ["rubric"; "field_list"; "container"; "seealso"]).

(** [find_desc] (lines 1445-1504) *)
Definition find_desc (indoc : list node) (synonyms : option (list string))
  : M (option element * list node) :=
  let (pnodes, rnodes) := splitWhile want_in_desc indoc in
  match pnodes, synonyms with
  | [], None => ret (None, indoc)
  | _, _ =>
      out <- match synonyms with
             | Some syns =>
                 assert (length syns =? 1)%nat ;;;
                 ret [text_element "PARA"
                        ("The function is also called " +++ nth 0 syns ""
                         +++ "().")]
             | None => ret []
             end ;;
      blocks <- mapM make_para_blocks pnodes ;;
      let kids := out ++ concat blocks in
      (if (length kids =? 0)%nat
       then dbg "NOTE" "no text in DESC block" [] else ret tt) ;;;
      ret (Some (Elem "DESC" [] None None kids), rnodes)
  end.

(** [s.split(c, 1)] for a one-character separator. *)
Fixpoint split_first (c : ascii) (s : string) : list string :=
  match s with
  | EmptyString => [""]
  | String a s' =>
      if Ascii.eqb a c then [""; s']
      else match split_first c s' with
           | t :: ts => String a t :: ts
           | [] => [String a ""]
           end
  end.

(** One entry of the [params] dictionary of [find_fieldlist]: its
    [name] and the bodies stored under [param], [ivar] or [type]. A body
    is [None] when the field has no [field_body]. *)
Record par : Type := mkPar {
  par_name : string;
  par_fields : list (string * option node)
}.

Record fieldlist : Type := mkFieldlist {
  fl_params : list par;
  fl_returns : list (string * option node);
  fl_raises : list (list string * option node)
}.

(** The inner loop [for f in field] (lines 1572-1582). *)
Fixpoint field_members (fs : list node) (name : option string)
    (body : option node) : M (option string * option node) :=
  match fs with
  | [] => ret (name, body)
  | f :: fs' =>
      if String.eqb (tagname f) "field_name"
      then field_members fs' (Some (node_astext f)) body
      else if String.eqb (tagname f) "field_body"
      then field_members fs' name (Some f)
      else raise (ValueError "Unexpected field member")
  end.

Definition last_key {V : Type} (d : list (string * V)) : option (string * V) :=
  last (map Some d) None.

Fixpoint dict_del {V : Type} (k : string) (d : list (string * V))
  : list (string * V) :=
  match d with
  | [] => []
  | (k', v) :: d' =>
      if String.eqb k' k then d' else (k', v) :: dict_del k d'
  end.

(** One turn of the loop [for field in node] (lines 1566-1643) on the
    triple (params, returns, raises). *)
Definition fieldlist_step
    (acc : list (string * par) * list (string * option node)
           * list (list string * option node))
    (field : node)
  : M (list (string * par) * list (string * option node)
       * list (list string * option node)) :=
  let '(params, returns, raises) := acc in
  assert (String.eqb (tagname field) "field") ;;;
  '(oname, body) <- field_members (children field) None None ;;
  match oname with
  | None => raise AttributeError
  | Some name =>
      let toks := split_first " " name in
      let t0 := nth 0 toks "" in
      let ntoks := length toks in
      assert (PyStr.mem t0 ["param"; "ivar"; "type"; "rtype"; "raises";
                            "returns"]) ;;;
      if String.eqb t0 "raises" then
        ret (params, returns, raises ++ [(tl toks, body)])
      else if PyStr.mem t0 ["returns"; "rtype"] then
        assert (ntoks =? 1)%nat ;;;
        ret (params, returns ++ [(t0, body)], raises)
      else
        assert (ntoks =? 2)%nat ;;;
        let pname := nth 1 toks "" in
        let store_it :=
          let store := match dict_get pname params with
                       | Some p => p
                       | None => mkPar pname []
                       end in
          ret (dict_set pname
                        (mkPar (par_name store)
                               (dict_set t0 body (par_fields store)))
                        params,
               returns, raises) in
        match (if String.eqb t0 "ivar" then last_key params else None) with
        | Some (prev_key, prev_val) =>
            if PyStr.endswith "," (PyStr.strip prev_key) then
              match dict_get "ivar" (par_fields prev_val) with
              | None => raise KeyError
              | Some None => raise TypeError
              | Some (Some b) =>
                  if (length (children b) =? 0)%nat then
                    let new_key := prev_key +++ " " +++ pname in
                    ret (dict_set new_key
                           (mkPar new_key
                                  (dict_set "ivar" body (par_fields prev_val)))
                           (dict_del prev_key params),
                         returns, raises)
                  else store_it
              end
            else store_it
        | None => store_it
        end
  end.

Fixpoint foldM {A B : Type} (f : A -> B -> M A) (l : list B) (a : A) : M A :=
  match l with
  | [] => ret a
  | b :: l' => a' <- f a b ;; foldM f l' a'
  end.

(** [find_fieldlist] (lines 1507-1647) *)
Definition find_fieldlist (indoc : list node)
  : M (option fieldlist * list node) :=
  match indoc with
  | [] => ret (None, indoc)
  | n :: rest =>
      if negb (String.eqb (tagname n) "field_list") then ret (None, indoc)
      else
        '(params, returns, raises) <-
           foldM fieldlist_step (children n) ([], [], []) ;;
        ret (Some (mkFieldlist (map snd params) returns raises), rest)
  end.

(** [str.capitalize] on the two words the program capitalises. *)
Definition capitalize (s : string) : string :=
  match s with
  | EmptyString => ""
  | String a s' => String (PyStr.upper_char a) (PyStr.lower s')
  end.

(** [convert_field_body(b)] for a stored body; a missing body is
    [None], which has no [tagname]. *)
Definition convert_stored_body (b : option node) : M element :=
  match b with
  | Some n => convert_field_body n
  | None => raise AttributeError
  end.

(** One ROW of the parameter table (lines 2572-2602). *)
Definition param_row (has_type : bool) (p : par) : M element :=
  tcell <- (if has_type then
              match dict_get "type" (par_fields p) with
              | Some tinfo =>
                  conv <- convert_stored_body tinfo ;;
                  ret [Elem "DATA" [] (text_of conv) None []]
              | None => ret [text_element "DATA" ""]
              end
            else ret []) ;;
  text <- match dict_get "param" (par_fields p) with
          | Some b => block <- convert_stored_body b ;; ret (text_of block)
          | None =>
              match dict_get "ivar" (par_fields p) with
              | Some b => block <- convert_stored_body b ;; ret (text_of block)
              | None => ret (Some "")
              end
          end ;;
  ret (Elem "ROW" [] None None
            ([text_element "DATA" (par_name p)] ++ tcell
             ++ [Elem "DATA" [] text None []])).

(** [extract_params] (lines 2472-2610); the signature argument is not
    used by the code. *)
Definition extract_params (fieldinfo : option fieldlist) (name : string)
  : M (option element) :=
  match fieldinfo with
  | None => ret None
  | Some fi =>
      let parinfo := fl_params fi in
      let retinfo := fl_returns fi in
      let is_attrs := existsb (fun p => dict_mem "ivar" (par_fields p)) parinfo in
      let nparams := length parinfo in
      let nret := length retinfo in
      if ((nparams =? 0) && (nret =? 0))%nat then
        assert (negb (length (fl_raises fi) =? 0)%nat) ;;; ret None
      else
        let funcname := if is_attrs then "object" else "function" in
        let value := if is_attrs then "attribute" else "parameter" in
        let rvals := map snd (filter (fun r => String.eqb (fst r) "returns")
                                     retinfo) in
        assert (length rvals <? 2)%nat ;;;
        return_value <-
          match rvals with
          | [] => ret None
          | None :: _ => raise AttributeError
          | Some rv :: _ =>
              assert (String.eqb (tagname rv) "field_body") ;;;
              rv0 <- child 0 rv ;;
              t <- astext rv0 ;;
              if (length (PyStr.split (PyStr.strip t)) =? 1)%nat then ret None
              else e <- convert_field_body rv ;; ret (Some e)
          end ;;
        match nparams, return_value with
        | 0, None => dbg "INFO" "No parameters or return value" [] ;;; ret None
        | _, _ =>
            let p := text_element "PARA"
                       (match nparams with
                        | 0 => "This " +++ funcname +++ " has no " +++ value
                               +++ "s"
                        | 1 => "The " +++ value +++ " for this " +++ funcname
                               +++ " is:"
                        | _ => "The " +++ value +++ "s for this " +++ funcname
                               +++ " are:"
                        end) in
            tbl <- (if (0 <? nparams)%nat then
                      let has_type :=
                        existsb (fun q => dict_mem "type" (par_fields q))
                                parinfo in
                      let row0 :=
                        table_row ([capitalize value]
                                   ++ (if has_type then ["Type information"]
                                       else [])
                                   ++ ["Definition"]) in
                      rows <- mapM (param_row has_type) parinfo ;;
                      ret [Elem "TABLE" [] None None (row0 :: rows)]
                    else ret []) ;;
            let adesc_kids := [p] ++ tbl in
            let title := PyStr.upper value +++ "S" in
            match return_value with
            | None =>
                ret (Some (Elem "ADESC" [("title", Some title)] None None
                                adesc_kids))
            | Some rv =>
                ret (Some (Elem "ADESC" [("title", Some title)] None None
                             (adesc_kids
                              ++ [Elem "PARA" [("title", Some "Return value")]
                                       (Some "The return value from this function is:")
                                       None [];
                                  rv])))
            end
        end
  end.

(** [find_seealso] (lines 1650-1725) *)
Definition seealso_names (n : node) : M (list string) :=
  n0 <- child 0 n ;;
  if String.eqb (tagname n0) "definition_list" then
    assert (length (children n) =? 1)%nat ;;;
    mapM (fun item =>
            assert (String.eqb (tagname item) "definition_list_item") ;;;
            i0 <- child 0 item ;;
            assert (String.eqb (tagname i0) "term") ;;;
            i00 <- child 0 i0 ;;
            assert (PyStr.mem (tagname i00) ["literal"; "#text"]) ;;;
            ret (node_astext i00))
         (children n0)
  else if String.eqb (tagname n0) "paragraph" then
    assert (length (children n) =? 1)%nat ;;;
    mapM (fun x =>
            assert (PyStr.mem (tagname x) ["literal"; "#text"]) ;;;
            ret (node_astext x))
         (children n0)
  else raise (ValueError "Unexpected see also contents").

(** The loop cleaning the names (lines 1710-1719); a dotted name outside
    the [sherpa.] name space ends the process ([sys.exit]). *)
Fixpoint seealso_clean (names : list string) (out : list string)
  : M (list string) :=
  match names with
  | [] => ret out
  | n :: names' =>
      n' <- (if PyStr.startswith "sherpa." n
             then ret (last (PyStr.split_char "." n) "")
             else match PyStr.find_char "." n with
                  | Some _ => raise SystemExit
                  | None => ret n
                  end) ;;
      seealso_clean names' (if PyStr.mem n' out then out else out ++ [n'])
  end.

Definition find_seealso (indoc : list node)
  : M (option (list string) * list node) :=
  match indoc with
  | [] => ret (None, indoc)
  | n :: rest =>
      if negb (String.eqb (tagname n) "seealso") then ret (None, indoc)
      else
        names0 <- seealso_names n ;;
        let names := filter (fun x => negb (String.eqb (PyStr.strip x) ","))
                            names0 in
        out <- seealso_clean names [] ;;
        (if negb (length names =? length out)%nat
         then dbg "DBG" "- see also contains duplicates" [] else ret tt) ;;;
        ret (Some out, rest)
  end.

(** [find_warning] (lines 1884-1915) *)
Definition find_warning (indoc : list node)
  : M (option element * list node) :=
  match indoc with
  | [] => ret (None, indoc)
  | n :: rest =>
      if negb (String.eqb (tagname n) "warning") then ret (None, indoc)
      else
        assert (length (children n) =? 1)%nat ;;;
        c <- child 0 n ;;
        t <- astext c ;;
        ret (Some (Elem "ADESC" [("title", Some "Warning")] None None
                        [text_element "PARA" t]), rest)
  end.

Definition not_rubric (x : node) : bool :=
  negb (String.eqb (tagname x) "rubric").

(** The sentences of [find_notes] about XSPEC versions. *)
Definition xspec_only (v : string) : string :=
  "This model is only available when used with XSPEC " +++ v +++ " or later.".

Definition v12140 : string := "This model requires XSPEC 12.14.0 or later.".
Definition v12150 : string := "This model requires XSPEC 12.15.0 or later.".

Definition old_xspec_notes : list string :=
  [xspec_only "12.9.1"; xspec_only "12.10.0"; xspec_only "12.10.1";
   xspec_only "12.11.0"; xspec_only "12.12.0"; xspec_only "12.13.0"; v12140].

Definition unsupported_xspec_notes : list string :=
  [xspec_only "12.12.1"; v12150].

(** [find_notes] (lines 1728-1881) *)
Definition find_notes (name : string) (indoc : list node)
  : M (option element * list node) :=
  match indoc with
  | [] => ret (None, indoc)
  | n :: rest =>
      if negb (String.eqb (tagname n) "rubric") then ret (None, indoc)
      else if negb (String.eqb (PyStr.strip (node_astext n)) "Notes")
      then ret (None, indoc)
      else
        let (lnodes0, rnodes) := splitWhile not_rubric rest in
        let lnodes :=
          filter (fun x => negb (PyStr.mem (node_astext x) old_xspec_notes))
                 lnodes0 in
        match lnodes with
        | [] => ret (None, rnodes)
        | _ =>
            let unodes :=
              filter (fun x => PyStr.mem (node_astext x)
                                         unsupported_xspec_notes) lnodes in
            if (0 <? length unodes)%nat
            then raise (RuntimeError "unsupported in CIAO")
            else
              blocks <- mapM (fun para =>
                                if PyStr.contains v12140 (node_astext para)
                                then raise (NotImplementedError
                                              "this has got too complex")
                                else make_para_blocks para)
                             lnodes ;;
              assert (0 <? length (concat blocks))%nat ;;;
              ret (Some (Elem "ADESC" [("title", Some "Notes")] None None
                              (concat blocks)), rnodes)
        end
  end.

(** [n.get("refuri")] where the program goes on to call a [str] method
    on it. *)
Definition refuri_str (n : node) : M string :=
  match a_refuri (node_attrs n) with
  | Some u => ret u
  | None => raise AttributeError
  end.

Definition href_line (text : string) (link : string) (tail : option string)
  : element :=
  Elem "LINE" [] None None
       [Elem "HREF" [("link", Some link)] (Some text) tail []].

(** The LINE made for a [footnote] of the references section
    (lines 1986-2041). *)
Definition reference_footnote (footnote : node) : M (list element) :=
  assert (length (children footnote) =? 2)%nat ;;;
  f0 <- child 0 footnote ;;
  f1 <- child 1 footnote ;;
  assert (String.eqb (tagname f0) "label") ;;;
  assert (String.eqb (tagname f1) "paragraph") ;;;
  let label := node_astext f0 in
  if (length (children f1) =? 2)%nat then
    f10 <- child 0 f1 ;;
    f11 <- child 1 f1 ;;
    assert (PyStr.startswith "http" (node_astext f11)) ;;;
    ret [href_line ("[" +++ label +++ "] " +++ node_astext f10)
                   (node_astext f11) None]
  else if (length (children f1) =? 1)%nat then
    let r := node_astext f1 in
    if PyStr.startswith "http" r
    then ret [href_line ("[" +++ label +++ "]") r None]
    else ret [text_element "LINE" ("[" +++ label +++ "] " +++ r)]
  else
    f10 <- child 0 f1 ;;
    if String.eqb (tagname f10) "reference" then
      refuri <- refuri_str f10 ;;
      if PyStr.startswith "http" refuri then
        let text := if String.eqb (node_astext f10) refuri
                    then "[" +++ label +++ "]"
                    else "[" +++ label +++ "] " +++ node_astext f10 in
        let dump := PyStr.join "" (map node_astext (tl (children f1))) in
        ret [href_line text refuri (Some dump)]
      else raise AssertionError
    else raise AssertionError.

(** One turn of the loop over the nodes of the references section
    (lines 1954-2122): the LINE elements it adds. *)
Definition reference_lines (footnote : node) : M (list element) :=
  let t := tagname footnote in
  if String.eqb t "footnote" then reference_footnote footnote
  else if String.eqb t "paragraph" then
    assert (length (children footnote) =? 2)%nat ;;;
    f0 <- child 0 footnote ;;
    f1 <- child 1 footnote ;;
    assert (String.eqb (tagname f0) "reference") ;;;
    assert (String.eqb (tagname f1) "target") ;;;
    refuri <- refuri_str f0 ;;
    assert (PyStr.startswith "http" refuri) ;;;
    ret [href_line (node_astext f0) refuri None]
  else if String.eqb t "citation" then
    assert (length (children footnote) =? 2)%nat ;;;
    f0 <- child 0 footnote ;;
    f1 <- child 1 footnote ;;
    assert (String.eqb (tagname f0) "label") ;;;
    assert (String.eqb (tagname f1) "paragraph") ;;;
    assert (PyStr.startswith "http" (node_astext f1)) ;;;
    ret [href_line (node_astext f0) (node_astext f1) None]
  else if String.eqb t "enumerated_list" then
    mapM (fun subelem =>
            assert (String.eqb (tagname subelem) "list_item") ;;;
            para <- child 0 subelem ;;
            assert (String.eqb (tagname para) "paragraph") ;;;
            p0 <- child 0 para ;;
            if String.eqb (tagname p0) "reference" then
              refuri <- refuri_str p0 ;;
              assert (PyStr.startswith "http" refuri) ;;;
              ret (href_line (node_astext p0) refuri None)
            else
              assert (length (children para) =? 1)%nat ;;;
              ret (text_element "LINE" (node_astext para)))
         (children footnote)
  else raise AssertionError.

(** [find_references] (lines 1918-2124) *)
Definition find_references (indoc : list node)
  : M (option element * list node) :=
  match indoc with
  | [] => ret (None, indoc)
  | n :: rest =>
      if negb (String.eqb (tagname n) "rubric") then ret (None, indoc)
      else if negb (String.eqb (PyStr.strip (node_astext n)) "References")
      then ret (None, indoc)
      else
        let (lnodes, rnodes) := splitWhile not_rubric rest in
        lines <- mapM reference_lines lnodes ;;
        ret (Some (Elem "ADESC" [("title", Some "References")] None None
                     [Elem "PARA" [] None None
                           [Elem "SYNTAX" [] None None (concat lines)]]),
             rnodes)
  end.

(** [c.islower()] for one character: the lower-case letters among the
    code points below 256. *)
Definition islower_char (a : ascii) : bool :=
  let n := nat_of_ascii a in
  (((97 <=? n) && (n <=? 122)) || (n =? 170) || (n =? 181) || (n =? 186)
   || ((223 <=? n) && (n <=? 246)) || ((248 <=? n) && (n <=? 255)))%nat.

(** The edit made to one block of an example (lines 2318-2328). *)
Definition example_text (x : option string) : M (option string) :=
  match x with
  | Some t => ret (Some (convert_example_text t))
  | None => raise AttributeError
  end.

Definition example_block (p : element) : M element :=
  if PyStr.mem (etag_of p) ["PARA"; "VERBATIM"] then
    t <- example_text (text_of p) ;; ret (set_text t p)
  else if String.eqb (etag_of p) "LIST" then
    items <- mapM (fun item => t <- example_text (text_of item) ;;
                               ret (set_text t item))
                  (sub_of p) ;;
    match p with Elem t a x y _ => ret (Elem t a x y items) end
  else raise (RuntimeError "Did not expect this tag in example text").

(** [append_to_last bs exs]: the blocks [bs] added to the DESC of the
    last example. *)
Fixpoint append_to_last (bs : list element) (exs : list (list element))
  : list (list element) :=
  match exs with
  | [] => []
  | [e] => [e ++ bs]
  | e :: exs' => e :: append_to_last bs exs'
  end.

(** One turn of the loop over the nodes of the examples section
    (lines 2288-2335). [exs] holds, for each QEXAMPLE made so far, the
    children of its DESC; [open] tells whether [desc] is set. *)
Definition examples_step (acc : list (list element) * bool) (para : node)
  : M (list (list element) * bool) :=
  let (exs, open) := acc in
  let name := tagname para in
  assert (PyStr.mem name ["paragraph"; "doctest_block"; "block_quote";
                          "literal_block"; "bullet_list"]) ;;;
  exs1 <- (if open then ret exs
           else if String.eqb name "paragraph" && (1 <=? length exs)%nat
           then match node_astext para with
                | EmptyString => raise IndexError
                | String c _ =>
                    if islower_char c then ret exs else ret (exs ++ [[]])
                end
           else ret (exs ++ [[]])) ;;
  blocks <- make_para_blocks para ;;
  blocks' <- mapM example_block blocks ;;
  ret (append_to_last blocks' exs1,
       PyStr.mem name ["paragraph"; "bullet_list"]).

Definition qexample (desc_kids : list element) : element :=
  Elem "QEXAMPLE" [] None None [Elem "DESC" [] None None desc_kids].

(** [find_examples] (lines 2226-2337) *)
Definition find_examples (indoc : list node)
  : M (option element * list node) :=
  match indoc with
  | [] => ret (None, indoc)
  | n :: rest =>
      if negb (String.eqb (tagname n) "rubric") then ret (None, indoc)
      else
        let txt := PyStr.strip (node_astext n) in
        if negb (PyStr.mem txt ["Examples"; "Example"]) then ret (None, indoc)
        else
          (if String.eqb txt "Example"
           then dbg "DBG" " - has an Example, not Examples, block" []
           else ret tt) ;;;
          let (lnodes, rnodes) := splitWhile not_rubric rest in
          '(exs, _) <- foldM examples_step lnodes ([], false) ;;
          ret (Some (Elem "QEXAMPLELIST" [] None None (map qexample exs)),
               rnodes)
  end.

(** [augment_examples] (lines 1359-1394) *)
Definition augment_examples (examples : option element) (sym : option symbol)
  : option element :=
  match sym with
  | Some (ModelWrapper w) =>
      let mtype := PyStr.lower (modeltype_name w) in
      let example :=
        Elem "QEXAMPLE" [] None None
          [Elem "SYNTAX" [] None None
             [text_element "LINE"
                (">>> create_model_component(" +++ dquote +++ mtype
                 +++ dquote +++ ", " +++ dquote +++ "mdl" +++ dquote
                 +++ ")");
              text_element "LINE" ">>> print(mdl)"];
           Elem "DESC" [] None None
             [text_element "PARA"
                ("Create a component of the " +++ mtype +++ " model "
                 +++ "and display its default parameters. The output is:");
              text_element "VERBATIM" (modeltype_str w)]] in
      match examples with
      | Some (Elem t a x y kids) => Some (Elem t a x y (example :: kids))
      | None => Some (Elem "QEXAMPLELIST" [] None None [example])
      end
  | _ => examples
  end.

(** [add_xspec_model_to_syntax] (lines 1327-1342) *)
Definition add_xspec_model_to_syntax (syntax : element) (name : string)
    (k : xspec_kind) : element :=
  let mdesc := match k with
               | XSAdditive => "an additive"
               | XSMultiplicative => "a multiplicative"
               | XSConvolution => "a convolution"
               end in
  eappend (text_element "LINE"
             ("The " +++ name +++ " model is " +++ mdesc
              +++ " model component."))
          (eappend (text_element "LINE" "") syntax).

(** [l.sort()] for a list of strings. *)
Fixpoint insert_sorted (x : string) (l : list string) : list string :=
  match l with
  | [] => [x]
  | y :: l' =>
      match String.compare x y with
      | Gt => y :: insert_sorted x l'
      | _ => x :: l
      end
  end.

Definition sort_strings (l : list string) : list string :=
  fold_right insert_sorted [] l.

Definition is_xspec_symbol (sym : option symbol) : option xspec_kind :=
  match sym with
  | Some (ModelWrapper w) => modeltype_xspec w
  | _ => None
  end.

(** [create_seealso] (lines 2613-2689) *)
Definition create_seealso (name : string) (seealso : option (list string))
    (sym : option symbol) : M (string * string) :=
  let dsg := match sym with
             | Some (ModelWrapper w) =>
                 match modeltype_xspec w with
                 | Some _ => "xsmodels"
                 | None => "shmodels"
                 end
             | _ => ""
             end in
  match seealso with
  | None =>
      (if String.eqb dsg ""
       then dbg "DBG" ("- " +++ name +++ " has no SEE ALSO") []
       else ret tt) ;;;
      ret ("", dsg)
  | Some names =>
      let nlower := PyStr.lower name in
      let convert (t1 t2 : string) :=
        match String.compare t1 t2 with
        | Lt => t1 +++ t2
        | _ => t2 +++ t1
        end in
      let pairs := map (fun s => convert nlower (PyStr.lower s)) names in
      ret (PyStr.join " " (sort_strings pairs), dsg)
  end.

(** [find_context] (lines 2692-2800) *)
Definition find_context (name : string) (sym : option symbol) : string :=
  match sym with
  | Some (ModelWrapper _) => "models"
  | _ =>
    if PyStr.mem name ["get_conf_results"; "get_confidence_results";
                       "get_conf_opt"; "get_covar_results"; "get_covar_opt";
                       "get_proj_results"; "get_proj_opt"]
    then "confidence"
    else if PyStr.startswith "get_method" name then "methods"
    else if PyStr.mem name ["fit_bkg"; "get_fit_results"] then "fitting"
    else if PyStr.mem name ["ignore2d_image"; "notice2d_image"]
    then "filtering"
    else if PyStr.mem name ["get_bkg_model"; "get_bkg_source";
                            "get_model_pars"; "get_model_type";
                            "get_num_par_frozen"; "get_num_par_thawed";
                            "get_xsabund"; "get_xscosmo"; "get_xsxsect";
                            "get_xsxset"; "load_template_interpolator";
                            "load_xstable_model"; "get_xschatter";
                            "set_xschatter"; "set_bkg_full_model"]
    then "modeling"
    else if PyStr.mem name ["get_sampler_name"; "get_sampler_opt";
                            "get_stat_name"]
    then "statistics"
    else if PyStr.startswith "plot_" name || PyStr.contains "_plot" name
    then "plotting"
    else if PyStr.startswith "group" name
            || PyStr.mem name ["create_arf"; "create_rmf"; "get_bkg_arf";
                               "get_bkg_rmf"; "load_ascii_with_errors";
                               "resample_data"]
    then "data"
    else if PyStr.mem name ["multinormal_pdf"; "multit_pdf"] then "utilities"
    else if PyStr.mem name ["get_data_contour"; "get_data_contour_prefs";
                            "get_data_image"; "get_fit_contour";
                            "get_kernel_contour"; "get_kernel_image";
                            "get_model_contour"; "get_model_contour_prefs";
                            "get_model_image"; "get_psf_contour";
                            "get_psf_image"; "get_ratio_contour";
                            "get_ratio_image"; "get_resid_contour";
                            "get_resid_image"; "get_source_contour";
                            "get_source_image"]
    then "visualization"
    else if PyStr.mem name ["get_functions"; "list_pileup_model_ids";
                            "list_psf_ids"]
    then "info"
    else if String.eqb name "delete_pileup_model" then "model"
    else "sherpaish"
  end.

(** ** convert_docutils (lines 2847-3162) *)

Definition CIAOVER : string := "CIAO 4.18".
Definition XSPECVER : string := "12.14.0k".
Definition LASTMOD : string := "December 2025".

(** What the extractors have taken from the document, and the nodes left
    over. *)
Record sections : Type := mkSections {
  s_synopsis : option element;
  s_refkeywords : option (list string);
  s_syntax : option element;
  s_desc : option element;
  s_params : option element;
  s_warnings : option element;
  s_seealso : option (list string);
  s_notes : option element;
  s_notes2 : option element;
  s_refs : option element;
  s_examples : option element;
  s_nodes : list node
}.

Definition is_some {A : Type} (o : option A) : bool :=
  match o with Some _ => true | None => false end.

(** The extraction phase of [convert_docutils] (lines 2901-2989): the
    store is reset, then the extractors run in their fixed order. *)
Definition segment (name : string) (doc : list node) (sig : option string)
    (sym : option symbol) (synonyms : option (list string)) : M sections :=
  reset_stored_versions ;;;
  '(syntax, nodes) <- find_syntax name sig doc ;;
  '(synopsis, refkeywords, nodes) <- find_synopsis nodes ;;
  '(desc, nodes) <- find_desc nodes synonyms ;;
  syntax <- match is_xspec_symbol sym with
            | Some k =>
                match syntax with
                | Some s => ret (Some (add_xspec_model_to_syntax s name k))
                | None => raise AssertionError
                end
            | None => ret syntax
            end ;;
  '(fieldlist1, nodes) <- find_fieldlist nodes ;;
  '(warnings, nodes) <- find_warning nodes ;;
  '(seealso, nodes) <- find_seealso nodes ;;
  '(fieldlist2, nodes) <- find_fieldlist nodes ;;
  (if is_some fieldlist2 then dbg "DBG" "- ignoring section fieldlist" []
   else ret tt) ;;;
  params <- extract_params fieldlist1 name ;;
  '(seealso, nodes) <-
     (match seealso with
      | None =>
          '(seealso', nodes') <- find_seealso nodes ;;
          (if is_some seealso' then dbg "DBG" "- seealso is in wrong place" []
           else ret tt) ;;;
          ret (seealso', nodes')
      | Some _ => ret (seealso, nodes)
      end) ;;
  '(notes, nodes) <- find_notes name nodes ;;
  '(notes2, nodes) <- find_notes name nodes ;;
  (if is_some notes2 then dbg "ERROR" "multiple NOTES sections" []
   else ret tt) ;;;
  '(refs, nodes) <- find_references nodes ;;
  '(examples, nodes) <- find_examples nodes ;;
  let examples := augment_examples examples sym in
  '(refs, nodes) <-
     (match refs with
      | None =>
          '(refs', nodes') <- find_references nodes ;;
          (if is_some refs' then dbg "DBG" "References after EXAMPLES" []
           else ret tt) ;;;
          ret (refs', nodes')
      | Some _ => ret (refs, nodes)
      end) ;;
  ret (mkSections synopsis refkeywords syntax desc params warnings seealso
                  notes notes2 refs examples nodes).

Definition voigt_text : string :=
  "The pseudovoigt1d and voigt1d models were added in CIAO 4.13 "
  +++ "and replace the absorptionvoigt and emissionvoigt models.".

(** The special case of lines 3042-3045 applied along the list of added
    entries: each entry must have no text and receives [voigt_text]. The
    result is the list as the loop leaves it, and whether every
    assertion held. *)
Fixpoint patch_voigt (ps : list element) : list element * bool :=
  match ps with
  | [] => ([], true)
  | p :: ps' =>
      match text_of p with
      | None =>
          let (qs, ok) := patch_voigt ps' in
          (set_text (Some voigt_text) p :: qs, ok)
      | Some _ => (ps, false)
      end
  end.

Definition has_title (t : string) (p : element) : bool :=
  match eget "title" p with
  | Some x => String.eqb x t
  | None => false
  end.

(** The flush of the version store (lines 3009-3055): the consolidated
    ADESC block, or [None] when nothing was recorded. *)
Definition consolidate_versions (name : string) : M (option element) :=
  s <- get_store ;;
  assert (negb (done s)) ;;;
  let skippy1 := existsb (has_title "Changed in CIAO 4.14") (versionchanged s) in
  let skippy2 := existsb (has_title "New in CIAO 4.14") (versionadded s) in
  changed <- (if skippy1 && skippy2 then
                if negb (PyStr.mem name ["xsagnslim"; "xsbwcycl"; "xszkerrbb"])
                then raise (RuntimeError "problem")
                else
                  put_store (mkStore (versionadded s) [] (titles s) (done s)) ;;;
                  ret []
              else ret (versionchanged s)) ;;
  added <- (if PyStr.mem name ["pseudovoigt1d"; "voigt1d"] then
              let (ps, ok) := patch_voigt (versionadded s) in
              put_store (mkStore ps changed (titles s) (done s)) ;;;
              assert ok ;;;
              ret ps
            else ret (versionadded s)) ;;
  s' <- get_store ;;
  put_store (mkStore (versionadded s') (versionchanged s') (titles s') true) ;;;
  match changed ++ added with
  | [] => ret None
  | entries =>
      ret (Some (Elem "ADESC" [("title", Some "Changes in CIAO")] None None
                      entries))
  end.

(** The result of [convert_docutils]: the output document (its root
    element), or the list of left-over nodes that the function returns in
    its place. *)
Inductive conversion : Type :=
  | Converted (root : element)
  | Trailing (nodes : list node).

Definition xspec_postamble : element :=
  Elem "ADESC" [("title", Some "XSPEC version")] None None
    [text_element "PARA"
       (CIAOVER +++ " comes with support for version " +++ XSPECVER
        +++ " of the XSPEC models. This can be checked with the following:");
     Elem "PARA" [] None None
       [Elem "SYNTAX" [] None None
          [text_element "LINE"
             ("% python -c 'from sherpa.astro import xspec; "
              +++ "print(xspec.get_xsversion())'");
           text_element "LINE" XSPECVER]]].

Definition bugs_block : element :=
  Elem "BUGS" [] None None
    [Elem "PARA" [] (Some "See the ") None
       [Elem "HREF" [("link", Some "https://cxc.harvard.edu/sherpa/bugs/")]
             (Some "bugs pages on the Sherpa website")
             (Some " for an up-to-date listing of known bugs.") []]].

Fixpoint somes {A : Type} (l : list (option A)) : list A :=
  match l with
  | [] => []
  | Some a :: l' => a :: somes l'
  | None :: l' => somes l'
  end.

(** The assembly of the output (lines 2996-3162) from the extracted
    sections. *)
Definition assemble (name : string) (sym : option symbol)
    (metadata : option dict) (synonyms : option (list string))
    (dtd : string) (sec : sections) : M element :=
  (if is_some (s_syntax sec) then ret tt
   else dbg "TODO" ("does " +++ name +++ " need a SYNTAX block?") []) ;;;
  '(seealsotags, displayseealsotags) <-
     create_seealso name (s_seealso sec) sym ;;
  versioninfo <- consolidate_versions name ;;
  rootname <- (if String.eqb dtd "ahelp" then ret "cxchelptopics"
               else if String.eqb dtd "sxml" then ret "cxcdocumentationpage"
               else raise (RuntimeError "unknown dtd")) ;;
  refkeywords <-
    (match s_refkeywords sec with
     | Some keys =>
         ret (sorted_set (if String.eqb name "xszkerrbb"
                          then keys ++ ["kerrbb"; "xskerrbb"] else keys))
     | None =>
         if String.eqb name "xszkerrbb" then raise AttributeError else ret []
     end) ;;
  let refkeywords :=
    if PyStr.contains "_" name
    then refkeywords ++ PyStr.split_char "_" name else refkeywords in
  xmlattrs <- lift (merge_metadata
                      (base_xmlattrs name (PyStr.join " " refkeywords)
                                     seealsotags displayseealsotags)
                      metadata) ;;
  xmlattrs <-
    (match dict_get "context" xmlattrs with
     | Some None =>
         let context := find_context name sym in
         (if String.eqb context "sherpaish"
          then dbg "DBG" ("- fall back context=sherpaish for " +++ name) []
          else ret tt) ;;;
         ret (dict_set "context" (Some context) xmlattrs)
     | Some (Some _) => ret xmlattrs
     | None => raise KeyError
     end) ;;
  xmlattrs <-
    (match synonyms with
     | Some syns =>
         match dict_get "refkeywords" xmlattrs with
         | Some (Some r) =>
             ret (dict_set "refkeywords"
                           (Some (PyStr.join " " syns +++ " " +++ r)) xmlattrs)
         | Some None => raise TypeError
         | None => raise KeyError
         end
     | None => ret xmlattrs
     end) ;;
  let kids :=
    somes [s_synopsis sec; s_syntax sec; s_desc sec; s_examples sec;
           s_params sec; s_warnings sec; s_notes sec; s_notes2 sec;
           s_refs sec; versioninfo]
    ++ (if PyStr.contains "xs" name then [xspec_postamble] else [])
    ++ [bugs_block; text_element "LASTMODIFIED" LASTMOD] in
  ret (Elem rootname [] None None [Elem "ENTRY" xmlattrs None None kids]).

Definition convert_docutils (name : string) (doc : list node)
    (sig : option string) (sym : option symbol) (metadata : option dict)
    (synonyms : option (list string)) (dtd : string) : M conversion :=
  (if negb (PyStr.mem dtd ["ahelp"; "sxml"])
   then raise (ValueError "Unrecognized dtd value") else ret tt) ;;;
  assert (match synonyms with
          | Some syns => (0 <? length syns)%nat
          | None => true
          end) ;;;
  sec <- segment name doc sig sym synonyms ;;
  match s_nodes sec with
  | _ :: _ =>
      dbg "WARN" "ignoring trailing:" (s_nodes sec) ;;;
      ret (Trailing (s_nodes sec))
  | [] =>
      root <- assemble name sym metadata synonyms dtd sec ;;
      ret (Converted root)
  end.

End Segmenter.

(** ** Example documents *)

(** A clean-up that leaves its argument alone: it stands for
    [cleanup_sig] and [convert_example_text] in the examples below, all
    of which have no signature and no Examples section, so that neither
    function is called. *)
Definition no_cleanup (s : string) : string := s.

Definition paragraph (s : string) : node :=
  Element "paragraph" no_attrs [Text s].

Definition rubric (s : string) : node :=
  Element "rubric" no_attrs [Text s].

(** [convert_docutils(name, doc, None)]: no signature, symbol, metadata
    or synonyms, and the default DTD. *)
Definition convert_plain (name : string) (doc : list node) : M conversion :=
  convert_docutils no_cleanup no_cleanup name doc None None None None "ahelp".

(** A document whose last section no extractor recognises. *)
Definition doc_trailing : list node :=
  [paragraph "A synopsis."; rubric "Caveats"; paragraph "Take care."].

(** ** Recording and flushing version entries *)

(** A computation that leaves the registry and the version store as they
    are (it may write to the log). *)
Definition frame {A : Type} (c : M A) : Prop :=
  forall st r st', c st = (r, st') ->
  store_versions st' = store_versions st /\ references st' = references st.

(** [store_extend key new s]: the store [s] after [new] has been appended
    to the list under [key]. *)
Definition store_extend (key : string) (new : list element) (s : store)
  : store :=
  if String.eqb key "versionadded"
  then mkStore (versionadded s ++ new) (versionchanged s) (titles s) (done s)
  else mkStore (versionadded s) (versionchanged s ++ new) (titles s) (done s).

Definition with_titles (ts : list string) (s : store) : store :=
  mkStore (versionadded s) (versionchanged s) ts (done s).

(** The entry of [para_converters] for the three tagnames that record a
    version entry. *)
Definition record_version (block : node) : M unit :=
  if String.eqb (tagname block) "comment"
  then convert_comment_versionwarning block
  else convert_versionwarning block.

Definition record_versions : list node -> M unit := forM_ record_version.

(** A recording history: for each recorded block, in recording order,
    the list it went to and the entries it contributed. *)
Definition history : Type := list (string * list element).

Definition entries_of (key : string) (h : history) : list element :=
  concat (map snd (filter (fun x => String.eqb (fst x) key) h)).

Definition recorded_as (block : node) (x : string * list element) : Prop :=
  snd x <> []
  /\ (fst x = "versionadded" \/ fst x = "versionchanged")
  /\ (tagname block <> "comment" -> fst x = tagname block).

(** The consolidated section holding [entries]. *)
Definition version_section (entries : list element) : option element :=
  match entries with
  | [] => None
  | _ => Some (Elem "ADESC" [("title", Some "Changes in CIAO")] None None
                    entries)
  end.

Definition version_block (tag : string) (s : string) : node :=
  Element tag no_attrs [paragraph s].

(** An entry that the 4.14 test on added entries does not select. *)
Definition not_new_in_414 (p : element) : Prop :=
  has_title "New in CIAO 4.14" p = false.

(** The "Changes in CIAO" block of an output document, if it has one. *)
Definition version_history (root : element) : option element :=
  match sub_of root with
  | entry :: _ =>
      find (fun e => String.eqb (etag_of e) "ADESC"
                     && has_title "Changes in CIAO" e)
           (sub_of entry)
  | [] => None
  end.

(** A document recording a change and an addition, both for CIAO 4.14. *)
Definition doc_414 : list node :=
  [paragraph "A synopsis."; paragraph "Some text.";
   version_block "versionchanged" "4.14.0 Changed it.";
   version_block "versionadded" "4.14.0 Added it."].

(** Two documents converted one after the other: the first renders a
    named Reference, the second only a Target of that name. *)
Definition doc_with_reference : list node :=
  [paragraph "A synopsis.";
   Element "paragraph" no_attrs
           [Text "See "; reference_node (Some "Foo") "http://x" "Foo"]].

Definition doc_target_only : list node :=
  [paragraph "A synopsis.";
   Element "paragraph" no_attrs [Text "Here."; target_node ["foo"]]].

Definition titled_para (title text : string) : element :=
  Elem "PARA" [("title", Some title)] (Some text) None [].

(** Three version blocks, recorded in this order. *)
Definition blocks_example : list node :=
  [version_block "versionchanged" "4.14.0 Changed it.";
   version_block "versionadded" "4.13.1 Added it.";
   version_block "versionchanged" "4.12.0 Older change."].

(** The state in which the store has just been reset. *)
Definition reset_state : state := mkState [] (Some empty_store) [].

(** ** Further notions used to state properties of the code *)

(** [is_suffix rs xs]: [rs] is what is left of [xs] after a prefix has
    been taken away. *)
Definition is_suffix {A : Type} (rs xs : list A) : Prop :=
  exists pre, xs = pre ++ rs.

(** The tagnames [make_para_blocks] converts: [system_message],
    [paragraph] and the keys of [para_converters]. *)
Definition convertible_tagnames : list string :=
  ["system_message"; "paragraph"; "doctest_block"; "block_quote";
   "enumerated_list"; "definition_list"; "definition"; "bullet_list";
   "table"; "note"; "warning"; "versionadded"; "versionchanged";
   "comment"; "field_body"; "literal_block"].

(** The state [st] with another version store. *)
Definition with_store (s : option store) (st : state) : state :=
  mkState (references st) s (log st).

Definition literal (s : string) : node := Element "literal" no_attrs [Text s].

(** A See Also block naming [fit] twice, once with its module path. *)
Definition seealso_example : node :=
  Element "seealso" no_attrs
    [Element "paragraph" no_attrs
       [literal "sherpa.astro.ui.fit"; Text ", "; literal "fit"; Text ", ";
        literal "calc_stat"]].

(** The [row] nodes of a table group, in document order: those of its
    [thead] and [tbody], the [colspec] children holding none. *)
Definition table_rows (tgroup : node) : list node :=
  flat_map (fun el =>
              if String.eqb (tagname el) "colspec" then [] else children el)
           (children tgroup).

(** [plain_pieces ns ts]: the pieces of text that a paragraph with
    children [ns] is made of when References are written out as text.
    A Target contributes nothing; a Reference contributes its display
    text followed by its [refuri] in square brackets; any other child
    contributes the text [astext] renders. *)
Inductive plain_pieces : list node -> list string -> Prop :=
  | pieces_nil : plain_pieces [] []
  | pieces_target n ns ts :
      tagname n = "target" ->
      plain_pieces ns ts -> plain_pieces (n :: ns) ts
  | pieces_reference n ns ts :
      tagname n = "reference" ->
      plain_pieces ns ts ->
      plain_pieces (n :: ns)
        ((node_astext n +++ " [" +++ show_opt (a_refuri (node_attrs n))
          +++ "]") :: ts)
  | pieces_text n s ns ts :
      tagname n <> "target" -> tagname n <> "reference" ->
      rendered n s ->
      plain_pieces ns ts -> plain_pieces (n :: ns) (s :: ts).

(** [appended key new s s1]: the store [s1] has the lists of [s] with
    the entries [new] added at the end of the list named [key], the
    other list being as it was. *)
Definition appended (key : string) (new : list element) (s s1 : store)
  : Prop :=
  (key = "versionadded"
   /\ versionadded s1 = versionadded s ++ new
   /\ versionchanged s1 = versionchanged s)
  \/ (key = "versionchanged"
      /\ versionchanged s1 = versionchanged s ++ new
      /\ versionadded s1 = versionadded s).

(** [recording st blocks h]: recording [blocks] one after the other,
    starting in state [st], succeeds, and [h] lists for each block, in
    recording order, the list its run added to and the entries that run
    appended there. *)
Inductive recording : state -> list node -> history -> Prop :=
  | recording_nil st : recording st [] []
  | recording_cons st b bs st1 s s1 key new h :
      record_version b st = (Ok tt, st1) ->
      store_versions st = Some s ->
      store_versions st1 = Some s1 ->
      new <> [] ->
      appended key new s s1 ->
      recording st1 bs h ->
      recording st (b :: bs) ((key, new) :: h).



(** * Properties *)

(** ** Strings *)

Lemma split_char_app (c : ascii) (s rest : string) :
  PyStr.find_char c s = None ->
  PyStr.split_char c (s +++ String c rest) = s :: PyStr.split_char c rest.
Proof.
  induction s as [|a s IH]; simpl; intros H.
  - now rewrite Ascii.eqb_refl.
  - destruct (Ascii.eqb a c) eqn:E; [discriminate|].
    destruct (PyStr.find_char c s); [discriminate|].
    now rewrite IH.
Qed.

Lemma split_char_no_sep (c : ascii) (s : string) :
  PyStr.find_char c s = None -> PyStr.split_char c s = [s].
Proof.
  induction s as [|a s IH]; simpl; intros H; [reflexivity|].
  destruct (Ascii.eqb a c) eqn:E; [discriminate|].
  destruct (PyStr.find_char c s); [discriminate|].
  now rewrite IH.
Qed.

(** ** C10: the release-number translation *)

(** C10. An internal version ["4.N.0"] (three dot-separated tokens, the
    first ["4"], the last ["0"]) translates to ["4.N"]: the trailing zero
    is dropped before any of the release shifts is tried, so ["4.17.0"]
    gives ["4.17"] while ["4.17.1"] gives ["4.18"]. *)
Theorem convert_version_number_drops_zero (N : string) :
  PyStr.find_char "." N = None ->
  convert_version_number ("4." +++ N +++ ".0") = Ok ("4." +++ N)
  /\ convert_version_number "4.17.0" = Ok "4.17"
  /\ convert_version_number "4.17.1" = Ok "4.18".
Proof.
  intros H. split; [|split; reflexivity].
  unfold convert_version_number.
  change ("4." +++ N +++ ".0") with (String "4" (String "." (N +++ ".0"))).
  cbn [PyStr.split_char Ascii.eqb Bool.eqb].
  change (N +++ ".0") with (N +++ String "." "0").
  rewrite (split_char_app "." N "0" H).
  reflexivity.
Qed.

Lemma convert_version_number_drops_zero_witness :
  convert_version_number ("4." +++ "12" +++ ".0") = Ok ("4." +++ "12")
  /\ convert_version_number "4.17.0" = Ok "4.17"
  /\ convert_version_number "4.17.1" = Ok "4.18".
Proof.
  apply (convert_version_number_drops_zero "12"). reflexivity.
Defined.

(** ** The registry: C9 and C3 *)

Lemma mem_In (x : string) (l : list string) :
  PyStr.mem x l = true <-> In x l.
Proof.
  unfold PyStr.mem. rewrite existsb_exists. split.
  - intros [y [Hy E]]. apply String.eqb_eq in E. now subst.
  - intros H. exists x. split; [assumption|apply String.eqb_refl].
Qed.

Lemma set_add_In (x y : string) (s : list string) :
  In y (set_add x s) <-> y = x \/ In y s.
Proof.
  unfold set_add. destruct (PyStr.mem x s) eqn:E.
  - apply mem_In in E. split; [now right|]. intros [->|H]; assumption.
  - rewrite in_app_iff. simpl. split; intros H.
    + destruct H as [H|[H|[]]]; [now right|now left].
    + destruct H as [H|H]; [right; now left|now left].
Qed.


(** C9. [process_target] accepts a Target with exactly one name only:
    with no name, or with two or more, the assertion on the length of
    [names] fails, and with one name it does not. *)
Theorem process_target_exactly_one_name (n : node) (st : state) :
  tagname n = "target" ->
  (process_target n st = (Raise AssertionError, st)
   <-> length (a_names (node_attrs n)) <> 1).
Proof.
  intros Et. unfold process_target, bind, assert. rewrite Et. simpl.
  destruct (a_names (node_attrs n)) as [|name [|? ?]]; simpl.
  - split; [intros _; discriminate|reflexivity].
  - destruct (PyStr.mem (PyStr.lower name) (references st)).
    + split; [discriminate|intros H; now elim H].
    + split; [discriminate|intros H; now elim H].
  - split; [intros _; discriminate|reflexivity].
Qed.

Lemma process_target_exactly_one_name_witness :
  process_target (Element "target" (mkAttrs None None ["a"; "b"] None None) [])
                 initial_state
  = (Raise AssertionError, initial_state)
  <-> length ["a"; "b"] <> 1.
Proof.
  apply (process_target_exactly_one_name
           (Element "target" (mkAttrs None None ["a"; "b"] None None) [])
           initial_state).
  reflexivity.
Defined.

Lemma process_reference_ok (n : node) (st st' : state)
    (r : string * option string) :
  process_reference n st = (Ok r, st') ->
  r = (node_astext n, a_refuri (node_attrs n)) /\
  store_versions st' = store_versions st /\ log st' = log st /\
  forall y, In y (references st') <->
            In y (references st)
            \/ exists name, a_name (node_attrs n) = Some name
                            /\ y = PyStr.lower name.
Proof.
  unfold process_reference, bind, assert.
  destruct (String.eqb (tagname n) "reference"); simpl; [|discriminate].
  destruct (a_name (node_attrs n)) as [name|]; simpl.
  - intros H. injection H as <- <-. simpl. repeat split; try reflexivity.
    + intros Hy. apply set_add_In in Hy. destruct Hy as [->|Hy]; eauto.
    + intros [Hy|[m [E ->]]]; apply set_add_In; [now right|].
      injection E as <-. now left.
  - intros H. injection H as <- <-. repeat split; try reflexivity.
    + now left.
    + intros [Hy|[m [E _]]]; [assumption|discriminate].
Qed.



(** ** C8: block quotes of doctest blocks *)

(** C8. A block_quote whose children are all doctest_blocks (docutils
    gives a block_quote at least one child) converts to exactly one
    VERBATIM element, whose text is the children's texts joined by a
    blank line; three doctest blocks "a", "b", "c" give the text
    "a\n\nb\n\nc". *)
Theorem block_quote_of_doctest_blocks
    (a : attributes) (cs : list node) (st : state) :
  cs <> [] ->
  all_tagged "doctest_block" cs = true ->
  let verbatim :=
    Elem "VERBATIM" [] (Some (PyStr.join blank_line (map node_astext cs)))
         None [] in
  convert_block_quote (Element "block_quote" a cs) st = (Ok verbatim, st)
  /\ make_para_blocks (Element "block_quote" a cs) st = (Ok [verbatim], st)
  /\ convert_block_quote
       (Element "block_quote" no_attrs
                [doctest_block "a"; doctest_block "b"; doctest_block "c"]) st
     = (Ok (Elem "VERBATIM" []
                 (Some ("a" +++ newline +++ newline +++ "b"
                        +++ newline +++ newline +++ "c")) None []), st).
Proof.
  intros Hne Hall verbatim.
  assert (H1 : convert_block_quote (Element "block_quote" a cs) st
               = (Ok verbatim, st)).
  { destruct cs as [|c0 cs']; [now elim Hne|].
    pose proof Hall as Hall'.
    simpl in Hall. apply andb_true_iff in Hall. destruct Hall as [H0 _].
    apply String.eqb_eq in H0.
    unfold convert_block_quote, bind, assert, child.
    cbn [children nth_error tagname String.eqb Ascii.eqb Bool.eqb ret].
    rewrite H0, Hall'. reflexivity. }
  split; [exact H1|]. split; [|reflexivity].
  unfold make_para_blocks. cbn [tagname is_para String.eqb Ascii.eqb Bool.eqb].
  unfold bind. rewrite H1. reflexivity.
Qed.

Lemma block_quote_of_doctest_blocks_witness :
  let cs := [doctest_block "x"; doctest_block "y"] in
  let verbatim :=
    Elem "VERBATIM" [] (Some (PyStr.join blank_line (map node_astext cs)))
         None [] in
  convert_block_quote (Element "block_quote" no_attrs cs) initial_state
  = (Ok verbatim, initial_state)
  /\ make_para_blocks (Element "block_quote" no_attrs cs) initial_state
     = (Ok [verbatim], initial_state)
  /\ convert_block_quote
       (Element "block_quote" no_attrs
                [doctest_block "a"; doctest_block "b"; doctest_block "c"])
       initial_state
     = (Ok (Elem "VERBATIM" []
                 (Some ("a" +++ newline +++ newline +++ "b"
                        +++ newline +++ newline +++ "c")) None []),
        initial_state).
Proof.
  apply (block_quote_of_doctest_blocks
           no_attrs [doctest_block "x"; doctest_block "y"] initial_state).
  - discriminate.
  - reflexivity.
Defined.

(** ** C7: paragraphs with embedded references *)

Lemma append_all_Elem t a x y cs hs :
  append_all (Elem t a x y cs) hs = Elem t a x y (cs ++ hs).
Proof.
  unfold append_all. revert cs.
  induction hs as [|h hs IH]; intros cs; simpl.
  - now rewrite app_nil_r.
  - rewrite IH. now rewrite <- app_assoc.
Qed.

Lemma make_href_ok (n : node) (st st' : state) (h : element) :
  make_href n st = (Ok h, st') ->
  h = Elem "HREF" [("link", a_refuri (node_attrs n))]
           (Some (node_astext n)) None [].
Proof.
  unfold make_href, bind.
  destruct (process_reference n st) as [[r|e] st1] eqn:Hp; [|discriminate].
  apply process_reference_ok in Hp. destruct Hp as [-> _].
  unfold ret. intros H. now injection H as <- _.
Qed.

Lemma convert_para_loop_runs (ns : list node) :
  forall text out href st res st',
  convert_para_loop true ns text out href st = (Ok res, st') ->
  exists t0 hs,
    para_runs ns t0 hs
    /\ res = append_all (close_run (text ++ t0) out href) (map href_of hs).
Proof.
  induction ns as [|n ns IH]; intros text out href st res st' H.
  - simpl in H. unfold ret in H. injection H as <- _.
    exists [], []. split; [constructor|]. now rewrite app_nil_r.
  - simpl in H.
    destruct (String.eqb (tagname n) "target") eqn:Et.
    + unfold bind in H.
      destruct (process_target n st) as [[[]|e] st1]; [|discriminate].
      destruct (IH _ _ _ _ _ _ H) as [t0 [hs [Hr ->]]].
      exists t0, hs. split; [|reflexivity].
      apply runs_target; [now apply String.eqb_eq|assumption].
    + destruct (String.eqb (tagname n) "reference") eqn:Er.
      * simpl in H. unfold bind in H.
        destruct (make_href n st) as [[h|e] st1] eqn:Hh; [|discriminate].
        apply make_href_ok in Hh. subst h.
        destruct (IH _ _ _ _ _ _ H) as [t0 [hs [Hr ->]]].
        exists [], ((n, t0) :: hs). split.
        -- apply runs_reference; [now apply String.eqb_eq|assumption].
        -- rewrite app_nil_r. reflexivity.
      * unfold bind in H.
        destruct (astext n st) as [[t|e] st1] eqn:Ha; [|discriminate].
        destruct (IH _ _ _ _ _ _ H) as [t0 [hs [Hr ->]]].
        exists (t :: t0), hs. split.
        -- apply runs_text; try assumption.
           ++ intros E. rewrite E in Et. discriminate.
           ++ intros E. rewrite E in Er. discriminate.
           ++ now exists st, st1.
        -- now rewrite <- app_assoc.
Qed.

Lemma convert_para_loop_total (ns : list node) :
  forallb text_or_reference ns = true ->
  forall text out href st,
  exists res st', convert_para_loop true ns text out href st = (Ok res, st').
Proof.
  induction ns as [|n ns IH]; intros Hall text out href st.
  - simpl. unfold ret. eauto.
  - simpl in Hall. apply andb_true_iff in Hall. destruct Hall as [Hn Hall].
    destruct n as [s|t a cs]; simpl in Hn.
    + simpl. unfold bind, ret. apply IH. assumption.
    + apply String.eqb_eq in Hn. subst t.
      cbn [convert_para_loop tagname String.eqb Ascii.eqb Bool.eqb negb].
      unfold bind, make_href, process_reference, bind, assert.
      cbn [tagname String.eqb Ascii.eqb Bool.eqb ret node_attrs].
      destruct (a_name a); cbn; apply IH; assumption.
Qed.

(** C7. A paragraph that converts yields one PARA holding a flat
    sequence: its text is the run rendered before the first Reference,
    and its children are one HREF per Reference, in order, each with the
    Reference's display text, its [refuri] as [link], and the run that
    follows it as tail. A paragraph of text and References always
    converts. A Reference showing "X" to "http://x" followed by the text
    " more." gives the single child HREF(text "X", link "http://x",
    tail " more."). *)
Theorem convert_para_flat_runs
    (a : attributes) (ns : list node) (st st' : state) (out : element) :
  convert_para (Element "paragraph" a ns) true st = (Ok out, st') ->
  (exists t0 hs,
     para_runs ns t0 hs
     /\ out = Elem "PARA" [] (Some (PyStr.join newline t0)) None
                   (map href_of hs))
  /\ (forall ms st0,
        forallb text_or_reference ms = true ->
        exists o s1,
          convert_para (Element "paragraph" a ms) true st0 = (Ok o, s1))
  /\ convert_para
       (Element "paragraph" a [reference_node None "http://x" "X";
                               Text " more."]) true st
     = (Ok (Elem "PARA" [] (Some "") None
                 [Elem "HREF" [("link", Some "http://x")] (Some "X")
                       (Some " more.") []]), st).
Proof.
  intros H. split; [|split].
  - unfold convert_para in H.
    cbn [tagname String.eqb Ascii.eqb Bool.eqb negb children] in H.
    unfold bind at 1 in H. unfold ret at 1 in H.
    apply convert_para_loop_runs in H. destruct H as [t0 [hs [Hr ->]]].
    exists t0, hs. split; [assumption|].
    unfold close_run, new_element, set_text. simpl app.
    now rewrite append_all_Elem.
  - intros ms st0 Hall. unfold convert_para.
    cbn [tagname String.eqb Ascii.eqb Bool.eqb negb children].
    unfold bind at 1. unfold ret at 1.
    now apply convert_para_loop_total.
  - reflexivity.
Qed.

Lemma convert_para_flat_runs_witness :
  (exists t0 hs,
     para_runs [Text "See "; reference_node (Some "N") "http://x" "X";
                Text " more."] t0 hs
     /\ Elem "PARA" [] (Some "See ") None
             [Elem "HREF" [("link", Some "http://x")] (Some "X")
                   (Some " more.") []]
        = Elem "PARA" [] (Some (PyStr.join newline t0)) None
               (map href_of hs))
  /\ (forall ms st0,
        forallb text_or_reference ms = true ->
        exists o s1,
          convert_para (Element "paragraph" no_attrs ms) true st0
          = (Ok o, s1))
  /\ convert_para
       (Element "paragraph" no_attrs [reference_node None "http://x" "X";
                                      Text " more."]) true initial_state
     = (Ok (Elem "PARA" [] (Some "") None
                 [Elem "HREF" [("link", Some "http://x")] (Some "X")
                       (Some " more.") []]), initial_state).
Proof.
  apply (convert_para_flat_runs
           no_attrs
           [Text "See "; reference_node (Some "N") "http://x" "X";
            Text " more."]
           initial_state (mkState ["n"] None [])).
  reflexivity.
Defined.

(** ** C6: merging metadata *)

Section SortedSet.

Lemma compare_refl (x : string) : String.compare x x = Eq.
Proof. now apply String_as_OT.cmp_eq. Qed.

Lemma compare_trans (x y z : string) :
  String.compare x y = Lt -> String.compare y z = Lt ->
  String.compare x z = Lt.
Proof.
  intros H1 H2. apply String_as_OT.cmp_lt.
  apply String_as_OT.cmp_lt in H1. apply String_as_OT.cmp_lt in H2.
  eapply String_as_OT.lt_trans; eassumption.
Qed.

Lemma compare_gt_lt (x y : string) :
  String.compare x y = Gt -> String.compare y x = Lt.
Proof.
  intros H. rewrite String.compare_antisym, H. reflexivity.
Qed.

Lemma insert_uniq_In (x y : string) (l : list string) :
  In y (insert_uniq x l) <-> y = x \/ In y l.
Proof.
  induction l as [|z l IH]; simpl.
  - intuition.
  - destruct (String.compare x z) eqn:E; simpl.
    + apply String_as_OT.cmp_eq in E. subst z. intuition.
    + intuition.
    + rewrite IH. intuition.
Qed.

Lemma insert_uniq_sorted (x : string) (l : list string) :
  strictly_sorted l -> strictly_sorted (insert_uniq x l).
Proof.
  induction l as [|z l IH]; simpl; intros H.
  - split; [intros y []|exact I].
  - destruct H as [Hz Hl]. destruct (String.compare x z) eqn:E; simpl.
    + split; assumption.
    + split; [|split; assumption].
      intros y [<-|Hy]; [assumption|].
      eapply compare_trans; [eassumption|now apply Hz].
    + split; [|now apply IH].
      intros y Hy. apply insert_uniq_In in Hy. destruct Hy as [->|Hy].
      * now apply compare_gt_lt.
      * now apply Hz.
Qed.

Lemma sorted_set_In (y : string) (l : list string) :
  In y (sorted_set l) <-> In y l.
Proof.
  induction l as [|x l IH]; simpl; [reflexivity|].
  rewrite insert_uniq_In, IH. intuition.
Qed.

Lemma sorted_set_sorted (l : list string) : strictly_sorted (sorted_set l).
Proof.
  induction l as [|x l IH]; simpl; [exact I|].
  now apply insert_uniq_sorted.
Qed.

Lemma strictly_sorted_head_notin (x : string) (l : list string) :
  strictly_sorted (x :: l) -> ~ In x l.
Proof.
  intros [H _] Hin. specialize (H x Hin). rewrite compare_refl in H.
  discriminate.
Qed.

Lemma strictly_sorted_unique (l1 : list string) :
  forall l2, strictly_sorted l1 -> strictly_sorted l2 ->
  (forall x, In x l1 <-> In x l2) -> l1 = l2.
Proof.
  induction l1 as [|x l1 IH]; intros l2 H1 H2 Heq.
  - destruct l2 as [|y l2]; [reflexivity|].
    exfalso. apply (Heq y). now left.
  - destruct l2 as [|y l2].
    + exfalso. apply (Heq x). now left.
    + assert (Hxy : x = y).
      { destruct (proj1 (Heq x) (or_introl eq_refl)) as [E|Hx];
          [now symmetry|].
        destruct (proj2 (Heq y) (or_introl eq_refl)) as [E|Hy];
          [assumption|].
        destruct H1 as [H1 _]. destruct H2 as [H2 _].
        specialize (H1 y Hy). specialize (H2 x Hx).
        rewrite String.compare_antisym, H2 in H1. discriminate. }
      subst y. f_equal. apply IH.
      * now destruct H1.
      * now destruct H2.
      * intros z. split; intros Hz.
        -- destruct (proj1 (Heq z) (or_intror Hz)) as [E|Hz']; [|assumption].
           subst z. exfalso. now apply (strictly_sorted_head_notin x l1).
        -- destruct (proj2 (Heq z) (or_intror Hz)) as [E|Hz']; [|assumption].
           subst z. exfalso. now apply (strictly_sorted_head_notin x l2).
Qed.

Lemma sorted_set_absorb (u vs : list string) :
  strictly_sorted u -> (forall x, In x vs -> In x u) ->
  sorted_set (u ++ vs) = u.
Proof.
  intros Hu Hsub. apply strictly_sorted_unique.
  - apply sorted_set_sorted.
  - assumption.
  - intros x. rewrite sorted_set_In, in_app_iff. intuition.
Qed.

Lemma sorted_set_comm (xs ys : list string) :
  sorted_set (xs ++ ys) = sorted_set (ys ++ xs).
Proof.
  apply strictly_sorted_unique; try apply sorted_set_sorted.
  intros x. rewrite !sorted_set_In, !in_app_iff. intuition.
Qed.

End SortedSet.

Section SplitJoin.

Lemma string_app_assoc (a b c : string) : (a +++ b) +++ c = a +++ b +++ c.
Proof. induction a as [|x a IH]; simpl; [reflexivity|now rewrite IH]. Qed.

Lemma string_app_nil_r (a : string) : a +++ "" = a.
Proof. induction a as [|x a IH]; simpl; [reflexivity|now rewrite IH]. Qed.

Lemma no_space_app (u v : string) :
  no_space (u +++ v) = no_space u && no_space v.
Proof.
  unfold no_space. induction u as [|x u IH]; simpl; [reflexivity|].
  now rewrite IH, andb_assoc.
Qed.

Lemma is_word_spec (w : string) :
  is_word w = true <-> w <> "" /\ no_space w = true.
Proof.
  unfold is_word, no_space. rewrite andb_true_iff, negb_true_iff.
  now rewrite String.eqb_neq.
Qed.

Lemma split_ws_aux_words (s : string) :
  forall cur, no_space cur = true ->
  Forall (fun w => is_word w = true) (PyStr.split_ws_aux cur s).
Proof.
  induction s as [|a s IH]; intros cur Hc; simpl.
  - destruct cur as [|c cur]; constructor; [|constructor].
    apply is_word_spec. split; [discriminate|assumption].
  - destruct (PyStr.isspace a) eqn:Ea.
    + destruct cur as [|c cur]; [now apply IH|].
      constructor; [|now apply IH].
      apply is_word_spec. split; [discriminate|assumption].
    + apply IH. rewrite no_space_app, Hc. unfold no_space. simpl.
      now rewrite Ea.
Qed.

Lemma split_words (s : string) :
  Forall (fun w => is_word w = true) (PyStr.split s).
Proof. now apply split_ws_aux_words. Qed.

Lemma split_ws_aux_app (w : string) :
  forall cur rest, no_space w = true ->
  PyStr.split_ws_aux cur (w +++ rest) = PyStr.split_ws_aux (cur +++ w) rest.
Proof.
  induction w as [|a w IH]; intros cur rest Hw; simpl.
  - now rewrite string_app_nil_r.
  - unfold no_space in Hw. simpl in Hw. apply andb_true_iff in Hw.
    destruct Hw as [Ha Hw]. apply negb_true_iff in Ha. rewrite Ha.
    rewrite IH by assumption. rewrite string_app_assoc. reflexivity.
Qed.

Lemma split_join_words (ws : list string) :
  Forall (fun w => is_word w = true) ws ->
  PyStr.split (PyStr.join " " ws) = ws.
Proof.
  induction ws as [|w ws IH]; intros H; [reflexivity|].
  inversion H as [|? ? Hw Hws]; subst.
  apply is_word_spec in Hw. destruct Hw as [Hne Hns].
  unfold PyStr.split, PyStr.join in *. destruct ws as [|w2 ws].
  - simpl. rewrite <- (string_app_nil_r w) at 1.
    rewrite split_ws_aux_app by assumption. simpl.
    destruct w; [now elim Hne|reflexivity].
  - change (String.concat " " (w :: w2 :: ws))
      with (w +++ " " +++ String.concat " " (w2 :: ws)).
    rewrite split_ws_aux_app by assumption. simpl.
    destruct w; [now elim Hne|]. f_equal. now apply IH.
Qed.

End SplitJoin.

Section Dict.

Context {V : Type}.

Lemma dict_get_set_same (k : string) (v : V) (d : list (string * V)) :
  dict_get k (dict_set k v d) = Some v.
Proof.
  induction d as [|[k' v'] d IH]; simpl.
  - now rewrite String.eqb_refl.
  - destruct (String.eqb k' k) eqn:E; simpl.
    + now rewrite String.eqb_refl.
    + now rewrite E.
Qed.

Lemma dict_get_set_other (k k' : string) (v : V) (d : list (string * V)) :
  k <> k' -> dict_get k (dict_set k' v d) = dict_get k d.
Proof.
  intros Hne. induction d as [|[k0 v0] d IH]; simpl.
  - destruct (String.eqb k' k) eqn:E; [|reflexivity].
    apply String.eqb_eq in E. now elim Hne.
  - destruct (String.eqb k0 k') eqn:E; simpl.
    + apply String.eqb_eq in E. subst k0.
      destruct (String.eqb k' k) eqn:E'; [|reflexivity].
      apply String.eqb_eq in E'. now elim Hne.
    + now rewrite IH.
Qed.

Lemma dict_set_same_value (k : string) (v : V) (d : list (string * V)) :
  dict_get k d = Some v -> dict_set k v d = d.
Proof.
  induction d as [|[k0 v0] d IH]; simpl; [discriminate|].
  destruct (String.eqb k0 k) eqn:E.
  - intros H. injection H as ->. apply String.eqb_eq in E. now subst.
  - intros H. now rewrite IH.
Qed.

Lemma dict_get_In (k : string) (v : V) (d : list (string * V)) :
  dict_get k d = Some v -> In (k, v) d.
Proof.
  induction d as [|[k0 v0] d IH]; simpl; [discriminate|].
  destruct (String.eqb k0 k) eqn:E.
  - intros H. injection H as ->. apply String.eqb_eq in E. subst. now left.
  - intros H. right. now apply IH.
Qed.

Lemma dict_mem_keys (k : string) (d : list (string * V)) :
  dict_mem k d = true <-> In k (map fst d).
Proof.
  unfold dict_mem. induction d as [|[k0 v0] d IH]; simpl.
  - split; [discriminate|intros []].
  - destruct (String.eqb k0 k) eqn:E.
    + apply String.eqb_eq in E. split; [now left|reflexivity].
    + rewrite IH. split; [now right|]. intros [H|H]; [|assumption].
      subst. rewrite String.eqb_refl in E. discriminate.
Qed.

Lemma dict_set_keys (k : string) (v : V) (d : list (string * V)) :
  In k (map fst d) -> map fst (dict_set k v d) = map fst d.
Proof.
  induction d as [|[k0 v0] d IH]; simpl; [intros []|].
  destruct (String.eqb k0 k) eqn:E; simpl.
  - apply String.eqb_eq in E. now subst.
  - intros [H|H]; [subst; rewrite String.eqb_refl in E; discriminate|].
    now rewrite IH.
Qed.

End Dict.

Lemma merge_item_ok (d d' : dict) (k : string) (v : value) :
  merge_item d (k, v) = Ok d' ->
  In k (map fst d) /\
  exists w, d' = dict_set k w d /\
    ((In k multi_value_keys /\
      exists old new,
        dict_get k d = Some (Some old) /\ v = Some new /\
        w = Some (PyStr.join " "
                    (sorted_set (PyStr.split old ++ PyStr.split new))))
     \/ (~ In k multi_value_keys /\ w = v)).
Proof.
  unfold merge_item. intros H.
  destruct (dict_mem k d) eqn:Hm; cbn [negb] in H; [|discriminate].
  apply dict_mem_keys in Hm. split; [assumption|].
  destruct (PyStr.mem k multi_value_keys) eqn:Hk.
  - apply mem_In in Hk. unfold append_values in H.
    destruct (dict_get k d) as [[old|]|] eqn:Hg; try discriminate.
    destruct v as [new|]; [|discriminate].
    injection H as <-. eexists. split; [reflexivity|].
    left. split; [assumption|]. now exists old, new.
  - injection H as <-. exists v. split; [reflexivity|]. right.
    split; [|reflexivity]. intros Hin. apply mem_In in Hin.
    rewrite Hin in Hk. discriminate.
Qed.

Lemma merge_item_frame (d d' : dict) (k k' : string) (v : value) :
  merge_item d (k', v) = Ok d' -> k <> k' ->
  dict_get k d' = dict_get k d.
Proof.
  intros H Hne. apply merge_item_ok in H.
  destruct H as [_ [w [-> _]]]. now apply dict_get_set_other.
Qed.

Lemma merge_items_frame (a : dict) :
  forall d d' k, merge_items d a = Ok d' -> ~ In k (map fst a) ->
  dict_get k d' = dict_get k d.
Proof.
  induction a as [|[k0 v0] a IH]; intros d d' k H Hnot;
    cbn [merge_items] in H.
  - now injection H as <-.
  - destruct (merge_item d (k0, v0)) as [d1|e] eqn:H1; [|discriminate].
    rewrite (IH _ _ _ H).
    + eapply merge_item_frame; [eassumption|].
      intros E. apply Hnot. now left.
    + intros Hin. apply Hnot. now right.
Qed.

Lemma sorted_set_words (l : list string) :
  Forall (fun w => is_word w = true) l ->
  Forall (fun w => is_word w = true) (sorted_set l).
Proof.
  rewrite !Forall_forall. intros H x Hx. apply H. now apply sorted_set_In.
Qed.

(** Merging the words of [new] into a value already merged with [new]
    gives that value again. *)
Lemma append_again (old new : string) :
  let s := PyStr.join " " (sorted_set (PyStr.split old ++ PyStr.split new)) in
  PyStr.join " " (sorted_set (PyStr.split s ++ PyStr.split new)) = s.
Proof.
  intros s. unfold s at 1. rewrite split_join_words.
  - rewrite sorted_set_absorb; [reflexivity|apply sorted_set_sorted|].
    intros x Hx. apply sorted_set_In, in_app_iff. now right.
  - apply sorted_set_words, Forall_app. split; apply split_words.
Qed.

Lemma merge_item_fix (d d' d2 : dict) (k : string) (v : value) :
  merge_item d (k, v) = Ok d' ->
  dict_get k d2 = dict_get k d' ->
  merge_item d2 (k, v) = Ok d2.
Proof.
  intros H Hsame. apply merge_item_ok in H.
  destruct H as [_ [w [-> Hw]]]. rewrite dict_get_set_same in Hsame.
  unfold merge_item.
  assert (Hm : dict_mem k d2 = true) by (unfold dict_mem; now rewrite Hsame).
  rewrite Hm. cbn [negb].
  destruct Hw as [[Hk [old [new [_ [-> ->]]]]]|[Hk ->]].
  - apply mem_In in Hk. rewrite Hk. unfold append_values. rewrite Hsame.
    rewrite append_again. now rewrite dict_set_same_value.
  - destruct (PyStr.mem k multi_value_keys) eqn:E.
    + apply mem_In in E. contradiction.
    + now rewrite dict_set_same_value.
Qed.

Lemma merge_items_idempotent (a : dict) :
  NoDup (map fst a) ->
  forall d d', merge_items d a = Ok d' -> merge_items d' a = Ok d'.
Proof.
  induction a as [|[k v] a IH]; intros Hnd d d' H; [reflexivity|].
  cbn [merge_items map fst] in *. inversion Hnd as [|? ? Hnot Hnd']; subst.
  destruct (merge_item d (k, v)) as [d1|e] eqn:H1; [|discriminate].
  rewrite (merge_item_fix d d1 d' k v H1).
  - eapply IH; eassumption.
  - eapply merge_items_frame; eassumption.
Qed.

Lemma merge_items_value (a : dict) :
  NoDup (map fst a) ->
  forall d d' k old new,
  merge_items d a = Ok d' ->
  In k multi_value_keys ->
  dict_get k d = Some (Some old) -> In (k, Some new) a ->
  dict_get k d'
  = Some (Some (PyStr.join " "
                  (sorted_set (PyStr.split old ++ PyStr.split new)))).
Proof.
  induction a as [|[k0 v0] a IH]; intros Hnd d d' k old new H Hk Hg Hin;
    [destruct Hin|].
  cbn [merge_items map fst] in *. inversion Hnd as [|? ? Hnot Hnd']; subst.
  destruct (merge_item d (k0, v0)) as [d1|e] eqn:H1; [|discriminate].
  destruct Hin as [E|Hin].
  - injection E as -> ->.
    rewrite (merge_items_frame _ _ _ _ H Hnot).
    apply merge_item_ok in H1. destruct H1 as [_ [w [-> Hw]]].
    rewrite dict_get_set_same.
    destruct Hw as [[_ [old' [new' [Hg' [E ->]]]]]|[Hk' _]];
      [|contradiction].
    rewrite Hg in Hg'. injection Hg' as <-. now injection E as <-.
  - assert (Hne : k <> k0).
    { intros ->. apply Hnot. apply (in_map fst) in Hin. exact Hin. }
    eapply IH; try eassumption.
    rewrite (merge_item_frame _ _ _ _ _ H1 Hne). assumption.
Qed.

Lemma dict_get_notin (k : string) (a : dict) :
  ~ In k (map fst a) -> dict_get k a = None.
Proof.
  intros H. destruct (dict_get k a) eqn:E; [|reflexivity].
  exfalso. apply H. apply dict_get_In in E.
  apply (in_map fst) in E. exact E.
Qed.

Lemma merge_items_total (a : dict) :
  NoDup (map fst a) ->
  multi_values_are_str a ->
  forall d, (forall k, In k (map fst a) -> In k (map fst d)) ->
  multi_values_are_str d ->
  exists d', merge_items d a = Ok d'.
Proof.
  induction a as [|[k v] a IH]; intros Hnd Ha d Hkeys Hd;
    cbn [merge_items map fst] in *.
  - now exists d.
  - inversion Hnd as [|? ? Hnot Hnd']; subst.
    assert (Hk : In k (map fst d)) by (apply Hkeys; now left).
    assert (H1 : exists w, merge_item d (k, v) = Ok (dict_set k w d)
                           /\ (In k multi_value_keys -> w <> None)).
    { unfold merge_item. apply dict_mem_keys in Hk. rewrite Hk. cbn [negb].
      destruct (PyStr.mem k multi_value_keys) eqn:Em.
      - apply mem_In in Em. unfold append_values.
        unfold dict_mem in Hk.
        destruct (dict_get k d) as [x|] eqn:Hg; [|discriminate].
        destruct x as [old|].
        + destruct v as [new|].
          * eexists. split; [reflexivity|]. intros _. discriminate.
          * exfalso. apply (Ha k Em). simpl. now rewrite String.eqb_refl.
        + exfalso. now apply (Hd k Em).
      - exists v. split; [reflexivity|]. intros Hin. apply mem_In in Hin.
        rewrite Hin in Em. discriminate. }
    destruct H1 as [w [H1 Hw]]. rewrite H1. apply IH.
    + assumption.
    + intros k' Hm Hg. apply (Ha k' Hm). simpl.
      destruct (String.eqb k k') eqn:E; [|assumption].
      apply String.eqb_eq in E. subst k'.
      rewrite (dict_get_notin k a Hnot) in Hg. discriminate.
    + intros k' Hin. rewrite dict_set_keys by assumption.
      apply Hkeys. now right.
    + intros k' Hm Hg. destruct (string_dec k' k) as [->|Hne].
      * rewrite dict_get_set_same in Hg. injection Hg as ->.
        now apply Hw.
      * rewrite dict_get_set_other in Hg by assumption. now apply (Hd k').
Qed.

(** C6. For a metadata mapping [m] and an override [a] whose keys all lie
    in [m] (the multi-value entries being strings), the merge succeeds
    and merging the same override again changes nothing:
    [merge(merge(m, a), a) = merge(m, a)]. For a multi-value key the
    merged value is a list of words [ws] joined by single spaces, where
    [ws] is in strictly increasing order (so it holds no word twice),
    holds exactly the words of the old value and of the new value, and
    is read back unchanged by a white-space split. The merged value is
    the same whichever of the two values is the old one. The words of a
    value are its non-empty runs without white space: splitting skips
    white space, and takes a run without white space up to the next
    white-space character or the end as one word. *)
Theorem merge_metadata_idempotent (m a : dict) :
  NoDup (map fst a) ->
  (forall k, In k (map fst a) -> In k (map fst m)) ->
  multi_values_are_str m -> multi_values_are_str a ->
  exists m1,
    merge_metadata m (Some a) = Ok m1
    /\ merge_metadata m1 (Some a) = Ok m1
    /\ (forall k old new,
          In k multi_value_keys ->
          dict_get k m = Some (Some old) ->
          dict_get k a = Some (Some new) ->
          exists ws,
            ws = sorted_set (PyStr.split old ++ PyStr.split new)
            /\ dict_get k m1 = Some (Some (PyStr.join " " ws))
            /\ strictly_sorted ws
            /\ (forall w, In w ws
                          <-> In w (PyStr.split old) \/ In w (PyStr.split new))
            /\ PyStr.split (PyStr.join " " ws) = ws)
    /\ (forall (d d' : dict) k old new,
          dict_get k d = Some (Some old) ->
          dict_get k d' = Some (Some new) ->
          append_values d k (Some new) = append_values d' k (Some old))
    /\ (forall vals,
          strictly_sorted (sorted_set vals)
          /\ (forall w, In w (sorted_set vals) <-> In w vals))
    /\ (forall v,
          Forall (fun w => w <> "" /\ no_space w = true) (PyStr.split v))
    /\ (forall ws,
          Forall (fun w => w <> "" /\ no_space w = true) ws ->
          PyStr.split (PyStr.join " " ws) = ws)
    /\ (PyStr.split "" = []
        /\ (forall c v, PyStr.isspace c = true ->
                        PyStr.split (String c v) = PyStr.split v)
        /\ (forall w c v,
              w <> "" -> no_space w = true -> PyStr.isspace c = true ->
              PyStr.split (w +++ String c v) = w :: PyStr.split v)
        /\ (forall w, w <> "" -> no_space w = true -> PyStr.split w = [w])).
Proof.
  intros Hnd Hkeys Hm Ha.
  destruct (merge_items_total a Hnd Ha m Hkeys Hm) as [m1 H1].
  exists m1. unfold merge_metadata.
  split; [assumption|].
  split; [now apply (merge_items_idempotent a Hnd m)|].
  split; [|split; [|split; [|split; [|split]]]].
  - intros k old new Hk Hold Hnew.
    exists (sorted_set (PyStr.split old ++ PyStr.split new)).
    split; [reflexivity|]. split.
    { apply (merge_items_value a Hnd m m1 k old new); try assumption.
      now apply dict_get_In. }
    split; [apply sorted_set_sorted|]. split.
    { intros w. now rewrite sorted_set_In, in_app_iff. }
    apply split_join_words, sorted_set_words.
    apply Forall_app. split; apply split_words.
  - intros d d' k old new Hd Hd'. unfold append_values.
    rewrite Hd, Hd'. now rewrite sorted_set_comm.
  - intros vals. split; [apply sorted_set_sorted|].
    intros w. apply sorted_set_In.
  - intros v. eapply Forall_impl; [|apply split_words].
    intros w Hw. now apply is_word_spec.
  - intros ws Hws. apply split_join_words.
    eapply Forall_impl; [|exact Hws].
    intros w Hw. now apply is_word_spec.
  - split; [reflexivity|]. split; [|split].
    + intros c v Hc. unfold PyStr.split. cbn [PyStr.split_ws_aux].
      now rewrite Hc.
    + intros w c v Hne Hw Hc. unfold PyStr.split.
      rewrite (split_ws_aux_app w "" (String c v) Hw).
      cbn [String.append PyStr.split_ws_aux]. rewrite Hc.
      destruct w; [now elim Hne|reflexivity].
    + intros w Hne Hw. unfold PyStr.split.
      rewrite <- (string_app_nil_r w) at 1.
      rewrite (split_ws_aux_app w "" "" Hw).
      cbn [String.append PyStr.split_ws_aux].
      destruct w; [now elim Hne|reflexivity].
Qed.

Lemma merge_metadata_idempotent_witness :
  exists m1,
    merge_metadata (base_xmlattrs "fit" "fit data a" "" "")
                   (Some [("refkeywords", Some "z a  model");
                          ("context", Some "fitting")]) = Ok m1
    /\ merge_metadata m1 (Some [("refkeywords", Some "z a  model");
                                ("context", Some "fitting")]) = Ok m1
    /\ m1 = [("pkg", Some "sherpa"); ("key", Some "fit");
             ("refkeywords", Some "a data fit model z");
             ("seealsogroups", Some "");
             ("displayseealsogroups", Some "");
             ("context", Some "fitting")].
Proof.
  destruct (merge_metadata_idempotent
              (base_xmlattrs "fit" "fit data a" "" "")
              [("refkeywords", Some "z a  model");
               ("context", Some "fitting")])
    as [m1 [Hm [Hi _]]].
  - repeat constructor; simpl; intuition discriminate.
  - simpl. intuition.
  - intros k Hk. simpl in Hk.
    destruct Hk as [<-|[<-|[<-|[]]]]; simpl; discriminate.
  - intros k Hk. simpl in Hk.
    destruct Hk as [<-|[<-|[<-|[]]]]; simpl; discriminate.
  - exists m1. split; [exact Hm|]. split; [exact Hi|].
    vm_compute in Hm. now injection Hm as <-.
Defined.

(** ** The monad *)

Lemma bind_ok {A B : Type} (c : M A) (k : A -> M B) (st st' : state) (b : B) :
  bind c k st = (Ok b, st') ->
  exists a st1, c st = (Ok a, st1) /\ k a st1 = (Ok b, st').
Proof.
  unfold bind. destruct (c st) as [[a|e] st1]; [|discriminate].
  intros H. now exists a, st1.
Qed.

Lemma bind_run {A B : Type} (c : M A) (k : A -> M B) (st st1 : state) (a : A) :
  c st = (Ok a, st1) -> bind c k st = k a st1.
Proof. unfold bind. now intros ->. Qed.

(** ** C1: trailing nodes *)

(** What the code does where a fatal error is expected. When the
    extractors of [convert_docutils] have run and left a non-empty
    remainder, no error is raised: [convert_docutils] writes one WARN
    line ("ignoring trailing") and returns the left-over nodes
    themselves, where its callers expect the output document. *)
Theorem trailing_nodes_are_returned
    (cleanup_sig convert_example_text : string -> string)
    (name : string) (doc : list node) (sig : option string)
    (sym : option symbol) (metadata : option dict)
    (synonyms : option (list string)) (dtd : string)
    (st st1 : state) (sec : sections) :
  PyStr.mem dtd ["ahelp"; "sxml"] = true ->
  synonyms <> Some [] ->
  segment cleanup_sig convert_example_text name doc sig sym synonyms st
  = (Ok sec, st1) ->
  s_nodes sec <> [] ->
  convert_docutils cleanup_sig convert_example_text name doc sig sym
                   metadata synonyms dtd st
  = (Ok (Trailing (s_nodes sec)),
     mkState (references st1) (store_versions st1)
             (log st1 ++ [Diag "WARN" "ignoring trailing:" (s_nodes sec)])).
Proof.
  intros Hdtd Hsyn Hseg Hne. unfold convert_docutils. rewrite Hdtd.
  cbn [negb]. unfold bind at 1. unfold ret at 1.
  assert (Hs : match synonyms with
               | Some syns => (0 <? length syns)%nat
               | None => true
               end = true).
  { destruct synonyms as [[|x l]|]; try reflexivity. now elim Hsyn. }
  rewrite Hs. unfold assert, bind at 1. unfold ret at 1.
  rewrite (bind_run _ _ _ _ _ Hseg).
  destruct (s_nodes sec) as [|n ns]; [now elim Hne|].
  reflexivity.
Qed.

Lemma trailing_nodes_are_returned_witness :
  convert_docutils no_cleanup no_cleanup "fit" doc_trailing None None None
                   None "ahelp" initial_state
  = (Ok (Trailing [rubric "Caveats"; paragraph "Take care."]),
     mkState [] (Some empty_store)
             ([] ++ [Diag "WARN" "ignoring trailing:"
                          [rubric "Caveats"; paragraph "Take care."]])).
Proof.
  apply (trailing_nodes_are_returned
           no_cleanup no_cleanup "fit" doc_trailing None None None None
           "ahelp" initial_state (mkState [] (Some empty_store) [])
           (mkSections (Some (text_element "SYNOPSIS" "A synopsis."))
                       (Some ["a"; "synopsis"]) None None None None None
                       None None None None
                       [rubric "Caveats"; paragraph "Take care."])).
  - reflexivity.
  - discriminate.
  - reflexivity.
  - discriminate.
Defined.

(** C1, at the failing input. The document [doc_trailing] ends with a
    section that no extractor takes. Its conversion should stop with an
    error; instead it raises nothing, writes a WARN line and returns the
    two left-over nodes in place of the output document (the assertion
    on the remainder is commented out in the source). *)
Theorem trailing_nodes_not_fatal :
  convert_plain "fit" doc_trailing initial_state
  = (Ok (Trailing [rubric "Caveats"; paragraph "Take care."]),
     mkState [] (Some empty_store)
             [Diag "WARN" "ignoring trailing:"
                   [rubric "Caveats"; paragraph "Take care."]]).
Proof. reflexivity. Qed.

(** ** Frame properties of the inline renderer *)

Lemma node_induction (P : node -> Prop) :
  (forall s, P (Text s)) ->
  (forall t a cs, Forall P cs -> P (Element t a cs)) ->
  forall n, P n.
Proof.
  intros Ht He. fix IH 1. intros [s|t a cs]; [apply Ht|].
  apply He. induction cs as [|c cs IHcs]; constructor; [apply IH|exact IHcs].
Qed.

Lemma frame_ret {A} (a : A) : frame (ret a).
Proof. intros st r st' H. unfold ret in H. now injection H as _ <-. Qed.

Lemma frame_raise {A} (e : exn) : frame (@raise A e).
Proof. intros st r st' H. unfold raise in H. now injection H as _ <-. Qed.

Lemma frame_lift {A} (x : result A) : frame (lift x).
Proof. intros st r st' H. unfold lift in H. now injection H as _ <-. Qed.

Lemma frame_assert (b : bool) : frame (assert b).
Proof. destruct b; [apply frame_ret|apply frame_raise]. Qed.

Lemma frame_dbg (i m : string) (ns : list node) : frame (dbg i m ns).
Proof. intros st r st' H. unfold dbg in H. now injection H as _ <-. Qed.

Lemma frame_bind {A B} (c : M A) (k : A -> M B) :
  frame c -> (forall a, frame (k a)) -> frame (bind c k).
Proof.
  intros Hc Hk st r st' H. unfold bind in H.
  destruct (c st) as [[a|e] st1] eqn:E.
  - destruct (Hc _ _ _ E) as [H1 H2]. destruct (Hk a _ _ _ H) as [H3 H4].
    split; congruence.
  - injection H as _ <-. exact (Hc _ _ _ E).
Qed.

Lemma frame_mapM {A B} (f : A -> M B) (l : list A) :
  Forall (fun a => frame (f a)) l -> frame (mapM f l).
Proof.
  induction 1 as [|a l Ha Hl IH]; simpl; [apply frame_ret|].
  apply frame_bind; [assumption|]. intros b.
  apply frame_bind; [assumption|]. intros bs. apply frame_ret.
Qed.

Lemma frame_process_target (n : node) : frame (process_target n).
Proof.
  unfold process_target.
  apply frame_bind; [apply frame_assert|]. intros _.
  apply frame_bind; [apply frame_assert|]. intros _.
  intros st r st' H.
  destruct (PyStr.mem _ _) in H; now injection H as _ <-.
Qed.

Lemma frame_astext (n : node) : frame (astext n).
Proof.
  induction n as [s|t a cs IH] using node_induction; [apply frame_ret|].
  cbn [astext].
  repeat match goal with
         | |- frame (if ?b then _ else _) => destruct b
         | |- frame (bind _ _) => apply frame_bind; [|intro]
         | |- frame (ret _) => apply frame_ret
         | |- frame (raise _) => apply frame_raise
         | |- frame (lift _) => apply frame_lift
         | |- frame (assert _) => apply frame_assert
         | |- frame (dbg _ _ _) => apply frame_dbg
         | |- frame (process_target _) => apply frame_process_target
         | |- frame (mapM astext _) => apply frame_mapM; assumption
         end.
  destruct cs as [|c0 [|c1 cs']]; try apply frame_raise.
  - apply frame_bind; [apply frame_assert|]. intros _. apply frame_raise.
  - apply frame_bind; [apply frame_assert|]. intros _.
    inversion IH as [|? ? _ IH1]; subst. inversion IH1 as [|? ? Hc1 _]; subst.
    destruct (_ || _); [|apply frame_raise].
    apply frame_bind; [assumption|]. intro. apply frame_ret.
Qed.

(** ** The version store *)

Lemma get_store_ok (st st' : state) (s : store) :
  get_store st = (Ok s, st') -> st' = st /\ store_versions st = Some s.
Proof.
  unfold get_store. destruct (store_versions st) as [s0|]; [|discriminate].
  intros H. injection H as -> <-. auto.
Qed.

Lemma get_store_run (st : state) (s : store) :
  store_versions st = Some s -> get_store st = (Ok s, st).
Proof. unfold get_store. now intros ->. Qed.

Lemma assert_ok (b : bool) (st st' : state) (u : unit) :
  assert b st = (Ok u, st') -> b = true /\ st' = st.
Proof.
  destruct b; simpl; [|discriminate]. unfold ret. intros H.
  injection H as _ <-. auto.
Qed.

Lemma child_ok (i : nat) (n c : node) (st st' : state) :
  child i n st = (Ok c, st') -> st' = st.
Proof.
  unfold child. destruct (nth_error (children n) i); [|discriminate].
  unfold ret. intros H. now injection H as _ <-.
Qed.

Lemma lift_ok {A} (r : result A) (a : A) (st st' : state) :
  lift r st = (Ok a, st') -> r = Ok a /\ st' = st.
Proof. unfold lift. intros H. injection H as -> <-. auto. Qed.

Lemma version_label_ok (t lbl : string) (st st' : state) :
  version_label t st = (Ok lbl, st') ->
  st' = st /\ ((t = "versionadded" /\ lbl = "Added")
               \/ (t = "versionchanged" /\ lbl = "Changed")).
Proof.
  unfold version_label.
  destruct (String.eqb t "versionadded") eqn:Ea.
  - apply String.eqb_eq in Ea. unfold ret. intros H.
    injection H as <- <-. auto.
  - destruct (String.eqb t "versionchanged") eqn:Ec; [|discriminate].
    apply String.eqb_eq in Ec. unfold ret. intros H.
    injection H as <- <-. auto.
Qed.

Lemma store_append_ok (key : string) (e : element) (st st' : state)
    (s : store) :
  key = "versionadded" \/ key = "versionchanged" ->
  store_versions st = Some s ->
  store_append key e st = (Ok tt, st') ->
  store_versions st' = Some (store_extend key [e] s).
Proof.
  intros Hkey Hs. unfold store_append. rewrite (bind_run _ _ _ _ _ (get_store_run _ _ Hs)).
  unfold store_extend.
  destruct Hkey as [-> | ->]; cbn; intros H; now injection H as <-.
Qed.

Lemma store_extend_app (key : string) (n1 n2 : list element) (s : store) :
  store_extend key n2 (store_extend key n1 s) = store_extend key (n1 ++ n2) s.
Proof.
  unfold store_extend. destruct (String.eqb key "versionadded"); simpl;
    now rewrite <- app_assoc.
Qed.

Lemma version_rest_appends (key : string) (blks : list node) :
  key = "versionadded" \/ key = "versionchanged" ->
  forall st st' s,
  store_versions st = Some s ->
  forM_ (fun blk =>
           (if negb (is_para blk) then raise (RuntimeError "blk")
            else ret tt) ;;;
           t <- astext blk ;;
           store_append key (text_element "PARA" t)) blks st
  = (Ok tt, st') ->
  exists new,
    Forall not_new_in_414 new
    /\ store_versions st' = Some (store_extend key new s).
Proof.
  intros Hkey. induction blks as [|blk blks IH]; intros st st' s Hs H.
  - simpl in H. unfold ret in H. injection H as <-. exists [].
    split; [constructor|]. rewrite Hs. f_equal. unfold store_extend.
    destruct (String.eqb key "versionadded"); destruct s; simpl;
      now rewrite !app_nil_r.
  - cbn [forM_] in H. apply bind_ok in H. destruct H as [[] [st1 [H1 H2]]].
    apply bind_ok in H1. destruct H1 as [[] [st2 [H1 H3]]].
    assert (st2 = st).
    { destruct (negb (is_para blk)); [discriminate|].
      unfold ret in H1. now injection H1 as <-. }
    subst st2. apply bind_ok in H3. destruct H3 as [t [st3 [H3 H4]]].
    destruct (frame_astext blk _ _ _ H3) as [Hst _].
    rewrite Hs in Hst.
    pose proof (store_append_ok key _ _ _ s Hkey Hst H4) as Hs1.
    destruct (IH _ _ _ Hs1 H2) as [new [Hnew Hs']].
    exists (text_element "PARA" t :: new). split.
    + constructor; [reflexivity|assumption].
    + rewrite Hs'. f_equal. apply (store_extend_app key [_] new s).
Qed.

Lemma store_extend_titles (key : string) (new : list element)
    (ts : list string) (s : store) :
  store_extend key new (with_titles ts s)
  = with_titles ts (store_extend key new s).
Proof.
  unfold store_extend, with_titles.
  now destruct (String.eqb key "versionadded").
Qed.

Lemma titled_para_not_new (lbl version : string) (x : option string) :
  lbl = "Added" \/ lbl = "Changed" ->
  not_new_in_414
    (match x with
     | Some t => set_text (Some t)
                   (eset "title" (Some (lbl +++ " in CIAO " +++ version))
                         (new_element "PARA"))
     | None => eset "title" (Some (lbl +++ " in CIAO " +++ version))
                    (new_element "PARA")
     end).
Proof.
  intros [-> | ->]; destruct x; reflexivity.
Qed.

Lemma convert_versionwarning_appends (block : node) (st st' : state)
    (s : store) :
  store_versions st = Some s ->
  convert_versionwarning block st = (Ok tt, st') ->
  done s = false
  /\ (tagname block = "versionadded" \/ tagname block = "versionchanged")
  /\ exists new ts,
       new <> [] /\ Forall not_new_in_414 new
       /\ store_versions st'
          = Some (store_extend (tagname block) new (with_titles ts s)).
Proof.
  intros Hs H. unfold convert_versionwarning in H.
  rewrite (bind_run _ _ _ _ _ (get_store_run _ _ Hs)) in H.
  destruct (done s) eqn:Hd.
  { unfold bind, raise in H. discriminate. }
  split; [reflexivity|].
  apply bind_ok in H. destruct H as [[] [st1 [H0 H]]].
  unfold ret in H0. injection H0 as <-.
  apply bind_ok in H. destruct H as [lbl [st1 [Hl H]]].
  apply version_label_ok in Hl. destruct Hl as [-> Hlbl].
  assert (Hkey : tagname block = "versionadded"
                 \/ tagname block = "versionchanged") by tauto.
  assert (Hlbl' : lbl = "Added" \/ lbl = "Changed") by tauto.
  split; [assumption|].
  apply bind_ok in H. destruct H as [[] [st1 [Ha H]]].
  apply assert_ok in Ha. destruct Ha as [_ ->].
  apply bind_ok in H. destruct H as [block0 [st1 [Hc H]]].
  apply child_ok in Hc. subst st1.
  apply bind_ok in H. destruct H as [b0 [st1 [Hb H]]].
  destruct (frame_astext _ _ _ _ Hb) as [Hs1 _]. rewrite Hs in Hs1.
  destruct (PyStr.split_max1 b0) as [|tok0 rest]; [discriminate|].
  apply bind_ok in H. destruct H as [version [st2 [Hv H]]].
  apply lift_ok in Hv. destruct Hv as [_ ->].
  rewrite (bind_run _ _ _ _ _ (get_store_run _ _ Hs1)) in H.
  apply bind_ok in H. destruct H as [out [st2 [Ho H]]].
  apply bind_ok in H. destruct H as [[] [st3 [Happ Hrest]]].
  set (title := lbl +++ " in CIAO " +++ version) in *.
  assert (Hout : exists ts,
             store_versions st2 = Some (with_titles ts s)
             /\ (out = eset "title" (Some title) (new_element "PARA")
                 \/ out = new_element "PARA")).
  { destruct (negb (PyStr.mem title (titles s))).
    - unfold bind, put_store, ret in Ho. injection Ho as <- <-.
      exists (set_add title (titles s)). split; [reflexivity|now left].
    - unfold ret in Ho. injection Ho as <- <-.
      exists (titles s). split; [now destruct s|now right]. }
  destruct Hout as [ts [Hs2 Hout]].
  pose proof (store_append_ok _ _ _ _ _ Hkey Hs2 Happ) as Hs3.
  destruct (version_rest_appends _ _ Hkey _ _ _ Hs3 Hrest) as [new [Hnew Hs']].
  match type of Hs3 with
  | _ = Some (store_extend _ [?e] _) => exists (e :: new), ts
  end.
  split; [discriminate|]. split.
  - constructor; [|exact Hnew].
    destruct Hout as [-> | ->].
    + destruct rest as [|tok1 ?].
      * apply (titled_para_not_new lbl version None Hlbl').
      * destruct (negb (xsversion_warning_match tok1)).
        -- apply (titled_para_not_new lbl version (Some tok1) Hlbl').
        -- apply (titled_para_not_new lbl version None Hlbl').
    + destruct rest as [|tok1 ?]; [reflexivity|].
      destruct (negb (xsversion_warning_match tok1)); reflexivity.
  - rewrite Hs'. f_equal. apply (store_extend_app _ [_] new).
Qed.

Lemma convert_comment_versionwarning_appends (block : node)
    (st st' : state) (s : store) :
  store_versions st = Some s ->
  convert_comment_versionwarning block st = (Ok tt, st') ->
  done s = false
  /\ exists key e,
       (key = "versionadded" \/ key = "versionchanged")
       /\ not_new_in_414 e
       /\ store_versions st' = Some (store_extend key [e] s).
Proof.
  intros Hs H. unfold convert_comment_versionwarning in H.
  rewrite (bind_run _ _ _ _ _ (get_store_run _ _ Hs)) in H.
  destruct (done s) eqn:Hd.
  { unfold bind, raise in H. discriminate. }
  split; [reflexivity|].
  apply bind_ok in H. destruct H as [[] [st1 [H0 H]]].
  unfold ret in H0. injection H0 as <-.
  apply bind_ok in H. destruct H as [[] [st1 [Ha H]]].
  apply assert_ok in Ha. destruct Ha as [_ ->].
  apply bind_ok in H. destruct H as [block0 [st1 [Hc H]]].
  apply child_ok in Hc. subst st1.
  apply bind_ok in H. destruct H as [astxt [st1 [Hb H]]].
  destruct (frame_astext _ _ _ _ Hb) as [Hs1 _]. rewrite Hs in Hs1.
  destruct (PyStr.find_char ":" astxt) as [[|idx]|]; try discriminate.
  apply bind_ok in H. destruct H as [lbl [st2 [Hl H]]].
  apply version_label_ok in Hl. destruct Hl as [-> Hlbl].
  set (key := String.substring 0 (S idx) astxt) in *.
  assert (Hkey : key = "versionadded" \/ key = "versionchanged") by tauto.
  assert (Hlbl' : lbl = "Added" \/ lbl = "Changed") by tauto.
  apply bind_ok in H. destruct H as [version [st2 [Hv H]]].
  apply lift_ok in Hv. destruct Hv as [_ ->].
  pose proof (store_append_ok _ _ _ _ _ Hkey Hs1 H) as Hs2.
  match type of Hs2 with
  | _ = Some (store_extend _ [?e] _) => exists key, e
  end.
  split; [assumption|]. split; [|assumption].
  match goal with
  | |- not_new_in_414 (match ?l with _ => _ end) => destruct l as [|? [|? [|? ?]]]
  end.
  all: apply (titled_para_not_new lbl version None Hlbl').
Qed.

Lemma with_titles_same (s : store) : with_titles (titles s) s = s.
Proof. now destruct s. Qed.

Lemma record_version_appends (block : node) (st st' : state) (s : store) :
  store_versions st = Some s ->
  record_version block st = (Ok tt, st') ->
  done s = false
  /\ exists x ts,
       recorded_as block x /\ Forall not_new_in_414 (snd x)
       /\ store_versions st'
          = Some (store_extend (fst x) (snd x) (with_titles ts s)).
Proof.
  intros Hs H. unfold record_version in H.
  destruct (String.eqb (tagname block) "comment") eqn:Ec.
  - destruct (convert_comment_versionwarning_appends _ _ _ _ Hs H)
      as [Hd [key [e [Hkey [He Hs']]]]].
    split; [assumption|]. exists (key, [e]), (titles s).
    rewrite with_titles_same. repeat split; simpl.
    + discriminate.
    + assumption.
    + intros Hne. apply String.eqb_eq in Ec. contradiction.
    + now constructor.
    + assumption.
  - destruct (convert_versionwarning_appends _ _ _ _ Hs H)
      as [Hd [Hkey [new [ts [Hne [Hnew Hs']]]]]].
    split; [assumption|]. exists (tagname block, new), ts.
    repeat split; simpl; assumption.
Qed.

Lemma entries_of_cons (key k : string) (new : list element) (h : history) :
  entries_of key ((k, new) :: h)
  = (if String.eqb k key then new else []) ++ entries_of key h.
Proof.
  unfold entries_of. simpl. now destruct (String.eqb k key).
Qed.

Lemma record_versions_history (blocks : list node) :
  forall st st' s,
  store_versions st = Some s ->
  record_versions blocks st = (Ok tt, st') ->
  exists (h : history) ts,
    Forall2 recorded_as blocks h
    /\ Forall not_new_in_414 (entries_of "versionadded" h)
    /\ store_versions st'
       = Some (mkStore (versionadded s ++ entries_of "versionadded" h)
                       (versionchanged s ++ entries_of "versionchanged" h)
                       ts (done s)).
Proof.
  induction blocks as [|b blocks IH]; intros st st' s Hs H.
  - simpl in H. unfold ret in H. injection H as <-.
    exists [], (titles s). repeat split; try constructor.
    rewrite Hs. unfold entries_of. simpl. rewrite !app_nil_r.
    now destruct s.
  - unfold record_versions in H. cbn [forM_] in H.
    apply bind_ok in H. destruct H as [[] [st1 [H1 H2]]].
    destruct (record_version_appends _ _ _ _ Hs H1)
      as [Hd [[k new] [ts [Hrec [Hnew Hs1]]]]].
    simpl in Hnew, Hs1.
    destruct (IH _ _ _ Hs1 H2) as [h [ts' [Hh [Hadd Hs']]]].
    exists ((k, new) :: h), ts'. split; [now constructor|].
    destruct Hrec as [_ [Hk _]]. simpl in Hk.
    rewrite !entries_of_cons. split.
    + apply Forall_app. split; [|assumption].
      destruct (String.eqb k "versionadded"); [assumption|constructor].
    + rewrite Hs'. f_equal. unfold store_extend, with_titles.
      destruct Hk as [-> | ->]; simpl; now rewrite <- !app_assoc.
Qed.

Lemma existsb_not_new (ps : list element) :
  Forall not_new_in_414 ps ->
  existsb (has_title "New in CIAO 4.14") ps = false.
Proof.
  induction 1 as [|p ps Hp _ IH]; [reflexivity|].
  cbn [existsb]. unfold not_new_in_414 in Hp. now rewrite Hp, IH.
Qed.

Lemma patch_voigt_ok (ps qs : list element) :
  patch_voigt ps = (qs, true) ->
  qs = map (set_text (Some voigt_text)) ps.
Proof.
  revert qs. induction ps as [|p ps IH]; intros qs H; simpl in H.
  - now injection H as <-.
  - destruct (text_of p); [discriminate|].
    destruct (patch_voigt ps) as [qs' ok]. injection H as <- ->.
    simpl. f_equal. now apply IH.
Qed.

(** The flush of a store whose added entries do not trigger the 4.14
    test. *)
Lemma consolidate_versions_run (name : string) (st : state) (s : store) :
  store_versions st = Some s -> done s = false ->
  Forall not_new_in_414 (versionadded s) ->
  (PyStr.mem name ["pseudovoigt1d"; "voigt1d"] = false ->
   consolidate_versions name st
   = (Ok (version_section (versionchanged s ++ versionadded s)),
      mkState (references st)
              (Some (mkStore (versionadded s) (versionchanged s) (titles s)
                             true))
              (log st)))
  /\ (forall r st2,
        PyStr.mem name ["pseudovoigt1d"; "voigt1d"] = true ->
        consolidate_versions name st = (Ok r, st2) ->
        r = version_section
              (versionchanged s
               ++ map (set_text (Some voigt_text)) (versionadded s))).
Proof.
  intros Hs Hd Hnew. apply existsb_not_new in Hnew.
  unfold consolidate_versions.
  rewrite (bind_run _ _ _ _ _ (get_store_run _ _ Hs)).
  rewrite Hd, Hnew, andb_false_r. cbn [negb assert].
  unfold bind at 1. unfold ret at 1. unfold bind at 1. unfold ret at 1.
  split.
  - intros Hv. rewrite Hv. unfold bind at 1. unfold ret at 1.
    rewrite (bind_run _ _ _ _ _ (get_store_run _ _ Hs)).
    unfold bind, put_store, ret, version_section.
    destruct (versionchanged s ++ versionadded s); reflexivity.
  - intros r st2 Hv. rewrite Hv.
    destruct (patch_voigt (versionadded s)) as [ps ok] eqn:Hp.
    destruct ok.
    + apply patch_voigt_ok in Hp. subst ps.
      unfold bind, put_store, assert, ret, get_store. simpl.
      unfold version_section.
      destruct (versionchanged s ++ _); intros H; now injection H as <- _.
    + unfold bind, put_store, assert, raise. simpl. discriminate.
Qed.

(** ** C5: the order of the flushed version entries *)

Lemma appended_extend (key : string) (new : list element) (ts : list string)
    (s : store) :
  key = "versionadded" \/ key = "versionchanged" ->
  appended key new s (store_extend key new (with_titles ts s)).
Proof.
  intros [-> | ->]; [left|right]; repeat split.
Qed.

Lemma appended_unique (key key' : string) (new new' : list element)
    (s s1 : store) :
  new <> [] -> new' <> [] ->
  appended key new s s1 -> appended key' new' s s1 ->
  (key, new) = (key', new').
Proof.
  intros Hn Hn' [[-> [Ha Hc]] | [-> [Hc Ha]]] [[-> [Ha' Hc']] | [-> [Hc' Ha']]].
  - rewrite Ha in Ha'. apply app_inv_head in Ha'. now subst.
  - exfalso. rewrite Ha in Ha'.
    rewrite <- (app_nil_r (versionadded s)) in Ha' at 2.
    apply app_inv_head in Ha'. contradiction.
  - exfalso. rewrite Ha in Ha'.
    rewrite <- (app_nil_r (versionadded s)) in Ha' at 1.
    apply app_inv_head in Ha'. now subst.
  - rewrite Hc in Hc'. apply app_inv_head in Hc'. now subst.
Qed.

Lemma recording_unique (blocks : list node) :
  forall st h h',
  recording st blocks h -> recording st blocks h' -> h' = h.
Proof.
  induction blocks as [|b blocks IH]; intros st h h' H H'.
  - inversion H; subst. inversion H'; subst. reflexivity.
  - inversion H as [|? ? ? st1 s s1 key new h0 Hr Hs Hs1 Hn Ha Hrest];
      subst.
    inversion H' as [|? ? ? st1' s' s1' key' new' h0' Hr' Hs' Hs1' Hn' Ha'
                      Hrest']; subst.
    rewrite Hr in Hr'. injection Hr' as <-.
    rewrite Hs in Hs'. injection Hs' as <-.
    rewrite Hs1 in Hs1'. injection Hs1' as <-.
    rewrite (appended_unique _ _ _ _ _ _ Hn' Hn Ha' Ha).
    f_equal. eapply IH; eassumption.
Qed.

Lemma record_versions_recording (blocks : list node) :
  forall st st' s,
  store_versions st = Some s ->
  record_versions blocks st = (Ok tt, st') ->
  exists (h : history) ts,
    recording st blocks h
    /\ Forall2 recorded_as blocks h
    /\ Forall not_new_in_414 (entries_of "versionadded" h)
    /\ store_versions st'
       = Some (mkStore (versionadded s ++ entries_of "versionadded" h)
                       (versionchanged s ++ entries_of "versionchanged" h)
                       ts (done s)).
Proof.
  induction blocks as [|b blocks IH]; intros st st' s Hs H.
  - simpl in H. unfold ret in H. injection H as <-.
    exists [], (titles s). split; [constructor|].
    repeat split; try constructor.
    rewrite Hs. unfold entries_of. simpl. rewrite !app_nil_r.
    now destruct s.
  - unfold record_versions in H. cbn [forM_] in H.
    apply bind_ok in H. destruct H as [[] [st1 [H1 H2]]].
    destruct (record_version_appends _ _ _ _ Hs H1)
      as [Hd [[k new] [ts [Hrec [Hnew Hs1]]]]].
    simpl in Hnew, Hs1.
    destruct (IH _ _ _ Hs1 H2) as [h [ts' [Hrun [Hh [Hadd Hs']]]]].
    exists ((k, new) :: h), ts'.
    destruct Hrec as [Hne [Hk Htag]]. simpl in Hne, Hk, Htag.
    split.
    { econstructor; try eassumption. now apply appended_extend. }
    split; [constructor; [repeat split; assumption|assumption]|].
    rewrite !entries_of_cons. split.
    + apply Forall_app. split; [|assumption].
      destruct (String.eqb k "versionadded"); [assumption|constructor].
    + rewrite Hs'. f_equal. unfold store_extend, with_titles.
      destruct Hk as [-> | ->]; simpl; now rewrite <- !app_assoc.
Qed.

(** C5. Let [blocks] be recorded in order into a freshly reset store.
    The run has exactly one history [h]: for each block, in recording
    order, the list its run added to and the entries that run appended
    at the end of that list. The flush then emits the entries recorded
    as Changed, in recording order, followed by the entries recorded as
    Added, in recording order. This is the whole output for every symbol
    but the two Voigt models, where the added entries also receive a
    fixed text. Recording Changed then Added flushes as
    [Changed; Added]. *)
Theorem changed_entries_flush_first
    (name : string) (blocks : list node) (st st' : state) :
  store_versions st = Some empty_store ->
  record_versions blocks st = (Ok tt, st') ->
  (exists h : history,
     recording st blocks h
     /\ (forall h', recording st blocks h' -> h' = h)
     /\ Forall2 recorded_as blocks h
     /\ (PyStr.mem name ["pseudovoigt1d"; "voigt1d"] = false ->
         fst (consolidate_versions name st')
         = Ok (version_section (entries_of "versionchanged" h
                                ++ entries_of "versionadded" h)))
     /\ (forall r st2,
           PyStr.mem name ["pseudovoigt1d"; "voigt1d"] = true ->
           consolidate_versions name st' = (Ok r, st2) ->
           r = version_section
                 (entries_of "versionchanged" h
                  ++ map (set_text (Some voigt_text))
                         (entries_of "versionadded" h))))
  /\ (PyStr.mem name ["pseudovoigt1d"; "voigt1d"] = false ->
      fst ((reset_stored_versions ;;;
            record_versions [version_block "versionchanged" "4.16.0 Fixed.";
                             version_block "versionadded" "4.12.0 New."] ;;;
            consolidate_versions name) st)
      = Ok (version_section
              [titled_para "Changed in CIAO 4.16" "Fixed.";
               titled_para "Added in CIAO 4.12" "New."])).
Proof.
  intros Hs H.
  destruct (record_versions_recording blocks _ _ _ Hs H)
    as [h [ts [Hrec [Hh [Hnew Hs']]]]].
  simpl in Hs'.
  destruct (consolidate_versions_run name st' _ Hs' eq_refl Hnew)
    as [Hrun Hvoigt].
  split.
  - exists h. split; [assumption|]. split.
    { intros h' Hh'. eapply recording_unique; eassumption. }
    split; [assumption|]. split.
    + intros Hv. now rewrite (Hrun Hv).
    + exact Hvoigt.
  - intros Hv.
    unfold bind at 1. unfold reset_stored_versions at 1.
    unfold bind at 1.
    match goal with
    | |- context [record_versions ?bs ?s0] =>
        destruct (record_versions bs s0) as [r1 st1] eqn:Hr
    end.
    vm_compute in Hr. injection Hr as <- <-.
    match goal with
    | |- context [consolidate_versions name ?s0] =>
        destruct (consolidate_versions_run name s0 _ eq_refl eq_refl)
          as [Hrun2 _]
    end.
    { repeat constructor. }
    now rewrite (Hrun2 Hv).
Qed.

Lemma changed_entries_flush_first_witness :
  exists h : history,
    h = [("versionchanged",
          [titled_para "Changed in CIAO 4.14" "Changed it."]);
         ("versionadded",
          [titled_para "Added in CIAO 4.14" "Added it."]);
         ("versionchanged",
          [titled_para "Changed in CIAO 4.12" "Older change."])]
    /\ recording reset_state blocks_example h
    /\ fst (consolidate_versions
              "fit" (snd (record_versions blocks_example reset_state)))
       = Ok (version_section
               [titled_para "Changed in CIAO 4.14" "Changed it.";
                titled_para "Changed in CIAO 4.12" "Older change.";
                titled_para "Added in CIAO 4.14" "Added it."]).
Proof.
  destruct (changed_entries_flush_first
              "fit" blocks_example reset_state
              (snd (record_versions blocks_example reset_state))
              eq_refl eq_refl)
    as [[h [Hrec [Huniq [_ [Hflush _]]]]] _].
  exists h.
  assert (Hh : [("versionchanged",
                 [titled_para "Changed in CIAO 4.14" "Changed it."]);
                ("versionadded",
                 [titled_para "Added in CIAO 4.14" "Added it."]);
                ("versionchanged",
                 [titled_para "Changed in CIAO 4.12" "Older change."])]
               = h).
  { apply Huniq. unfold blocks_example.
    eapply recording_cons;
      [vm_compute; reflexivity | reflexivity | reflexivity | discriminate
      | right; repeat split; reflexivity | ].
    eapply recording_cons;
      [vm_compute; reflexivity | reflexivity | reflexivity | discriminate
      | left; repeat split; reflexivity | ].
    eapply recording_cons;
      [vm_compute; reflexivity | reflexivity | reflexivity | discriminate
      | right; repeat split; reflexivity | ].
    apply recording_nil. }
  split; [now symmetry|]. split; [exact Hrec|].
  rewrite (Hflush eq_refl). rewrite <- Hh. reflexivity.
Defined.

(** ** C4: a change and an addition for the same release *)

(** No recorded entry carries the title that the 4.14 test looks for
    among the added entries, so the test never succeeds: the flush of a
    recorded store neither raises the "problem" error nor drops the
    Changed entries. *)
Lemma added_entries_never_new_in_414
    (name : string) (blocks : list node) (st st' : state) (s : store) :
  store_versions st = Some empty_store ->
  record_versions blocks st = (Ok tt, st') ->
  store_versions st' = Some s ->
  existsb (has_title "Changed in CIAO 4.14") (versionchanged s)
  && existsb (has_title "New in CIAO 4.14") (versionadded s) = false.
Proof.
  intros Hs H Hs'.
  destruct (record_versions_history blocks _ _ _ Hs H)
    as [h [ts [_ [Hnew Hst]]]].
  rewrite Hst in Hs'. injection Hs' as <-. simpl.
  rewrite (existsb_not_new _ Hnew). apply andb_false_r.
Qed.

(** C4, at the failing input. A symbol outside the allow-list whose
    document records both a change and an addition for CIAO 4.14 is
    converted without error and both entries are emitted; for the
    allow-listed [xsagnslim] the Changed entry is emitted as well. *)
Theorem changed_and_added_414_both_emitted :
  (exists root,
     fst (convert_plain "fit" doc_414 initial_state) = Ok (Converted root)
     /\ version_history root
        = version_section [titled_para "Changed in CIAO 4.14" "Changed it.";
                           titled_para "Added in CIAO 4.14" "Added it."])
  /\ (exists root,
        fst (convert_plain "xsagnslim" doc_414 initial_state)
        = Ok (Converted root)
        /\ version_history root
           = version_section
               [titled_para "Changed in CIAO 4.14" "Changed it.";
                titled_para "Added in CIAO 4.14" "Added it."]).
Proof.
  split; eexists; (split; [vm_compute; reflexivity|reflexivity]).
Qed.

(** ** C2: state kept between conversions *)

(** C2, at the failing input. [convert_docutils] resets the version
    store but not the registry. Converted on its own, a document whose
    only inline link is a Target named "foo" fails with the
    un-referenced target error; converted after a document that rendered
    a Reference named "Foo", the same document converts, because the
    name recorded for the first document is still in the registry. *)
Theorem references_leak_between_documents :
  fst (convert_plain "second" doc_target_only initial_state)
  = Raise (ValueError "Found un-referenced target block")
  /\ references (snd (convert_plain "first" doc_with_reference initial_state))
     = ["foo"]
  /\ (exists root,
        fst (convert_plain "second" doc_target_only
               (snd (convert_plain "first" doc_with_reference initial_state)))
        = Ok (Converted root))
  /\ (forall st,
        store_versions (snd (reset_stored_versions st)) = Some empty_store
        /\ references (snd (reset_stored_versions st)) = references st).
Proof.
  split; [reflexivity|]. split; [reflexivity|]. split.
  - eexists. vm_compute. reflexivity.
  - intros st. split; reflexivity.
Qed.

(** ** C3: targets and references *)









(** * Further properties of the code *)

(** ** splitWhile *)

Lemma splitWhile_parts {A : Type} (pred : A -> bool) (xs : list A) :
  fst (splitWhile pred xs) ++ snd (splitWhile pred xs) = xs
  /\ forallb pred (fst (splitWhile pred xs)) = true
  /\ match snd (splitWhile pred xs) with
     | [] => True
     | r :: _ => pred r = false
     end.
Proof.
  induction xs as [|x xs IH]; simpl; [auto|].
  destruct (pred x) eqn:E; simpl; [|auto].
  destruct (splitWhile pred xs) as [ls rs]. simpl in *.
  destruct IH as [H1 [H2 H3]]. rewrite H1, E, H2. auto.
Qed.

(** [splitWhile pred xs] cuts [xs] in two without losing, adding or
    reordering anything: the first part is the longest prefix whose
    elements all satisfy [pred], and the second part is empty or starts
    with an element that fails [pred]. *)
Theorem splitWhile_longest_prefix {A : Type} (pred : A -> bool)
    (xs : list A) :
  fst (splitWhile pred xs) ++ snd (splitWhile pred xs) = xs
  /\ forallb pred (fst (splitWhile pred xs)) = true
  /\ match snd (splitWhile pred xs) with
     | [] => True
     | r :: _ => pred r = false
     end.
Proof. apply splitWhile_parts. Qed.

Lemma splitWhile_suffix {A : Type} (pred : A -> bool) (xs : list A) :
  is_suffix (snd (splitWhile pred xs)) xs.
Proof.
  exists (fst (splitWhile pred xs)). symmetry.
  apply (splitWhile_parts pred xs).
Qed.

(** ** The extractors take a prefix of the document *)

Ltac bind_step H :=
  apply bind_ok in H;
  let a := fresh "a" in
  let st := fresh "st" in
  let Hc := fresh "Hc" in
  destruct H as [a [st [Hc H]]].

Lemma ret_ok {A} (a b : A) (st st' : state) :
  ret a st = (Ok b, st') -> b = a /\ st' = st.
Proof. unfold ret. intros H. injection H as <- <-. auto. Qed.

Lemma is_suffix_refl {A} (xs : list A) : is_suffix xs xs.
Proof. now exists []. Qed.

Lemma is_suffix_tl {A} (x : A) (xs : list A) : is_suffix xs (x :: xs).
Proof. now exists [x]. Qed.

Lemma is_suffix_trans {A} (xs ys zs : list A) :
  is_suffix xs ys -> is_suffix ys zs -> is_suffix xs zs.
Proof.
  intros [p ->] [q ->]. exists (q ++ p). now rewrite app_assoc.
Qed.

Lemma is_suffix_cons {A} (x : A) (xs ys : list A) :
  is_suffix xs ys -> is_suffix xs (x :: ys).
Proof. intros H. eapply is_suffix_trans; [exact H|apply is_suffix_tl]. Qed.

Section ExtractorSuffix.

Variable cleanup_sig : string -> string.
Variable convert_example_text : string -> string.

Lemma find_syntax_rest name sig indoc st e rest st' :
  find_syntax cleanup_sig name sig indoc st = (Ok (e, rest), st') ->
  rest = indoc.
Proof.
  unfold find_syntax. intros H. bind_step H. bind_step H.
  destruct (negb (is_para a0)).
  - apply ret_ok in H. destruct H as [H _]. now injection H.
  - destruct (negb _); [|discriminate].
    apply ret_ok in H. destruct H as [H _]. now injection H.
Qed.

Lemma find_synopsis_rest indoc st e k rest st' :
  find_synopsis indoc st = (Ok (e, k, rest), st') -> is_suffix rest indoc.
Proof.
  unfold find_synopsis. intros H. bind_step H.
  destruct (negb _); apply ret_ok in H; destruct H as [H _];
    injection H as _ _ ->.
  - apply is_suffix_refl.
  - destruct indoc; [apply is_suffix_refl|apply is_suffix_tl].
Qed.

Lemma find_desc_rest indoc syn st e rest st' :
  find_desc indoc syn st = (Ok (e, rest), st') -> is_suffix rest indoc.
Proof.
  unfold find_desc. intros H.
  pose proof (splitWhile_suffix want_in_desc indoc) as Hs.
  destruct (splitWhile want_in_desc indoc) as [pnodes rnodes].
  simpl in Hs.
  destruct pnodes as [|p ps]; destruct syn as [syns|].
  - bind_step H. bind_step H. bind_step H.
    apply ret_ok in H. destruct H as [H _]. injection H as _ ->. exact Hs.
  - apply ret_ok in H. destruct H as [H _]. injection H as _ ->.
    apply is_suffix_refl.
  - bind_step H. bind_step H. bind_step H.
    apply ret_ok in H. destruct H as [H _]. injection H as _ ->. exact Hs.
  - bind_step H. bind_step H. bind_step H.
    apply ret_ok in H. destruct H as [H _]. injection H as _ ->. exact Hs.
Qed.

Lemma find_fieldlist_rest indoc st e rest st' :
  find_fieldlist indoc st = (Ok (e, rest), st') -> is_suffix rest indoc.
Proof.
  unfold find_fieldlist. intros H. destruct indoc as [|n ns].
  - apply ret_ok in H. destruct H as [H _]. injection H as _ ->.
    apply is_suffix_refl.
  - destruct (negb _).
    + apply ret_ok in H. destruct H as [H _]. injection H as _ ->.
      apply is_suffix_refl.
    + bind_step H. destruct a as [[params returns] raises].
      apply ret_ok in H. destruct H as [H _]. injection H as _ ->.
      apply is_suffix_tl.
Qed.

Lemma find_warning_rest indoc st e rest st' :
  find_warning indoc st = (Ok (e, rest), st') -> is_suffix rest indoc.
Proof.
  unfold find_warning. intros H. destruct indoc as [|n ns].
  - apply ret_ok in H. destruct H as [H _]. injection H as _ ->.
    apply is_suffix_refl.
  - destruct (negb _).
    + apply ret_ok in H. destruct H as [H _]. injection H as _ ->.
      apply is_suffix_refl.
    + bind_step H. bind_step H. bind_step H.
      apply ret_ok in H. destruct H as [H _]. injection H as _ ->.
      apply is_suffix_tl.
Qed.

Lemma find_seealso_rest indoc st e rest st' :
  find_seealso indoc st = (Ok (e, rest), st') -> is_suffix rest indoc.
Proof.
  unfold find_seealso. intros H. destruct indoc as [|n ns].
  - apply ret_ok in H. destruct H as [H _]. injection H as _ ->.
    apply is_suffix_refl.
  - destruct (negb _).
    + apply ret_ok in H. destruct H as [H _]. injection H as _ ->.
      apply is_suffix_refl.
    + bind_step H. bind_step H. bind_step H.
      apply ret_ok in H. destruct H as [H _]. injection H as _ ->.
      apply is_suffix_tl.
Qed.

Lemma find_notes_rest name indoc st e rest st' :
  find_notes name indoc st = (Ok (e, rest), st') -> is_suffix rest indoc.
Proof.
  unfold find_notes. intros H. destruct indoc as [|n ns].
  - apply ret_ok in H. destruct H as [H _]. injection H as _ ->.
    apply is_suffix_refl.
  - destruct (negb _).
    + apply ret_ok in H. destruct H as [H _]. injection H as _ ->.
      apply is_suffix_refl.
    + destruct (negb _).
      * apply ret_ok in H. destruct H as [H _]. injection H as _ ->.
        apply is_suffix_refl.
      * pose proof (splitWhile_suffix not_rubric ns) as Hs.
        destruct (splitWhile not_rubric ns) as [l r]. simpl in Hs.
        destruct (filter _ l).
        -- apply ret_ok in H. destruct H as [H _]. injection H as _ ->.
           now apply is_suffix_cons.
        -- destruct (0 <? _)%nat; [discriminate|].
           bind_step H. bind_step H.
           apply ret_ok in H. destruct H as [H _]. injection H as _ ->.
           now apply is_suffix_cons.
Qed.

Lemma find_references_rest indoc st e rest st' :
  find_references indoc st = (Ok (e, rest), st') -> is_suffix rest indoc.
Proof.
  unfold find_references. intros H. destruct indoc as [|n ns].
  - apply ret_ok in H. destruct H as [H _]. injection H as _ ->.
    apply is_suffix_refl.
  - destruct (negb _).
    + apply ret_ok in H. destruct H as [H _]. injection H as _ ->.
      apply is_suffix_refl.
    + destruct (negb _).
      * apply ret_ok in H. destruct H as [H _]. injection H as _ ->.
        apply is_suffix_refl.
      * pose proof (splitWhile_suffix not_rubric ns) as Hs.
        destruct (splitWhile not_rubric ns) as [l r]. simpl in Hs.
        bind_step H.
        apply ret_ok in H. destruct H as [H _]. injection H as _ ->.
        now apply is_suffix_cons.
Qed.

Lemma find_examples_rest indoc st e rest st' :
  find_examples convert_example_text indoc st = (Ok (e, rest), st') ->
  is_suffix rest indoc.
Proof.
  unfold find_examples. intros H. destruct indoc as [|n ns].
  - apply ret_ok in H. destruct H as [H _]. injection H as _ ->.
    apply is_suffix_refl.
  - destruct (negb _).
    + apply ret_ok in H. destruct H as [H _]. injection H as _ ->.
      apply is_suffix_refl.
    + destruct (negb _).
      * apply ret_ok in H. destruct H as [H _]. injection H as _ ->.
        apply is_suffix_refl.
      * pose proof (splitWhile_suffix not_rubric ns) as Hs.
        destruct (splitWhile not_rubric ns) as [l r]. simpl in Hs.
        bind_step H. bind_step H. destruct a0 as [exs o].
        apply ret_ok in H. destruct H as [H _]. injection H as _ ->.
        now apply is_suffix_cons.
Qed.

End ExtractorSuffix.

Lemma segment_rest
    (cleanup_sig convert_example_text : string -> string)
    (name : string) (doc : list node) (sig : option string)
    (sym : option symbol) (synonyms : option (list string))
    (st st' : state) (sec : sections) :
  segment cleanup_sig convert_example_text name doc sig sym synonyms st
  = (Ok sec, st') ->
  is_suffix (s_nodes sec) doc.
Proof.
  unfold segment. intros H.
  bind_step H. clear Hc. bind_step H. destruct a0 as [syntax n1].
  apply find_syntax_rest in Hc. subst n1.
  bind_step H. destruct a0 as [[synopsis refkeywords] n2].
  apply find_synopsis_rest in Hc. rename Hc into S2.
  bind_step H. destruct a0 as [desc n3].
  apply find_desc_rest in Hc. rename Hc into S3.
  bind_step H. clear Hc.
  bind_step H. destruct a1 as [fieldlist1 n4].
  apply find_fieldlist_rest in Hc. rename Hc into S4.
  bind_step H. destruct a1 as [warnings n5].
  apply find_warning_rest in Hc. rename Hc into S5.
  bind_step H. destruct a1 as [seealso n6].
  apply find_seealso_rest in Hc. rename Hc into S6.
  bind_step H. destruct a1 as [fieldlist2 n7].
  apply find_fieldlist_rest in Hc. rename Hc into S7.
  bind_step H. clear Hc. bind_step H. clear Hc.
  bind_step H. destruct a3 as [seealso' n8].
  assert (S8 : is_suffix n8 n7).
  { destruct seealso.
    - apply ret_ok in Hc. destruct Hc as [Hc _]. injection Hc as _ ->.
      apply is_suffix_refl.
    - bind_step Hc. destruct a3 as [sa n8']. bind_step Hc.
      apply ret_ok in Hc. destruct Hc as [Hc _]. injection Hc as _ ->.
      now apply find_seealso_rest in Hc0. }
  clear Hc.
  bind_step H. destruct a3 as [notes n9].
  apply find_notes_rest in Hc. rename Hc into S9.
  bind_step H. destruct a3 as [notes2 n10].
  apply find_notes_rest in Hc. rename Hc into S10.
  bind_step H. clear Hc.
  bind_step H. destruct a4 as [refs n11].
  apply find_references_rest in Hc. rename Hc into S11.
  bind_step H. destruct a4 as [examples n12].
  apply find_examples_rest in Hc. rename Hc into S12.
  bind_step H. destruct a4 as [refs' n13].
  assert (S13 : is_suffix n13 n12).
  { destruct refs.
    - apply ret_ok in Hc. destruct Hc as [Hc _]. injection Hc as _ ->.
      apply is_suffix_refl.
    - bind_step Hc. destruct a4 as [rf n13']. bind_step Hc.
      apply ret_ok in Hc. destruct Hc as [Hc _]. injection Hc as _ ->.
      now apply find_references_rest in Hc0. }
  apply ret_ok in H. destruct H as [-> _]. simpl.
  repeat (eapply is_suffix_trans; [eassumption|]).
  apply is_suffix_refl.
Qed.

(** The nodes that [convert_docutils] returns in place of a document are
    never empty and are a suffix of the document it was given: the
    extractors only take nodes from the front, in order, and neither
    reorder the rest nor add to it. *)
Theorem trailing_nodes_are_a_suffix
    (cleanup_sig convert_example_text : string -> string)
    (name : string) (doc : list node) (sig : option string)
    (sym : option symbol) (metadata : option dict)
    (synonyms : option (list string)) (dtd : string)
    (st st' : state) (ns : list node) :
  convert_docutils cleanup_sig convert_example_text name doc sig sym
                   metadata synonyms dtd st
  = (Ok (Trailing ns), st') ->
  ns <> [] /\ is_suffix ns doc.
Proof.
  unfold convert_docutils. intros H.
  bind_step H. clear Hc. bind_step H. clear Hc. bind_step H.
  apply segment_rest in Hc.
  destruct (s_nodes a1) as [|n rest] eqn:E.
  - bind_step H. apply ret_ok in H. destruct H as [H _]. discriminate.
  - bind_step H. apply ret_ok in H. destruct H as [H _].
    injection H as ->. split; [discriminate|exact Hc].
Qed.

Lemma trailing_nodes_are_a_suffix_witness :
  [rubric "Caveats"; paragraph "Take care."] <> []
  /\ is_suffix [rubric "Caveats"; paragraph "Take care."] doc_trailing.
Proof.
  apply (trailing_nodes_are_a_suffix
           no_cleanup no_cleanup "fit" doc_trailing None None None None
           "ahelp" initial_state
           (mkState [] (Some empty_store)
                    [Diag "WARN" "ignoring trailing:"
                          [rubric "Caveats"; paragraph "Take care."]])).
  reflexivity.
Defined.

(** ** What a conversion sees of earlier conversions *)

Lemma segment_ignores_store
    (cleanup_sig convert_example_text : string -> string)
    (name : string) (doc : list node) (sig : option string)
    (sym : option symbol) (synonyms : option (list string))
    (st : state) (s : option store) :
  segment cleanup_sig convert_example_text name doc sig sym synonyms
          (with_store s st)
  = segment cleanup_sig convert_example_text name doc sig sym synonyms st.
Proof.
  unfold segment.
  rewrite (bind_run reset_stored_versions _ (with_store s st)
                    (mkState (references st) (Some empty_store) (log st)) tt
                    eq_refl).
  rewrite (bind_run reset_stored_versions _ st
                    (mkState (references st) (Some empty_store) (log st)) tt
                    eq_refl).
  reflexivity.
Qed.

(** A conversion that gets past its argument checks does not depend on
    the version store it finds: whatever an earlier conversion recorded
    or flushed, the result and the final state are those obtained from
    any other store, because the store is reset before anything reads
    it. *)
Theorem convert_docutils_ignores_old_versions
    (cleanup_sig convert_example_text : string -> string)
    (name : string) (doc : list node) (sig : option string)
    (sym : option symbol) (metadata : option dict)
    (synonyms : option (list string)) (dtd : string)
    (st : state) (s : option store) :
  PyStr.mem dtd ["ahelp"; "sxml"] = true ->
  synonyms <> Some [] ->
  convert_docutils cleanup_sig convert_example_text name doc sig sym
                   metadata synonyms dtd (with_store s st)
  = convert_docutils cleanup_sig convert_example_text name doc sig sym
                     metadata synonyms dtd st.
Proof.
  intros Hdtd Hsyn. unfold convert_docutils. rewrite Hdtd. cbn [negb].
  assert (Hs : match synonyms with
               | Some syns => (0 <? length syns)%nat
               | None => true
               end = true).
  { destruct synonyms as [[|x l]|]; try reflexivity. now elim Hsyn. }
  rewrite Hs.
  rewrite (bind_run (ret tt) _ (with_store s st) (with_store s st) tt eq_refl).
  rewrite (bind_run (ret tt) _ st st tt eq_refl).
  rewrite (bind_run (assert true) _ (with_store s st) (with_store s st) tt
                    eq_refl).
  rewrite (bind_run (assert true) _ st st tt eq_refl).
  unfold bind at 1. unfold bind at 2.
  now rewrite segment_ignores_store.
Qed.

Lemma convert_docutils_ignores_old_versions_witness :
  convert_docutils no_cleanup no_cleanup "fit" doc_414 None None None None
                   "ahelp"
                   (with_store (Some (mkStore [titled_para "Old" "entry"] []
                                              ["Old"] true))
                               initial_state)
  = convert_docutils no_cleanup no_cleanup "fit" doc_414 None None None None
                     "ahelp" initial_state.
Proof.
  apply (convert_docutils_ignores_old_versions
           no_cleanup no_cleanup "fit" doc_414 None None None None "ahelp"
           initial_state
           (Some (mkStore [titled_para "Old" "entry"] [] ["Old"] true))).
  - reflexivity.
  - discriminate.
Defined.

(** ** Arguments that convert_docutils refuses *)

(** An empty document is not converted: once the arguments have been
    accepted and the version store reset, [find_syntax] reads
    [indoc[0]] and the conversion ends with an [IndexError], whatever
    the other arguments are. *)
Theorem empty_document_raises_IndexError
    (cleanup_sig convert_example_text : string -> string)
    (name : string) (sig : option string)
    (sym : option symbol) (metadata : option dict)
    (synonyms : option (list string)) (dtd : string) (st : state) :
  PyStr.mem dtd ["ahelp"; "sxml"] = true ->
  synonyms <> Some [] ->
  convert_docutils cleanup_sig convert_example_text name [] sig sym
                   metadata synonyms dtd st
  = (Raise IndexError,
     mkState (references st) (Some empty_store) (log st)).
Proof.
  intros Hdtd Hsyn. unfold convert_docutils. rewrite Hdtd. cbn [negb].
  assert (Hs : match synonyms with
               | Some syns => (0 <? length syns)%nat
               | None => true
               end = true).
  { destruct synonyms as [[|x l]|]; try reflexivity. now elim Hsyn. }
  rewrite Hs. destruct sig; reflexivity.
Qed.

Lemma empty_document_raises_IndexError_witness :
  convert_docutils no_cleanup no_cleanup "fit" [] (Some "fit(id=None)") None
                   None (Some ["fitting"]) "sxml" initial_state
  = (Raise IndexError,
     mkState (references initial_state) (Some empty_store)
             (log initial_state)).
Proof.
  apply (empty_document_raises_IndexError
           no_cleanup no_cleanup "fit" (Some "fit(id=None)") None None
           (Some ["fitting"]) "sxml" initial_state).
  - reflexivity.
  - discriminate.
Defined.

(** An unknown DTD name or an empty list of synonyms is refused before
    anything happens: the conversion raises and the state, version
    store included, is exactly as it was. *)
Theorem bad_arguments_leave_the_state
    (cleanup_sig convert_example_text : string -> string)
    (name : string) (doc : list node) (sig : option string)
    (sym : option symbol) (metadata : option dict)
    (synonyms : option (list string)) (dtd : string) (st : state) :
  PyStr.mem dtd ["ahelp"; "sxml"] = false \/ synonyms = Some [] ->
  convert_docutils cleanup_sig convert_example_text name doc sig sym
                   metadata synonyms dtd st
  = (Raise (if PyStr.mem dtd ["ahelp"; "sxml"] then AssertionError
            else ValueError "Unrecognized dtd value"), st).
Proof.
  intros H. unfold convert_docutils.
  destruct (PyStr.mem dtd ["ahelp"; "sxml"]) eqn:Hdtd; cbn [negb].
  - destruct H as [H| ->]; [discriminate|]. reflexivity.
  - reflexivity.
Qed.

Lemma bad_arguments_leave_the_state_witness :
  convert_docutils no_cleanup no_cleanup "fit" doc_414 None None None None
                   "html" reset_state
  = (Raise (if PyStr.mem "html" ["ahelp"; "sxml"] then AssertionError
            else ValueError "Unrecognized dtd value"), reset_state).
Proof.
  apply (bad_arguments_leave_the_state
           no_cleanup no_cleanup "fit" doc_414 None None None None "html"
           reset_state).
  left. reflexivity.
Defined.

(** ** The version store after the flush *)

Lemma consolidate_versions_done (name : string) (st st' : state)
    (r : option element) :
  consolidate_versions name st = (Ok r, st') ->
  exists s', store_versions st' = Some s' /\ done s' = true.
Proof.
  unfold consolidate_versions. intros H.
  bind_step H. bind_step H. bind_step H. bind_step H. bind_step H.
  bind_step H. unfold put_store in Hc4. injection Hc4 as _ <-.
  assert (st' = mkState (references st4)
                        (Some (mkStore (versionadded a3) (versionchanged a3)
                                       (titles a3) true)) (log st4)).
  { destruct (a1 ++ a2); apply ret_ok in H; now destruct H. }
  subst st'. eexists. split; reflexivity.
Qed.

(** Once the version entries of a document have been flushed, the store
    is closed: recording a further version block raises the "Unexpected
    block" [ValueError], a second flush fails its assertion on the keys
    of the store, and neither changes the state. *)
Theorem version_store_is_closed_after_flush
    (name : string) (st st' : state) (r : option element) :
  consolidate_versions name st = (Ok r, st') ->
  (forall block,
     record_version block st' = (Raise (ValueError "Unexpected block"), st'))
  /\ (forall name',
        consolidate_versions name' st' = (Raise AssertionError, st')).
Proof.
  intros H. apply consolidate_versions_done in H.
  destruct H as [s' [Hs Hd]]. split.
  - intros block. unfold record_version.
    destruct (String.eqb (tagname block) "comment").
    + unfold convert_comment_versionwarning.
      rewrite (bind_run _ _ _ _ _ (get_store_run _ _ Hs)). now rewrite Hd.
    + unfold convert_versionwarning.
      rewrite (bind_run _ _ _ _ _ (get_store_run _ _ Hs)). now rewrite Hd.
  - intros name'. unfold consolidate_versions.
    rewrite (bind_run _ _ _ _ _ (get_store_run _ _ Hs)). now rewrite Hd.
Qed.

Lemma version_store_is_closed_after_flush_witness :
  (forall block,
     record_version block
       (mkState [] (Some (mkStore [] [] [] true)) [])
     = (Raise (ValueError "Unexpected block"),
        mkState [] (Some (mkStore [] [] [] true)) []))
  /\ (forall name',
        consolidate_versions name'
          (mkState [] (Some (mkStore [] [] [] true)) [])
        = (Raise AssertionError,
           mkState [] (Some (mkStore [] [] [] true)) [])).
Proof.
  apply (version_store_is_closed_after_flush
           "fit" reset_state (mkState [] (Some (mkStore [] [] [] true)) [])
           None).
  reflexivity.
Defined.

(** ** The test on CIAO 4.14 entries *)

(** However version blocks are recorded into a freshly reset store, no
    added entry carries the title that the flush compares the added
    entries with ("New in CIAO 4.14"): the condition guarding the
    collapse of Changed and Added entries is false for every recorded
    store, so the flush never raises "problem" and never empties the
    Changed list. *)
Theorem collapse_test_never_fires
    (blocks : list node) (st st' : state) (s : store) :
  store_versions st = Some empty_store ->
  record_versions blocks st = (Ok tt, st') ->
  store_versions st' = Some s ->
  existsb (has_title "Changed in CIAO 4.14") (versionchanged s)
  && existsb (has_title "New in CIAO 4.14") (versionadded s) = false.
Proof.
  intros Hs H Hs'.
  destruct (record_versions_history blocks _ _ _ Hs H)
    as [h [ts [_ [Hnew Hst]]]].
  rewrite Hst in Hs'. injection Hs' as <-. simpl.
  rewrite (existsb_not_new _ Hnew). apply andb_false_r.
Qed.

Lemma collapse_test_never_fires_witness :
  existsb (has_title "Changed in CIAO 4.14")
          (versionchanged
             (mkStore [titled_para "Added in CIAO 4.14" "Added it."]
                      [titled_para "Changed in CIAO 4.14" "Changed it."]
                      ["Changed in CIAO 4.14"; "Added in CIAO 4.14"] false))
  && existsb (has_title "New in CIAO 4.14")
             (versionadded
                (mkStore [titled_para "Added in CIAO 4.14" "Added it."]
                         [titled_para "Changed in CIAO 4.14" "Changed it."]
                         ["Changed in CIAO 4.14"; "Added in CIAO 4.14"]
                         false))
  = false.
Proof.
  apply (collapse_test_never_fires
           [version_block "versionchanged" "4.14.0 Changed it.";
            version_block "versionadded" "4.14.0 Added it."]
           reset_state
           (mkState [] (Some (mkStore
                                [titled_para "Added in CIAO 4.14" "Added it."]
                                [titled_para "Changed in CIAO 4.14"
                                             "Changed it."]
                                ["Changed in CIAO 4.14"; "Added in CIAO 4.14"]
                                false)) [])).
  - reflexivity.
  - reflexivity.
  - reflexivity.
Defined.

(** ** More on merge_metadata *)

Lemma merge_items_keys (a : dict) :
  forall d d', merge_items d a = Ok d' ->
  map fst d' = map fst d /\ (forall k, In k (map fst a) -> In k (map fst d)).
Proof.
  induction a as [|[k v] a IH]; intros d d' H; cbn [merge_items] in H.
  - injection H as <-. split; [reflexivity|intros k []].
  - destruct (merge_item d (k, v)) as [d1|e] eqn:H1; [|discriminate].
    apply merge_item_ok in H1. destruct H1 as [Hk [w [-> _]]].
    destruct (IH _ _ H) as [Hkeys Hin].
    rewrite dict_set_keys in Hkeys, Hin by assumption.
    split; [assumption|]. intros k' [<-|Hk']; [assumption|now apply Hin].
Qed.

(** A merge never adds, removes or reorders keys: when it succeeds the
    result has the keys of the base, in the same order, and every key of
    the override was among them. A key of the override that the base
    does not have makes the merge fail. *)
Theorem merge_metadata_keeps_the_keys (m a m1 : dict) :
  merge_metadata m (Some a) = Ok m1 ->
  map fst m1 = map fst m
  /\ (forall k, In k (map fst a) -> In k (map fst m))
  /\ (forall m' k, In k (map fst a) -> ~ In k (map fst m') ->
      exists e, merge_metadata m' (Some a) = Raise e).
Proof.
  intros H. unfold merge_metadata in *.
  destruct (merge_items_keys a m m1 H) as [H1 H2].
  split; [assumption|]. split; [assumption|].
  intros m' k Hk Hnot.
  destruct (merge_items m' a) as [m2|e] eqn:E; [|now exists e].
  exfalso. apply Hnot. now apply (merge_items_keys a m' m2 E).
Qed.

Lemma merge_metadata_keeps_the_keys_witness :
  map fst [("pkg", Some "sherpa"); ("key", Some "fit");
           ("refkeywords", Some "a data fit z"); ("seealsogroups", Some "");
           ("displayseealsogroups", Some ""); ("context", Some "fitting")]
  = map fst (base_xmlattrs "fit" "fit data a" "" "")
  /\ (forall k, In k (map fst [("refkeywords", Some "z a");
                               ("context", Some "fitting")]) ->
                In k (map fst (base_xmlattrs "fit" "fit data a" "" "")))
  /\ (forall m' k,
        In k (map fst [("refkeywords", Some "z a");
                       ("context", Some "fitting")]) ->
        ~ In k (map fst m') ->
        exists e,
          merge_metadata m' (Some [("refkeywords", Some "z a");
                                   ("context", Some "fitting")]) = Raise e).
Proof.
  apply (merge_metadata_keeps_the_keys
           (base_xmlattrs "fit" "fit data a" "" "")
           [("refkeywords", Some "z a"); ("context", Some "fitting")]).
  reflexivity.
Defined.

Lemma merge_items_single (a : dict) :
  NoDup (map fst a) ->
  forall d d' k v,
  merge_items d a = Ok d' ->
  In (k, v) a -> ~ In k multi_value_keys ->
  dict_get k d' = Some v.
Proof.
  induction a as [|[k0 v0] a IH]; intros Hnd d d' k v H Hin Hk;
    [destruct Hin|].
  cbn [merge_items map fst] in *. inversion Hnd as [|? ? Hnot Hnd']; subst.
  destruct (merge_item d (k0, v0)) as [d1|e] eqn:H1; [|discriminate].
  destruct Hin as [E|Hin].
  - injection E as -> ->.
    rewrite (merge_items_frame _ _ _ _ H Hnot).
    apply merge_item_ok in H1. destruct H1 as [_ [w [-> Hw]]].
    rewrite dict_get_set_same.
    destruct Hw as [[Hk' _]|[_ ->]]; [contradiction|reflexivity].
  - eapply IH; eassumption.
Qed.

(** For a key outside the three multi-value keys the override wins
    outright, and a key the override does not mention keeps the value
    the base had. *)
Theorem merge_metadata_overrides_single_values (m a m1 : dict) :
  NoDup (map fst a) ->
  merge_metadata m (Some a) = Ok m1 ->
  (forall k v, In (k, v) a -> ~ In k multi_value_keys ->
               dict_get k m1 = Some v)
  /\ (forall k, ~ In k (map fst a) -> dict_get k m1 = dict_get k m).
Proof.
  intros Hnd H. unfold merge_metadata in H. split.
  - intros k v Hin Hk. eapply merge_items_single; eassumption.
  - intros k Hk. eapply merge_items_frame; eassumption.
Qed.

Lemma merge_metadata_overrides_single_values_witness :
  (forall k v,
     In (k, v) [("refkeywords", Some "z a"); ("context", Some "fitting")] ->
     ~ In k multi_value_keys ->
     dict_get k [("pkg", Some "sherpa"); ("key", Some "fit");
                 ("refkeywords", Some "a data fit z");
                 ("seealsogroups", Some "");
                 ("displayseealsogroups", Some "");
                 ("context", Some "fitting")] = Some v)
  /\ (forall k,
        ~ In k (map fst [("refkeywords", Some "z a");
                         ("context", Some "fitting")]) ->
        dict_get k [("pkg", Some "sherpa"); ("key", Some "fit");
                    ("refkeywords", Some "a data fit z");
                    ("seealsogroups", Some "");
                    ("displayseealsogroups", Some "");
                    ("context", Some "fitting")]
        = dict_get k (base_xmlattrs "fit" "fit data a" "" "")).
Proof.
  apply (merge_metadata_overrides_single_values
           (base_xmlattrs "fit" "fit data a" "" "")
           [("refkeywords", Some "z a"); ("context", Some "fitting")]).
  - repeat constructor; simpl; intuition discriminate.
  - reflexivity.
Defined.

(** ** See-also names and tags *)

Lemma split_char_tokens (c : ascii) (s : string) :
  PyStr.split_char c s <> []
  /\ Forall (fun t => PyStr.find_char c t = None) (PyStr.split_char c s).
Proof.
  induction s as [|a s [Hne IH]]; simpl.
  - split; [discriminate|]. now repeat constructor.
  - destruct (Ascii.eqb a c) eqn:E.
    + split; [discriminate|]. constructor; [reflexivity|assumption].
    + destruct (PyStr.split_char c s) as [|t ts]; [now elim Hne|].
      split; [discriminate|]. inversion IH as [|? ? Ht Hts]; subst.
      constructor; [|assumption]. simpl. now rewrite E, Ht.
Qed.

Lemma last_split_char_no_sep (c : ascii) (s d : string) :
  PyStr.find_char c (last (PyStr.split_char c s) d) = None.
Proof.
  destruct (split_char_tokens c s) as [Hne Hall].
  rewrite Forall_forall in Hall. apply Hall.
  destruct (PyStr.split_char c s) as [|t ts]; [now elim Hne|].
  clear. revert t. induction ts as [|u ts IH]; intros t; [now left|].
  right. apply IH.
Qed.

Lemma seealso_clean_names (names : list string) :
  forall out st res st',
  seealso_clean names out st = (Ok res, st') ->
  NoDup out -> Forall (fun n => PyStr.find_char "." n = None) out ->
  NoDup res /\ Forall (fun n => PyStr.find_char "." n = None) res.
Proof.
  induction names as [|n names IH]; intros out st res st' H Hnd Hdot.
  - apply ret_ok in H. destruct H as [-> _]. auto.
  - cbn [seealso_clean] in H. bind_step H.
    assert (Ha : PyStr.find_char "." a = None).
    { destruct (PyStr.startswith "sherpa." n).
      - apply ret_ok in Hc. destruct Hc as [-> _].
        apply last_split_char_no_sep.
      - destruct (PyStr.find_char "." n) eqn:E; [discriminate|].
        apply ret_ok in Hc. now destruct Hc as [-> _]. }
    apply (IH _ _ _ _ H).
    + destruct (PyStr.mem a out) eqn:Em; [assumption|].
      apply NoDup_app; [assumption|repeat constructor; intros []|].
      intros x Hx [<-|[]]. apply mem_In in Hx. rewrite Hx in Em.
      discriminate.
    + destruct (PyStr.mem a out); [assumption|].
      apply Forall_app. split; [assumption|now constructor].
Qed.

(** The names that [find_seealso] returns hold no name twice and no
    name with a dot: a [sherpa.] module path is cut down to its last
    component, and any other dotted name stops the program. *)
Theorem seealso_names_are_distinct_and_undotted
    (indoc rest : list node) (names : list string) (st st' : state) :
  find_seealso indoc st = (Ok (Some names, rest), st') ->
  NoDup names /\ Forall (fun n => PyStr.find_char "." n = None) names.
Proof.
  unfold find_seealso. intros H. destruct indoc as [|n ns].
  - apply ret_ok in H. destruct H as [H _]. discriminate.
  - destruct (negb _).
    + apply ret_ok in H. destruct H as [H _]. discriminate.
    + bind_step H. bind_step H. bind_step H.
      apply ret_ok in H. destruct H as [H _]. injection H as -> _.
      eapply seealso_clean_names; [eassumption|constructor|constructor].
Qed.

Lemma seealso_names_are_distinct_and_undotted_witness :
  NoDup ["fit"; "calc_stat"]
  /\ Forall (fun n => PyStr.find_char "." n = None) ["fit"; "calc_stat"].
Proof.
  apply (seealso_names_are_distinct_and_undotted
           [seealso_example; rubric "Notes"] [rubric "Notes"]
           ["fit"; "calc_stat"] initial_state
           (mkState [] None
                    [Diag "DBG" "- see also contains duplicates" []])).
  reflexivity.
Defined.

(** The see-also tag that links two symbols does not depend on which of
    the two is being documented: the tag made for [a] from a See Also
    naming [b] is the tag made for [b] from a See Also naming [a], the
    two lower-cased names joined with the smaller one first. *)
Theorem seealso_tag_is_symmetric
    (a b : string) (sym : option symbol) (st : state) :
  fst (create_seealso a (Some [b]) sym st)
  = fst (create_seealso b (Some [a]) sym st)
  /\ exists dsg,
       fst (create_seealso a (Some [b]) sym st)
       = Ok (match String.compare (PyStr.lower a) (PyStr.lower b) with
             | Lt => PyStr.lower a +++ PyStr.lower b
             | _ => PyStr.lower b +++ PyStr.lower a
             end, dsg).
Proof.
  unfold create_seealso, ret. cbn [map sort_strings fold_right insert_sorted
                                   PyStr.join String.concat fst].
  rewrite (String.compare_antisym (PyStr.lower b) (PyStr.lower a)).
  destruct (String.compare (PyStr.lower a) (PyStr.lower b)) eqn:E;
    cbn [CompOpp]; (split; [|eexists; reflexivity]); try reflexivity.
  apply String_as_OT.cmp_eq in E. now rewrite E.
Qed.

(** ** What the inline renderer leaves alone *)

(** Rendering a node as text never touches the registry or the version
    store, whatever the node is and whether or not the rendering raises:
    in particular a Reference met by [astext] is rendered as its text
    without its name being recorded. *)
Theorem astext_keeps_registry_and_store
    (n : node) (st st' : state) (r : result string) :
  astext n st = (r, st') ->
  references st' = references st /\ store_versions st' = store_versions st.
Proof.
  intros H. destruct (frame_astext n st r st' H). auto.
Qed.

Lemma astext_keeps_registry_and_store_witness :
  references (mkState [] None []) = references initial_state
  /\ store_versions (mkState [] None []) = store_versions initial_state.
Proof.
  apply (astext_keeps_registry_and_store
           (Element "list_item" no_attrs
              [Element "paragraph" no_attrs
                 [Text "See"; reference_node (Some "Foo") "http://x" "Foo"]])
           initial_state (mkState [] None []) (Ok "See Foo")).
  reflexivity.
Defined.

(** ** The registry as a set of lower-case names *)

Lemma lower_char_idem (a : ascii) :
  PyStr.lower_char (PyStr.lower_char a) = PyStr.lower_char a.
Proof. destruct a as [[] [] [] [] [] [] [] []]; reflexivity. Qed.

Lemma lower_idem (s : string) : PyStr.lower (PyStr.lower s) = PyStr.lower s.
Proof.
  induction s as [|a s IH]; simpl; [reflexivity|].
  now rewrite lower_char_idem, IH.
Qed.

Lemma set_add_NoDup (x : string) (s : list string) :
  NoDup s -> NoDup (set_add x s).
Proof.
  intros H. unfold set_add. destruct (PyStr.mem x s) eqn:E; [assumption|].
  apply NoDup_app; [assumption|repeat constructor; intros []|].
  intros y Hy [<-|[]]. apply mem_In in Hy. rewrite Hy in E. discriminate.
Qed.

Lemma render_event_registry (ev : registry_event) (st st' : state)
    (r : result unit) :
  render_event ev st = (r, st') ->
  references st' = references st
  \/ exists name, references st'
                  = set_add (PyStr.lower name) (references st).
Proof.
  destruct ev as [n|n]; simpl; intros H.
  - unfold bind in H.
    destruct (process_reference n st) as [[x|e] st1] eqn:Hp.
    + unfold ret in H. injection H as _ <-.
      unfold process_reference, bind, assert in Hp.
      destruct (String.eqb (tagname n) "reference"); [|discriminate].
      simpl in Hp. destruct (a_name (node_attrs n)) as [name|].
      * injection Hp as _ <-. right. now exists name.
      * injection Hp as _ <-. now left.
    + injection H as _ <-.
      unfold process_reference, bind, assert in Hp.
      destruct (String.eqb (tagname n) "reference").
      * simpl in Hp. destruct (a_name (node_attrs n)); discriminate.
      * injection Hp as _ <-. now left.
  - left. now destruct (frame_process_target n st r st' H).
Qed.

Lemma render_events_registry (evs : list registry_event) :
  forall st st' r,
  render_events evs st = (r, st') ->
  NoDup (references st) ->
  (forall y, In y (references st) -> PyStr.lower y = y) ->
  NoDup (references st')
  /\ (forall y, In y (references st') -> PyStr.lower y = y).
Proof.
  induction evs as [|ev evs IH]; intros st st' r H Hnd Hlow.
  - unfold render_events in H. simpl in H. unfold ret in H.
    injection H as _ <-. auto.
  - unfold render_events in H. cbn [forM_] in H. unfold bind in H.
    destruct (render_event ev st) as [[[]|e] st1] eqn:E.
    + apply (IH _ _ _ H).
      * destruct (render_event_registry _ _ _ _ E) as [->|[name ->]];
          [assumption|now apply set_add_NoDup].
      * intros y Hy.
        destruct (render_event_registry _ _ _ _ E) as [Hr|[name Hr]];
          rewrite Hr in Hy; [now apply Hlow|].
        apply set_add_In in Hy. destruct Hy as [->|Hy];
          [apply lower_idem|now apply Hlow].
    + injection H as _ <-.
      destruct (render_event_registry _ _ _ _ E) as [->|[name ->]].
      * auto.
      * split; [now apply set_add_NoDup|].
        intros y Hy. apply set_add_In in Hy. destruct Hy as [->|Hy];
          [apply lower_idem|now apply Hlow].
Qed.

(** Whatever References and Targets are rendered, and whether or not
    the rendering ends in an error, the registry holds each name once
    and holds lower-case names only; so the lower-cased look-up that
    [process_target] makes finds a name however the Reference spelt
    it. *)
Theorem registry_holds_distinct_lower_case_names
    (evs : list registry_event) (st' : state) (r : result unit) :
  render_events evs initial_state = (r, st') ->
  NoDup (references st')
  /\ (forall y, In y (references st') -> PyStr.lower y = y).
Proof.
  intros H. apply (render_events_registry evs _ _ _ H).
  - constructor.
  - intros y [].
Qed.

Lemma registry_holds_distinct_lower_case_names_witness :
  NoDup (references (mkState ["the ogip format"] None []))
  /\ (forall y, In y (references (mkState ["the ogip format"] None [])) ->
                PyStr.lower y = y).
Proof.
  apply (registry_holds_distinct_lower_case_names
           [RenderReference
              (reference_node (Some "The OGIP Format") "http://x" "X");
            RenderReference
              (reference_node (Some "THE OGIP FORMAT") "http://y" "Y");
            RenderTarget (target_node ["other"])]
           (mkState ["the ogip format"] None [])
           (Raise (ValueError "Found un-referenced target block"))).
  reflexivity.
Defined.

(** ** Paragraphs converted without links *)

Lemma convert_para_loop_plain (ns : list node) :
  forall text x st res st',
  convert_para_loop false ns text (Elem "PARA" [] x None []) None st
  = (Ok res, st') ->
  exists ts,
    plain_pieces ns ts
    /\ res = Elem "PARA" [] (Some (PyStr.join newline (text ++ ts))) None [].
Proof.
  induction ns as [|n ns IH]; intros text x st res st' H.
  - apply ret_ok in H. destruct H as [-> _]. exists [].
    split; [constructor|]. now rewrite app_nil_r.
  - cbn [convert_para_loop] in H.
    destruct (String.eqb (tagname n) "target") eqn:Et.
    + apply String.eqb_eq in Et.
      apply bind_ok in H. destruct H as [u [s1 [_ H]]].
      apply IH in H. destruct H as [ts [Hp ->]].
      exists ts. split; [now apply pieces_target|reflexivity].
    + apply String.eqb_neq in Et.
      destruct (String.eqb (tagname n) "reference") eqn:Er; cbn [negb] in H.
      * apply String.eqb_eq in Er.
        apply bind_ok in H. destruct H as [p1 [s1 [_ H]]].
        apply bind_ok in H. destruct H as [t [s2 [Ht H]]].
        unfold make_href_text in Ht.
        apply bind_ok in Ht. destruct Ht as [[txt uri] [s3 [Hp Ht]]].
        apply ret_ok in Ht. destruct Ht as [-> _].
        unfold process_reference in Hp.
        apply bind_ok in Hp. destruct Hp as [u1 [s4 [_ Hp]]].
        apply bind_ok in Hp. destruct Hp as [u2 [s5 [_ Hp]]].
        apply ret_ok in Hp. destruct Hp as [Hp _]. injection Hp as -> ->.
        apply IH in H. destruct H as [ts [Hps ->]].
        eexists. split; [apply pieces_reference; eassumption|].
        now rewrite <- app_assoc.
      * apply String.eqb_neq in Er.
        apply bind_ok in H. destruct H as [t [s1 [Ht H]]].
        apply IH in H. destruct H as [ts [Hps ->]].
        exists (t :: ts). split.
        -- apply pieces_text; try assumption. now exists st, s1.
        -- now rewrite <- app_assoc.
Qed.

(** With [complex=False], as used for the bodies of fields, a paragraph
    becomes a PARA that holds text only: it has no attribute, no tail
    and no HREF child. Its text is the pieces of the paragraph joined
    by newlines, in order: nothing for a Target, the display text and
    the bracketed [refuri] for a Reference, and the rendered text for
    any other child. *)
Theorem plain_paragraphs_have_no_children
    (para : node) (st st' : state) (out : element) :
  convert_para para false st = (Ok out, st') ->
  exists ts,
    plain_pieces (children para) ts
    /\ out = Elem "PARA" [] (Some (PyStr.join newline ts)) None [].
Proof.
  intros H. unfold convert_para in H.
  apply bind_ok in H. destruct H as [u [s1 [_ H]]].
  apply convert_para_loop_plain in H. exact H.
Qed.

Lemma plain_paragraphs_have_no_children_witness :
  exists ts,
    plain_pieces
      (children (Element "paragraph" no_attrs
                   [Text "See";
                    reference_node (Some "Foo") "http://x" "Foo";
                    target_node ["foo"]; Text "for more."]))
      ts
    /\ Elem "PARA" [] (Some ("See" +++ newline +++ "Foo [http://x]"
                             +++ newline +++ "for more.")) None []
       = Elem "PARA" [] (Some (PyStr.join newline ts)) None [].
Proof.
  apply (plain_paragraphs_have_no_children
           (Element "paragraph" no_attrs
                    [Text "See"; reference_node (Some "Foo") "http://x" "Foo";
                     target_node ["foo"]; Text "for more."])
           initial_state (mkState ["foo"] None [])).
  reflexivity.
Defined.

(** A field body converts only when it holds at most one child, a
    paragraph, and the result is a PARA without children: an empty PARA
    for an empty body, the text of the paragraph otherwise. *)
Theorem field_bodies_are_single_plain_paragraphs
    (fbody : node) (st st' : state) (out : element) :
  convert_field_body fbody st = (Ok out, st') ->
  tagname fbody = "field_body"
  /\ ((children fbody = [] /\ out = new_element "PARA" /\ st' = st)
      \/ (exists p t, children fbody = [p] /\ tagname p = "paragraph"
                      /\ out = Elem "PARA" [] (Some t) None [])).
Proof.
  intros Hf. unfold convert_field_body in Hf.
  bind_step Hf. apply assert_ok in Hc. destruct Hc as [Ht ->].
  apply String.eqb_eq in Ht. split; [exact Ht|].
  destruct (all_tagged "paragraph" (children fbody)) eqn:Hall;
    cbn [negb] in Hf; [|discriminate].
  destruct (children fbody) as [|p [|q ps]]; try discriminate.
  - left. apply ret_ok in Hf. destruct Hf as [-> ->]. auto.
  - right. unfold all_tagged in Hall. cbn [forallb] in Hall.
    apply andb_true_iff in Hall. destruct Hall as [Hp _].
    apply String.eqb_eq in Hp.
    unfold convert_para in Hf. bind_step Hf.
    apply convert_para_loop_plain in Hf. destruct Hf as [ts [_ ->]].
    eexists p, _. auto.
Qed.

Lemma field_bodies_are_single_plain_paragraphs_witness :
  tagname (Element "field_body" no_attrs [paragraph "the x values"])
  = "field_body"
  /\ ((children (Element "field_body" no_attrs [paragraph "the x values"])
       = []
       /\ text_element "PARA" "the x values" = new_element "PARA"
       /\ initial_state = initial_state)
      \/ (exists p t,
            children (Element "field_body" no_attrs
                              [paragraph "the x values"]) = [p]
            /\ tagname p = "paragraph"
            /\ text_element "PARA" "the x values"
               = Elem "PARA" [] (Some t) None [])).
Proof.
  apply (field_bodies_are_single_plain_paragraphs
           (Element "field_body" no_attrs [paragraph "the x values"])
           initial_state initial_state).
  reflexivity.
Defined.

(** ** Lists *)

Lemma mapM_Forall2 {A B : Type} (f : A -> M B) (l : list A) :
  forall st bs st',
  mapM f l st = (Ok bs, st') ->
  Forall2 (fun a b => exists s1 s2, f a s1 = (Ok b, s2)) l bs.
Proof.
  induction l as [|a l IH]; intros st bs st' H.
  - apply ret_ok in H. destruct H as [-> _]. constructor.
  - cbn [mapM] in H. bind_step H. bind_step H.
    apply ret_ok in H. destruct H as [-> _].
    constructor; [now exists st, st0|]. eapply IH; eassumption.
Qed.

(** A list converts item by item: the LIST has exactly one ITEM for each
    child of the list, in order, each ITEM holding text and nothing
    else; and the conversion only succeeds when every child is a
    [list_item]. *)
Theorem list_items_convert_one_to_one
    (para : node) (st st' : state) (out : element) :
  convert_list_items para st = (Ok out, st') ->
  all_tagged "list_item" (children para) = true
  /\ exists items,
       out = Elem "LIST" [] None None items
       /\ Forall2 (fun el item =>
                     exists t, item = Elem "ITEM" [] (Some t) None []
                               /\ rendered el t)
                  (children para) items.
Proof.
  unfold convert_list_items. intros H. bind_step H.
  apply ret_ok in H. destruct H as [-> _].
  apply mapM_Forall2 in Hc.
  assert (Hall : Forall2 (fun el item =>
                            tagname el = "list_item"
                            /\ exists t, item = Elem "ITEM" [] (Some t) None []
                                         /\ rendered el t)
                         (children para) a).
  { eapply Forall2_impl; [|exact Hc].
    intros el item [s1 [s2 Hel]]. cbn beta in Hel.
    bind_step Hel. apply assert_ok in Hc0. destruct Hc0 as [Ht ->].
    bind_step Hel. apply ret_ok in Hel. destruct Hel as [-> _].
    split; [now apply String.eqb_eq|].
    exists a1. split; [reflexivity|now exists s1, st1]. }
  clear Hc. split.
  - unfold all_tagged. induction Hall as [|el item els items [Ht _] _ IH];
      [reflexivity|].
    simpl. rewrite Ht. exact IH.
  - exists a. split; [reflexivity|].
    eapply Forall2_impl; [|exact Hall]. intros el item [_ H]. exact H.
Qed.

Lemma list_items_convert_one_to_one_witness :
  all_tagged "list_item"
    (children (Element "bullet_list" no_attrs
                 [Element "list_item" no_attrs [paragraph "one"];
                  Element "list_item" no_attrs [paragraph "two"]])) = true
  /\ exists items,
       Elem "LIST" [] None None
            [text_element "ITEM" "one"; text_element "ITEM" "two"]
       = Elem "LIST" [] None None items
       /\ Forall2 (fun el item =>
                     exists t, item = Elem "ITEM" [] (Some t) None []
                               /\ rendered el t)
                  (children (Element "bullet_list" no_attrs
                               [Element "list_item" no_attrs [paragraph "one"];
                                Element "list_item" no_attrs
                                        [paragraph "two"]]))
                  items.
Proof.
  apply (list_items_convert_one_to_one
           (Element "bullet_list" no_attrs
                    [Element "list_item" no_attrs [paragraph "one"];
                     Element "list_item" no_attrs [paragraph "two"]])
           initial_state initial_state).
  reflexivity.
Defined.

(** ** The dispatch of make_para_blocks *)

(** A node whose tagname is neither [system_message] nor [paragraph]
    nor a key of the converter table is refused with the "Unsupported
    paragraph type" [ValueError], and nothing is changed. *)
Theorem unsupported_tagname_is_refused (para : node) (st : state) :
  PyStr.mem (tagname para) convertible_tagnames = false ->
  make_para_blocks para st
  = (Raise (ValueError "Unsupported paragraph type"), st).
Proof.
  intros H. unfold PyStr.mem, convertible_tagnames in H.
  cbn [existsb] in H.
  repeat (apply orb_false_iff in H; destruct H as [?E H]).
  unfold make_para_blocks, is_para.
  repeat match goal with
         | E : String.eqb (tagname para) ?t = false |- _ =>
             rewrite E; clear E
         end.
  reflexivity.
Qed.

Lemma unsupported_tagname_is_refused_witness :
  make_para_blocks (Element "transition" no_attrs []) initial_state
  = (Raise (ValueError "Unsupported paragraph type"), initial_state).
Proof.
  apply (unsupported_tagname_is_refused
           (Element "transition" no_attrs []) initial_state).
  reflexivity.
Defined.

(** ** Definition lists *)

(** A definition list becomes a single TABLE: the header row
    Item / Definition, then one row of exactly two cells for each
    [definition_list_item], in order. The first cell is the text of the
    item's first child, its term; the second cell is the rendering of
    the single paragraph held by the item's second child, its
    definition. *)
Theorem definition_list_is_a_two_column_table
    (para : node) (st st' : state) (out : list element) :
  convert_definition_list_as_table para st = (Ok out, st') ->
  exists rows,
    out = [Elem "TABLE" [] None None
                (table_row ["Item"; "Definition"] :: rows)]
    /\ Forall2 (fun el row =>
                  tagname el = "definition_list_item"
                  /\ exists term defn body t,
                       nth_error (children el) 0 = Some term
                       /\ tagname term = "term"
                       /\ nth_error (children el) 1 = Some defn
                       /\ tagname defn = "definition"
                       /\ children defn = [body]
                       /\ tagname body = "paragraph"
                       /\ rendered body t
                       /\ row = table_row [node_astext term; t])
               (children para) rows.
Proof.
  unfold convert_definition_list_as_table. intros H.
  apply bind_ok in H. destruct H as [u0 [s0 [_ H]]].
  apply bind_ok in H. destruct H as [rows [s1 [Hrows H]]].
  apply ret_ok in H. destruct H as [-> _].
  exists rows. split; [reflexivity|].
  apply mapM_Forall2 in Hrows.
  eapply Forall2_impl; [|exact Hrows].
  intros el row [sa [sb Hel]]. cbn beta in Hel.
  apply bind_ok in Hel. destruct Hel as [[term body] [sc [Hchk Hel]]].
  apply bind_ok in Hel. destruct Hel as [t [sd [Ht Hel]]].
  apply ret_ok in Hel. destruct Hel as [-> _].
  unfold check_definition_list_item in Hchk.
  apply bind_ok in Hchk. destruct Hchk as [u1 [t1 [Htag Hchk]]].
  apply assert_ok in Htag. destruct Htag as [Htag _].
  apply bind_ok in Hchk. destruct Hchk as [el0 [t2 [Hel0 Hchk]]].
  apply bind_ok in Hchk. destruct Hchk as [u2 [t3 [Hterm Hchk]]].
  apply assert_ok in Hterm. destruct Hterm as [Hterm _].
  apply bind_ok in Hchk. destruct Hchk as [el00 [t4 [_ Hchk]]].
  apply bind_ok in Hchk. destruct Hchk as [u3 [t5 [_ Hchk]]].
  apply bind_ok in Hchk. destruct Hchk as [el1 [t6 [Hel1 Hchk]]].
  apply bind_ok in Hchk. destruct Hchk as [u4 [t7 [Hdefn Hchk]]].
  apply assert_ok in Hdefn. destruct Hdefn as [Hdefn _].
  apply bind_ok in Hchk. destruct Hchk as [el10 [t8 [Hel10 Hchk]]].
  apply bind_ok in Hchk. destruct Hchk as [u5 [t9 [Hpara Hchk]]].
  apply assert_ok in Hpara. destruct Hpara as [Hpara _].
  apply bind_ok in Hchk. destruct Hchk as [u6 [t10 [Hone Hchk]]].
  apply assert_ok in Hone. destruct Hone as [Hone _].
  apply Nat.eqb_eq in Hone.
  apply ret_ok in Hchk. destruct Hchk as [Hpair _].
  injection Hpair as -> ->.
  apply String.eqb_eq in Htag, Hterm, Hdefn, Hpara.
  split; [exact Htag|].
  exists el0, el1, el10, t.
  unfold child in Hel0, Hel1, Hel10.
  destruct (nth_error (children el) 0) as [c0|]; [|discriminate].
  apply ret_ok in Hel0. destruct Hel0 as [-> _].
  destruct (nth_error (children el) 1) as [c1|]; [|discriminate].
  apply ret_ok in Hel1. destruct Hel1 as [-> _].
  destruct (children c1) as [|b [|b' bs]]; try discriminate.
  cbn in Hel10. apply ret_ok in Hel10. destruct Hel10 as [-> _].
  repeat split; try assumption; try reflexivity.
  now exists sc, sd.
Qed.

Lemma definition_list_is_a_two_column_table_witness :
  exists rows,
    [Elem "TABLE" [] None None
          [table_row ["Item"; "Definition"]; table_row ["fwhm"; "the width"]]]
    = [Elem "TABLE" [] None None
            (table_row ["Item"; "Definition"] :: rows)]
    /\ Forall2 (fun el row =>
                  tagname el = "definition_list_item"
                  /\ exists term defn body t,
                       nth_error (children el) 0 = Some term
                       /\ tagname term = "term"
                       /\ nth_error (children el) 1 = Some defn
                       /\ tagname defn = "definition"
                       /\ children defn = [body]
                       /\ tagname body = "paragraph"
                       /\ rendered body t
                       /\ row = table_row [node_astext term; t])
               (children
                  (Element "definition_list" no_attrs
                     [Element "definition_list_item" no_attrs
                        [Element "term" no_attrs [Text "fwhm"];
                         Element "definition" no_attrs
                                 [paragraph "the width"]]]))
               rows.
Proof.
  apply (definition_list_is_a_two_column_table
           (Element "definition_list" no_attrs
              [Element "definition_list_item" no_attrs
                 [Element "term" no_attrs [Text "fwhm"];
                  Element "definition" no_attrs [paragraph "the width"]]])
           initial_state initial_state).
  reflexivity.
Defined.

(** ** Notes and warnings *)

Lemma close_run_head (text : list string) (out : element)
    (href : option element) :
  etag_of (close_run text out href) = etag_of out
  /\ attrib_of (close_run text out href) = attrib_of out.
Proof. destruct out, href; auto. Qed.

Lemma convert_para_loop_head (complex : bool) (ns : list node) :
  forall text out href st res st',
  convert_para_loop complex ns text out href st = (Ok res, st') ->
  etag_of res = etag_of out /\ attrib_of res = attrib_of out.
Proof.
  induction ns as [|n ns IH]; intros text out href st res st' H.
  - apply ret_ok in H. destruct H as [-> _]. apply close_run_head.
  - cbn [convert_para_loop] in H.
    destruct (String.eqb (tagname n) "target").
    + bind_step H. eapply IH; eassumption.
    + destruct (String.eqb (tagname n) "reference").
      * destruct complex; cbn [negb] in H.
        -- bind_step H. apply IH in H.
           destruct (close_run_head text out href) as [E1 E2].
           now rewrite E1, E2 in H.
        -- bind_step H. bind_step H. eapply IH; eassumption.
      * bind_step H. eapply IH; eassumption.
Qed.

Lemma convert_para_head (para : node) (complex : bool)
    (st st' : state) (out : element) :
  convert_para para complex st = (Ok out, st') ->
  etag_of out = "PARA" /\ attrib_of out = [].
Proof.
  unfold convert_para. intros H. bind_step H.
  now apply convert_para_loop_head in H.
Qed.

Lemma eget_eset_fresh (k v : string) (e : element) :
  attrib_of e = [] ->
  etag_of (eset k (Some v) e) = etag_of e
  /\ attrib_of (eset k (Some v) e) = [(k, Some v)]
  /\ eget k (eset k (Some v) e) = Some v.
Proof.
  destruct e as [t a x y cs]. cbn [attrib_of]. intros ->.
  unfold eget, eset. cbn [etag_of attrib_of dict_set dict_get].
  now rewrite String.eqb_refl.
Qed.

(** A note that converts is a PARA whose only attribute is its title:
    "Note" when the note holds one paragraph, the text of the first of
    its two paragraphs otherwise. The one note that is dropped is the
    two-paragraph note titled "Parameter renames in XSPEC 12.11.1", and
    no returned note has that title. *)
Theorem notes_carry_exactly_a_title
    (note : node) (st st' : state) (r : option element) :
  convert_note note st = (Ok r, st') ->
  match r with
  | Some out =>
      etag_of out = "PARA"
      /\ exists title,
           attrib_of out = [("title", Some title)]
           /\ title <> "Parameter renames in XSPEC 12.11.1"
           /\ (length (children note) = 1 -> title = "Note")
           /\ (length (children note) <> 1 ->
               exists n0, nth_error (children note) 0 = Some n0
                          /\ rendered n0 title)
  | None =>
      length (children note) = 2
      /\ exists n0, nth_error (children note) 0 = Some n0
                    /\ rendered n0 "Parameter renames in XSPEC 12.11.1"
  end.
Proof.
  unfold convert_note. intros H.
  apply bind_ok in H. destruct H as [u1 [s1 [_ H]]].
  apply bind_ok in H. destruct H as [u2 [s2 [_ H]]].
  apply bind_ok in H. destruct H as [u3 [s3 [Hlen H]]].
  apply assert_ok in Hlen. destruct Hlen as [Hlen _].
  apply Nat.ltb_lt in Hlen.
  apply bind_ok in H. destruct H as [[title out] [s4 [Hb H]]].
  assert (Hout : etag_of out = "PARA" /\ attrib_of out = []
                 /\ (length (children note) = 1 -> title = "Note")
                 /\ (length (children note) <> 1 ->
                     length (children note) = 2
                     /\ exists n0, nth_error (children note) 0 = Some n0
                                   /\ rendered n0 title)).
  { destruct (length (children note) =? 1)%nat eqn:E1.
    - apply Nat.eqb_eq in E1.
      apply bind_ok in Hb. destruct Hb as [n0 [s5 [_ Hb]]].
      apply bind_ok in Hb. destruct Hb as [o [s6 [Hp Hb]]].
      apply ret_ok in Hb. destruct Hb as [Hb _]. injection Hb as -> ->.
      apply convert_para_head in Hp. destruct Hp as [Ht Ha].
      split; [exact Ht|]. split; [exact Ha|]. split; [reflexivity|].
      intros Hn. contradiction.
    - apply Nat.eqb_neq in E1.
      apply bind_ok in Hb. destruct Hb as [n0 [s5 [Hn0 Hb]]].
      apply bind_ok in Hb. destruct Hb as [t [s6 [Ht Hb]]].
      apply bind_ok in Hb. destruct Hb as [n1 [s7 [Hn1 Hb]]].
      apply bind_ok in Hb. destruct Hb as [o [s8 [Hp Hb]]].
      apply ret_ok in Hb. destruct Hb as [Hb _]. injection Hb as -> ->.
      apply convert_para_head in Hp. destruct Hp as [Hto Ha].
      split; [exact Hto|]. split; [exact Ha|].
      split; [intros Hn; contradiction|]. intros _. split.
      + unfold child in Hn1.
        destruct (children note) as [|x [|y [|z l]]]; simpl in *;
          try discriminate; try lia.
      + exists n0. unfold child in Hn0.
        destruct (nth_error (children note) 0); [|discriminate].
        apply ret_ok in Hn0. destruct Hn0 as [-> ->].
        split; [reflexivity|]. now exists s3, s6. }
  destruct Hout as [Htag [Hattr [Hone Htwo]]].
  destruct (String.eqb title "Parameter renames in XSPEC 12.11.1") eqn:Et.
  - apply String.eqb_eq in Et. subst title.
    apply ret_ok in H. destruct H as [-> _].
    apply Htwo. intros Hn. apply Hone in Hn. discriminate.
  - apply String.eqb_neq in Et.
    apply ret_ok in H. destruct H as [-> _].
    destruct (eget_eset_fresh "title" title out Hattr) as [T1 [T2 _]].
    split; [congruence|]. exists title. repeat split; auto.
    intros Hn. now apply Htwo.
Qed.

Lemma notes_carry_exactly_a_title_witness :
  etag_of (Elem "PARA" [("title", Some "Caveat")] (Some "be careful")
                None []) = "PARA"
  /\ exists title,
       attrib_of (Elem "PARA" [("title", Some "Caveat")] (Some "be careful")
                       None []) = [("title", Some title)]
       /\ title <> "Parameter renames in XSPEC 12.11.1"
       /\ (length (children (Element "note" no_attrs
                               [paragraph "Caveat"; paragraph "be careful"]))
           = 1 -> title = "Note")
       /\ (length (children (Element "note" no_attrs
                               [paragraph "Caveat"; paragraph "be careful"]))
           <> 1 ->
           exists n0,
             nth_error (children (Element "note" no_attrs
                                    [paragraph "Caveat";
                                     paragraph "be careful"])) 0 = Some n0
             /\ rendered n0 title).
Proof.
  apply (notes_carry_exactly_a_title
           (Element "note" no_attrs
                    [paragraph "Caveat"; paragraph "be careful"])
           initial_state initial_state
           (Some (Elem "PARA" [("title", Some "Caveat")] (Some "be careful")
                       None []))).
  reflexivity.
Defined.

(** A converted warning is a PARA whose only attribute is the title
    "Warning"; only a warning of exactly one paragraph converts. *)
Theorem warnings_are_titled_Warning
    (w : node) (st st' : state) (out : element) :
  convert_warning w st = (Ok out, st') ->
  (exists p, children w = [p] /\ tagname p = "paragraph")
  /\ etag_of out = "PARA"
  /\ attrib_of out = [("title", Some "Warning")].
Proof.
  unfold convert_warning. intros H.
  apply bind_ok in H. destruct H as [u1 [s1 [_ H]]].
  apply bind_ok in H. destruct H as [u2 [s2 [Hall H]]].
  apply assert_ok in Hall. destruct Hall as [Hall _].
  apply bind_ok in H. destruct H as [u3 [s3 [_ H]]].
  destruct (length (children w) =? 1)%nat eqn:E1; [|discriminate].
  apply Nat.eqb_eq in E1.
  apply bind_ok in H. destruct H as [n0 [s4 [_ H]]].
  apply bind_ok in H. destruct H as [o [s5 [Hp H]]].
  apply ret_ok in H. destruct H as [-> _].
  apply convert_para_head in Hp. destruct Hp as [Ht Ha].
  destruct (eget_eset_fresh "title" "Warning" o Ha) as [T1 [T2 _]].
  split; [|split; [congruence|exact T2]].
  destruct (children w) as [|p [|q l]]; try discriminate.
  exists p. split; [reflexivity|].
  unfold all_tagged in Hall. cbn [forallb] in Hall.
  apply andb_true_iff in Hall. now apply String.eqb_eq.
Qed.

Lemma warnings_are_titled_Warning_witness :
  (exists p, children (Element "warning" no_attrs [paragraph "take care"])
             = [p]
             /\ tagname p = "paragraph")
  /\ etag_of (Elem "PARA" [("title", Some "Warning")] (Some "take care")
                   None []) = "PARA"
  /\ attrib_of (Elem "PARA" [("title", Some "Warning")] (Some "take care")
                     None []) = [("title", Some "Warning")].
Proof.
  apply (warnings_are_titled_Warning
           (Element "warning" no_attrs [paragraph "take care"])
           initial_state initial_state).
  reflexivity.
Defined.

(** ** Tables *)

Lemma add_table_row_rows (el : node) (st st' : state) (rows : list element) :
  add_table_row el st = (Ok rows, st') ->
  Forall2 (fun r x =>
             tagname r = "row"
             /\ exists cells, x = table_row cells
                              /\ length cells = length (children r))
          (children el) rows.
Proof.
  unfold add_table_row. intros H.
  apply bind_ok in H. destruct H as [u [s1 [_ H]]].
  apply mapM_Forall2 in H.
  eapply Forall2_impl; [|exact H].
  intros r x [s2 [s3 Hr]]. cbn beta in Hr.
  apply bind_ok in Hr. destruct Hr as [u1 [s4 [Ht Hr]]].
  apply assert_ok in Ht. destruct Ht as [Ht _].
  apply bind_ok in Hr. destruct Hr as [cells [s5 [Hcells Hr]]].
  apply ret_ok in Hr. destruct Hr as [-> _].
  split; [now apply String.eqb_eq|].
  exists cells. split; [reflexivity|].
  apply mapM_Forall2 in Hcells. symmetry.
  eapply Forall2_length. exact Hcells.
Qed.

(** A table converts to a TABLE with one ROW for each [row] of the
    [thead] and [tbody] of its single group, in document order, and one
    DATA cell for each entry of that row; the [colspec] children add
    nothing. *)
Theorem table_rows_follow_the_document
    (tbl : node) (st st' : state) (out : element) :
  convert_table tbl st = (Ok out, st') ->
  exists tgroup rows,
    children tbl = [tgroup]
    /\ tagname tgroup = "tgroup"
    /\ out = Elem "TABLE" [] None None rows
    /\ Forall2 (fun r x =>
                  tagname r = "row"
                  /\ exists cells, x = table_row cells
                                   /\ length cells = length (children r))
               (table_rows tgroup) rows.
Proof.
  unfold convert_table. intros H.
  apply bind_ok in H. destruct H as [u1 [s1 [_ H]]].
  apply bind_ok in H. destruct H as [u2 [s2 [Hlen H]]].
  apply assert_ok in Hlen. destruct Hlen as [Hlen _].
  apply Nat.eqb_eq in Hlen.
  apply bind_ok in H. destruct H as [tgroup [s3 [Hg H]]].
  apply bind_ok in H. destruct H as [u3 [s4 [Htg H]]].
  apply assert_ok in Htg. destruct Htg as [Htg _].
  apply String.eqb_eq in Htg.
  destruct (a_cols (node_attrs tgroup)) as [ncols|]; [|discriminate].
  apply bind_ok in H. destruct H as [u4 [s5 [_ H]]].
  apply bind_ok in H. destruct H as [rows [s6 [Hrows H]]].
  apply ret_ok in H. destruct H as [-> _].
  exists tgroup, (concat rows). split.
  { unfold child in Hg. destruct (children tbl) as [|g [|g' l]];
      try discriminate.
    cbn in Hg. apply ret_ok in Hg. destruct Hg as [-> _]. reflexivity. }
  split; [exact Htg|]. split; [reflexivity|].
  apply mapM_Forall2 in Hrows. unfold table_rows.
  induction Hrows as [|el rs els rss [sa [sb Hel]] _ IH]; [constructor|].
  cbn [flat_map concat]. apply Forall2_app; [|exact IH].
  destruct (String.eqb (tagname el) "colspec").
  - apply ret_ok in Hel. destruct Hel as [-> _]. constructor.
  - destruct (PyStr.mem (tagname el) ["thead"; "tbody"]); [|discriminate].
    eapply add_table_row_rows. exact Hel.
Qed.

Lemma table_rows_follow_the_document_witness :
  exists tgroup rows,
    children (Element "table" no_attrs
                [Element "tgroup" (mkAttrs None None [] None (Some 2))
                   [Element "colspec" no_attrs [];
                    Element "colspec" no_attrs [];
                    Element "tbody" no_attrs
                      [Element "row" no_attrs
                         [Element "entry" no_attrs [paragraph "a"];
                          Element "entry" no_attrs []]]]])
    = [tgroup]
    /\ tagname tgroup = "tgroup"
    /\ Elem "TABLE" [] None None [table_row ["a"; ""]]
       = Elem "TABLE" [] None None rows
    /\ Forall2 (fun r x =>
                  tagname r = "row"
                  /\ exists cells, x = table_row cells
                                   /\ length cells = length (children r))
               (table_rows tgroup) rows.
Proof.
  apply (table_rows_follow_the_document
           (Element "table" no_attrs
              [Element "tgroup" (mkAttrs None None [] None (Some 2))
                 [Element "colspec" no_attrs [];
                  Element "colspec" no_attrs [];
                  Element "tbody" no_attrs
                    [Element "row" no_attrs
                       [Element "entry" no_attrs [paragraph "a"];
                        Element "entry" no_attrs []]]]])
           initial_state initial_state).
  reflexivity.
Defined.
